(** * Session context manager: placement engine and policy materialisation

    A shallow embedding of [upsf_sess_ctx_manager/app.py].  The UPSF client
    is an external collaborator: every call the manager makes to it is
    recorded as an event of a small free monad, and the replies come from a
    handler, so that statements can range over every behaviour of the UPSF
    (failures and concurrent writers included) or be evaluated against an
    in-memory registry. *)

From Stdlib Require Import ZArith List Ascii String QArith Lia.
From Stdlib Require Import DecimalString.
From stdpp Require Import base tactics option list strings.
Import ListNotations.

Set Warnings "-register-all".

Local Open Scope string_scope.
Local Open Scope Z_scope.

(** ** MD5 (RFC 1321), as computed by [hashlib.md5(...).hexdigest()] *)

Module MD5.

Definition mask32 : Z := 0xFFFFFFFF.

(** addition of 32-bit words wraps around *)
Definition add32 (a b : Z) : Z := Z.land (a + b) mask32.

Definition not32 (a : Z) : Z := Z.lxor a mask32.

Definition rotl32 (x : Z) (c : Z) : Z :=
  Z.land (Z.lor (Z.shiftl x c) (Z.shiftr x (32 - c))) mask32.

Definition K : list Z :=
  [ 0xd76aa478; 0xe8c7b756; 0x242070db; 0xc1bdceee;
    0xf57c0faf; 0x4787c62a; 0xa8304613; 0xfd469501;
    0x698098d8; 0x8b44f7af; 0xffff5bb1; 0x895cd7be;
    0x6b901122; 0xfd987193; 0xa679438e; 0x49b40821;
    0xf61e2562; 0xc040b340; 0x265e5a51; 0xe9b6c7aa;
    0xd62f105d; 0x02441453; 0xd8a1e681; 0xe7d3fbc8;
    0x21e1cde6; 0xc33707d6; 0xf4d50d87; 0x455a14ed;
    0xa9e3e905; 0xfcefa3f8; 0x676f02d9; 0x8d2a4c8a;
    0xfffa3942; 0x8771f681; 0x6d9d6122; 0xfde5380c;
    0xa4beea44; 0x4bdecfa9; 0xf6bb4b60; 0xbebfbc70;
    0x289b7ec6; 0xeaa127fa; 0xd4ef3085; 0x04881d05;
    0xd9d4d039; 0xe6db99e5; 0x1fa27cf8; 0xc4ac5665;
    0xf4292244; 0x432aff97; 0xab9423a7; 0xfc93a039;
    0x655b59c3; 0x8f0ccc92; 0xffeff47d; 0x85845dd1;
    0x6fa87e4f; 0xfe2ce6e0; 0xa3014314; 0x4e0811a1;
    0xf7537e82; 0xbd3af235; 0x2ad7d2bb; 0xeb86d391 ].

Definition S : list Z :=
  [ 7; 12; 17; 22; 7; 12; 17; 22; 7; 12; 17; 22; 7; 12; 17; 22;
    5;  9; 14; 20; 5;  9; 14; 20; 5;  9; 14; 20; 5;  9; 14; 20;
    4; 11; 16; 23; 4; 11; 16; 23; 4; 11; 16; 23; 4; 11; 16; 23;
    6; 10; 15; 21; 6; 10; 15; 21; 6; 10; 15; 21; 6; 10; 15; 21 ].

Definition nthZ (l : list Z) (i : Z) : Z := nth (Z.to_nat i) l 0.

(** little-endian word of four bytes *)
Definition word_of_bytes (b0 b1 b2 b3 : Z) : Z :=
  Z.lor b0 (Z.lor (Z.shiftl b1 8) (Z.lor (Z.shiftl b2 16) (Z.shiftl b3 24))).

Fixpoint words_of_bytes (bs : list Z) : list Z :=
  match bs with
  | b0 :: b1 :: b2 :: b3 :: r => word_of_bytes b0 b1 b2 b3 :: words_of_bytes r
  | _ => []
  end.

Definition bytes_of_word (n : nat) (w : Z) : list Z :=
  map (fun i => Z.land (Z.shiftr w (8 * Z.of_nat i)) 0xFF) (seq 0 n).

(** the message, a single 1 bit, zeros up to 56 mod 64, the bit length on
    64 bits *)
Definition pad (msg : list Z) : list Z :=
  let len := Z.of_nat (length msg) in
  let zeros := Z.to_nat ((55 - len) mod 64) in
  msg ++ [0x80] ++ repeat 0 zeros
      ++ bytes_of_word 8 (Z.land (8 * len) 0xFFFFFFFFFFFFFFFF).

Record state := St { sa : Z; sb : Z; sc : Z; sd : Z }.

Definition init : state :=
  St 0x67452301 0xefcdab89 0x98badcfe 0x10325476.

Definition step (M : list Z) (st : state) (i : Z) : state :=
  let '(St A B C D) := st in
  let '(F, g) :=
    if i <? 16 then (Z.lor (Z.land B C) (Z.land (not32 B) D), i)
    else if i <? 32 then
      (Z.lor (Z.land D B) (Z.land (not32 D) C), (5 * i + 1) mod 16)
    else if i <? 48 then (Z.lxor B (Z.lxor C D), (3 * i + 5) mod 16)
    else (Z.lxor C (Z.lor B (not32 D)), (7 * i) mod 16) in
  let F' := add32 (add32 (add32 F A) (nthZ K i)) (nthZ M g) in
  St D (add32 B (rotl32 F' (nthZ S i))) B C.

Definition compress (st : state) (M : list Z) : state :=
  let '(St A B C D) :=
    fold_left (step M) (map Z.of_nat (seq 0 64)) st in
  St (add32 (sa st) A) (add32 (sb st) B) (add32 (sc st) C) (add32 (sd st) D).

Fixpoint chunks (n : nat) (ws : list Z) : list (list Z) :=
  match n with
  | O => []
  | Datatypes.S n' =>
      match ws with
      | [] => []
      | _ => firstn 16 ws :: chunks n' (skipn 16 ws)
      end
  end.

Definition digest (msg : list Z) : list Z :=
  let ws := words_of_bytes (pad msg) in
  let '(St A B C D) := fold_left compress (chunks (length ws) ws) init in
  bytes_of_word 4 A ++ bytes_of_word 4 B
    ++ bytes_of_word 4 C ++ bytes_of_word 4 D.

Definition hex_digit (n : Z) : ascii :=
  nth (Z.to_nat n) (list_ascii_of_string "0123456789abcdef") "0"%char.

Definition hex_of_bytes (bs : list Z) : string :=
  string_of_list_ascii
    (flat_map (fun b => [hex_digit (Z.shiftr b 4); hex_digit (Z.land b 15)]) bs).

Definition bytes_of_string (s : string) : list Z :=
  map (fun a => Z.of_N (N_of_ascii a)) (list_ascii_of_string s).

Definition hexdigest (s : string) : string :=
  hex_of_bytes (digest (bytes_of_string s)).

End MD5.

(** ** Python values

    Policy entries come out of [yaml.load] and keyword arguments are passed
    as dictionaries, so their values are dynamically typed.  A Python [str]
    that UTF-8 can encode is represented by the bytes of its encoding
    ([PStr]), which makes [str.encode()] the identity on it.  A [str] that
    holds a lone surrogate has no UTF-8 encoding; it is kept apart
    ([PSurrogates], with the bytes the [surrogatepass] handler would give,
    which are never none), since [str.encode()] refuses it.  The keys of a mapping are strings.
    Floats do not occur in the values the manager inspects and are left
    out. *)

Inductive pyval : Type :=
| PNone
| PBool (b : bool)
| PInt (z : Z)
| PStr (s : string)
| PList (l : list pyval)
| PDict (d : list (string * pyval))
| PSurrogates (s : string).

(** Exceptions the modelled code can meet.  [UpsfError] is the only one the
    manager catches by name; that Python derives [UnicodeEncodeError] from
    [ValueError] is therefore never observed. *)
Inductive exn : Type :=
| UpsfError (msg : string)
| ValueError
| TypeError
| AttributeError
| KeyError
| UnicodeEncodeError.

Inductive result (X : Type) : Type :=
| Ok (x : X)
| Err (e : exn).
Arguments Ok {X} x.
Arguments Err {X} e.

Definition result_bind {A B} (r : result A) (f : A -> result B) : result B :=
  match r with Ok x => f x | Err e => Err e end.

Declare Scope result_scope.
Delimit Scope result_scope with res.
Notation "x ← y ; z" := (result_bind y (fun x => z))
  (at level 20, y at level 100, z at level 200, only parsing) : result_scope.

(** ** Dictionaries

    A Python [dict] keeps its keys in insertion order; assigning to a key
    that is present replaces the value in place. *)

Module PyDict.

Definition dict (V : Type) : Type := list (string * V).

Fixpoint set {V} (k : string) (v : V) (d : dict V) : dict V :=
  match d with
  | [] => [(k, v)]
  | (k', v') :: r =>
      if String.eqb k k' then (k', v) :: r else (k', v') :: set k v r
  end.

Fixpoint get {V} (k : string) (d : dict V) : option V :=
  match d with
  | [] => None
  | (k', v') :: r => if String.eqb k k' then Some v' else get k r
  end.

(** [k in d] *)
Definition mem {V} (k : string) (d : dict V) : bool :=
  match get k d with Some _ => true | None => false end.

(** [d.get(k, default)] *)
Definition get_default {V} (k : string) (default : V) (d : dict V) : V :=
  match get k d with Some v => v | None => default end.

(** [{k: v for k, v in l}] *)
Definition of_list {V} (l : list (string * V)) : dict V :=
  fold_left (fun d kv => set (fst kv) (snd kv) d) l [].

Definition keys {V} (d : dict V) : list string := map fst d.

End PyDict.

Abbreviation dict := PyDict.dict.
Abbreviation kwargs := (PyDict.dict pyval).

(** ** Builtins *)

(** [v in ("", None)] *)
Definition is_empty_or_none (v : pyval) : bool :=
  match v with
  | PNone => true
  | PStr "" => true
  | _ => false
  end.

(** [s.split(",")] on a non-empty separator: an empty string yields [[""]]. *)
Fixpoint split_on (sep : ascii) (s : string) : list string :=
  match s with
  | EmptyString => [""]
  | String c r =>
      if Ascii.eqb c sep then "" :: split_on sep r
      else match split_on sep r with
           | [] => [String c ""]
           | w :: ws => String c w :: ws
           end
  end.

(** [str(z)] for an integer: base-10, a minus sign for negatives *)
Definition str_of_Z (z : Z) : string := NilZero.string_of_int (Z.to_int z).

(** [bool(v)] *)
Definition truthy (v : pyval) : bool :=
  match v with
  | PNone => false
  | PBool b => b
  | PInt z => negb (z =? 0)
  | PStr s => negb (String.eqb s "")
  | PList l => match l with [] => false | _ => true end
  | PDict d => match d with [] => false | _ => true end
  | PSurrogates _ => true
  end.


Definition has_surrogates (v : pyval) : bool :=
  match v with
  | PSurrogates _ => true
  | _ => false
  end.

(** the string made of the texts of [parts]: it holds a lone surrogate when
    one of them does *)
Definition text_of (parts : list pyval) (s : string) : pyval :=
  if existsb has_surrogates parts then PSurrogates s else PStr s.

(** [v.encode()]: only [str] has the method, and UTF-8 refuses a lone
    surrogate. *)
Definition encode (v : pyval) : result string :=
  match v with
  | PStr s => Ok s
  | PSurrogates _ => Err UnicodeEncodeError
  | _ => Err AttributeError
  end.

(** [iter(v)]: lists give their elements, strings their characters,
    dictionaries their keys. *)
Definition py_iter (v : pyval) : result (list pyval) :=
  match v with
  | PList l => Ok l
  | PStr s | PSurrogates s =>
      Ok (map (fun c => PStr (String c "")) (list_ascii_of_string s))
  | PDict d => Ok (map (fun kv => PStr (fst kv)) d)
  | _ => Err TypeError
  end.

(** What the interpreter and its numeric tower decide and the manager's code
    does not: the order in which a [set] of strings is iterated (it depends
    on the per-process hash seed), double-precision division and comparison,
    the integer literals [int(str)] accepts, and [repr] of containers. *)
Class PyRuntime : Type := {
  set_iter : list string -> list string;
  set_iter_NoDup : forall l, NoDup (set_iter l);
  set_iter_elem : forall l x, x ∈ set_iter l <-> x ∈ l;
  pyfloat : Type;
  truediv : Z -> Z -> pyfloat;
  float_lt : pyfloat -> pyfloat -> bool;
  int_of_str : string -> option Z;
  repr : pyval -> string;
}.

Section Builtins.
Context {RT : PyRuntime}.

(** [str(v)] *)
Definition py_str (v : pyval) : string :=
  match v with
  | PNone => "None"
  | PBool true => "True"
  | PBool false => "False"
  | PInt z => str_of_Z z
  | PStr s | PSurrogates s => s
  | PList _ | PDict _ => repr v
  end.

(** [str(v)] as a value: a string is itself, and the text of anything else
    can be encoded *)
Definition str_of (v : pyval) : pyval :=
  match v with
  | PSurrogates _ => v
  | _ => PStr (py_str v)
  end.

(** [int(v)] *)
Definition py_int (v : pyval) : result Z :=
  match v with
  | PInt z => Ok z
  | PBool b => Ok (if b then 1 else 0)
  | PStr s => match int_of_str s with Some z => Ok z | None => Err ValueError end
  | PSurrogates _ => Err ValueError
  | PNone | PList _ | PDict _ => Err TypeError
  end.

(** [min(d, key=d.get)]: the keys are visited in insertion order and a
    later key replaces the best so far only if its value is strictly below,
    so the first key of least value is returned; [d.get(k)] is the value
    stored with [k].  An empty [d] raises [ValueError]. *)
Definition py_min (d : dict pyfloat) : result string :=
  match d with
  | [] => Err ValueError
  | kv0 :: r =>
      Ok (fst (fold_left
                 (fun best kv => if float_lt (snd kv) (snd best) then kv else best)
                 r kv0))
  end.

End Builtins.

(** An idealised runtime for evaluating the model: a set is iterated in the
    order in which its elements were last added, quotients are exact
    rationals, [int] reads an optional sign followed by digits. *)
Program Definition exact_runtime : PyRuntime := {|
  set_iter := remove_dups;
  pyfloat := Q;
  truediv := fun a b => Qmake a (Z.to_pos b);
  float_lt := fun x y => (Qnum x * Zpos (Qden y) <? Qnum y * Zpos (Qden x));
  int_of_str := fun s => option_map Z.of_int (NilZero.int_of_string s);
  repr := fun _ => "<container>";
|}.
Next Obligation. apply NoDup_remove_dups. Qed.
Next Obligation. intros; apply elem_of_remove_dups. Qed.

(** ** Records held by the UPSF

    Only the attributes the manager reads are kept.  The three session
    context attributes it tests against [None] are optional. *)

Record Shard : Type := {
  shard_name : string;
  (** [spec.desired_state.service_gateway_user_plane] *)
  shard_service_gateway_user_plane : string;
  (** [spec.max_session_count] *)
  shard_max_session_count : Z;
  (** [status.allocated_session_count] *)
  shard_allocated_session_count : Z;
}.

Record ServiceGatewayUserPlane : Type := {
  sgup_name : string;
  (** [spec.supported_service_group] *)
  sgup_supported_service_group : list string;
  sgup_max_session_count : Z;
  sgup_allocated_session_count : Z;
}.

Record SessionContext : Type := {
  sctx_name : string;
  (** [spec.required_quality] *)
  sctx_required_quality : option Z;
  (** [spec.required_service_group] *)
  sctx_required_service_group : option (list string);
  (** [spec.desired_state.shard] *)
  sctx_desired_shard : option string;
}.

(** ** Calls to the UPSF client and the programs that make them *)

Module UPSF.

Inductive call : Type :=
| list_shards
| list_service_gateway_user_planes
| list_session_contexts
| get_shard (name : string)
| get_service_gateway_user_plane (name : string)
| update_shard (params : kwargs)
| update_service_gateway_user_plane (params : kwargs)
| update_session_context (params : kwargs)
| create_session_context (params : kwargs).

(** what a call returns when it does not raise *)
Definition resp (c : call) : Type :=
  match c with
  | list_shards => list Shard
  | list_service_gateway_user_planes => list ServiceGatewayUserPlane
  | list_session_contexts => list SessionContext
  | get_shard _ => Shard
  | get_service_gateway_user_plane _ => ServiceGatewayUserPlane
  | update_shard _ => unit
  | update_service_gateway_user_plane _ => unit
  | update_session_context _ => unit
  | create_session_context _ => SessionContext
  end.

End UPSF.

Abbreviation call := UPSF.call.
Abbreviation resp := UPSF.resp.

Inductive level : Type := DEBUG | INFO | WARNING | ERROR.

(** A computation either returns, raises, writes a log record (identified
    by its ["event"] text) or calls the UPSF and continues with the reply. *)
Inductive prog (A : Type) : Type :=
| Ret (a : A)
| Raise (e : exn)
| Log (lvl : level) (event : string) (k : prog A)
| Call (c : call) (k : result (resp c) -> prog A).
Arguments Ret {A} a.
Arguments Raise {A} e.
Arguments Log {A} lvl event k.
Arguments Call {A} c k.

Fixpoint bind {A B} (p : prog A) (f : A -> prog B) : prog B :=
  match p with
  | Ret a => f a
  | Raise e => Raise e
  | Log l m k => Log l m (bind k f)
  | Call c k => Call c (fun r => bind (k r) f)
  end.

Declare Scope prog_scope.
Delimit Scope prog_scope with prog.
Bind Scope prog_scope with prog.
Notation "x ← y ; z" := (bind y (fun x => z))
  (at level 20, y at level 100, z at level 200, only parsing) : prog_scope.
Notation "x ;; z" := (bind x (fun _ => z))
  (at level 100, z at level 200, only parsing, right associativity) : prog_scope.

(** a call whose failure propagates as an exception *)
Definition upsf_call (c : call) : prog (resp c) :=
  Call c (fun r => match r with Ok x => Ret x | Err e => Raise e end).

Definition log (lvl : level) (event : string) : prog unit :=
  Log lvl event (Ret tt).

(** lift a builtin that may raise *)
Definition lift {A} (r : result A) : prog A :=
  match r with Ok x => Ret x | Err e => Raise e end.

(** [try: p except UpsfError as error: h error] *)
Fixpoint try_except_UpsfError {A} (p : prog A) (h : string -> prog A) : prog A :=
  match p with
  | Ret a => Ret a
  | Raise (UpsfError msg) => h msg
  | Raise e => Raise e
  | Log l m k => Log l m (try_except_UpsfError k h)
  | Call c k => Call c (fun r => try_except_UpsfError (k r) h)
  end.

(** [for x in l: body x] *)
Fixpoint for_each {X} (l : list X) (body : X -> prog unit) : prog unit :=
  match l with
  | [] => Ret tt
  | x :: l' => bind (body x) (fun _ => for_each l' body)
  end.

(** *** Running a program against a UPSF *)

Record handler (St : Type) : Type := {
  handle : forall c : call, St -> result (resp c) * St;
}.
Arguments handle {St} h c s.

Inductive event : Type :=
| ev_call (c : call) (r : result (resp c))
| ev_log (lvl : level) (msg : string).

Inductive outcome (A : Type) : Type :=
| returned (a : A)
| raised (e : exn).
Arguments returned {A} a.
Arguments raised {A} e.

Fixpoint run {St A} (h : handler St) (p : prog A) (s : St)
  : outcome A * St * list event :=
  match p with
  | Ret a => (returned a, s, [])
  | Raise e => (raised e, s, [])
  | Log l m k =>
      let '(o, s', t) := run h k s in (o, s', ev_log l m :: t)
  | Call c k =>
      let '(r, s1) := handle h c s in
      let '(o, s', t) := run h (k r) s1 in
      (o, s', ev_call c r :: t)
  end.

(** the calls of a trace, in order *)
Definition calls (t : list event) : list call :=
  flat_map (fun e => match e with ev_call c _ => [c] | ev_log _ _ => [] end) t.

(** ** The manager *)

(** the attributes of [self] that the modelled methods read; the default
    quality is the value [int(self.default_required_quality)] *)
Record Config : Type := {
  default_required_quality : Z;
  default_required_service_groups : string;
}.

Module SessionContextManager.
Section Methods.
Context {RT : PyRuntime} (self : Config).
Local Open Scope prog_scope.

(** [session_hash] applied to the keyword arguments [kw] *)
Definition session_hash (kw : kwargs) : result string :=
  (circuit_id ← encode (PyDict.get_default "circuit_id" (PStr "") kw);
  remote_id ← encode (PyDict.get_default "remote_id" (PStr "") kw);
  source_mac_address ←
    encode (PyDict.get_default "source_mac_address" (PStr "") kw);
  svlan ← encode (str_of (PyDict.get_default "svlan" (PStr "") kw));
  cvlan ← encode (str_of (PyDict.get_default "cvlan" (PStr "") kw));
  Ok (MD5.hexdigest
        (circuit_id ++ remote_id ++ source_mac_address ++ svlan ++ cvlan)))%res.

(** [sctx.spec.required_quality in (0, None, "")] *)
Definition quality_unset (q : option Z) : bool :=
  match q with
  | None => true
  | Some z => z =? 0
  end.

(** [sctx.spec.required_service_group in ([], [""], None, "")] *)
Definition service_group_unset (g : option (list string)) : bool :=
  match g with
  | None => true
  | Some [] => true
  | Some [s] => String.eqb s ""
  | Some _ => false
  end.

(** [sctx.spec.desired_state.shard in (None, "")] *)
Definition shard_unset (s : option string) : bool :=
  match s with
  | None => true
  | Some s => String.eqb s ""
  end.

(** [set(supported).issuperset(set(required))] *)
Definition issuperset (supported required : list string) : bool :=
  forallb (fun r => existsb (String.eqb r) supported) required.

(** the defaulted list: the configured string split at commas, empty
    pieces dropped *)
Definition default_service_groups : list string :=
  List.filter (fun rsg => negb (String.eqb rsg ""))
    (split_on "," (default_required_service_groups self)).

(** the tail of [map_session]: update the session context if any attribute
    has changed *)
Definition commit (sctx : SessionContext) (params : kwargs) : prog unit :=
  if negb (length params =? 0)%nat then
    let params := PyDict.set "name" (PStr (sctx_name sctx)) params in
    log INFO "updating session context";;
    upsf_call (UPSF.update_session_context params);;
    Ret tt
  else Ret tt.

(** the statements of [map_session] that follow the selection: both
    session counts are read again and written back plus one, the shard
    first, and control falls through to [commit] *)
Definition counter_bump (sctx : SessionContext)
    (sgup_name_selected shard_name_selected : string) (params : kwargs)
  : prog unit :=
  log DEBUG "selected service gateway user plane and shard";;
  shard ← upsf_call (UPSF.get_shard shard_name_selected);
  let shard_params :=
    [("name", PStr shard_name_selected);
     ("allocated_session_count",
      PInt (shard_allocated_session_count shard + 1))] in
  upsf_call (UPSF.update_shard shard_params);;
  sgup_selected ←
    upsf_call (UPSF.get_service_gateway_user_plane sgup_name_selected);
  let sgup_params :=
    [("name", PStr sgup_name_selected);
     ("allocated_session_count",
      PInt (sgup_allocated_session_count sgup_selected + 1))] in
  upsf_call (UPSF.update_service_gateway_user_plane sgup_params);;
  commit sctx params.

(** The dictionaries and sets the selection builds, under the names they
    have in [map_session]. *)

(** the SGUPs named by some shard; only membership is asked of this set *)
Definition shard_candidate_sgups (shards : list Shard) : list string :=
  let shard_candidates :=
    PyDict.of_list (map (fun shard => (shard_name shard, shard)) shards) in
  map (fun kv => shard_service_gateway_user_plane (snd kv)) shard_candidates.

Definition service_gateway_user_planes (shards : list Shard)
    (sgups : list ServiceGatewayUserPlane) : dict ServiceGatewayUserPlane :=
  PyDict.of_list
    (map (fun sgup => (sgup_name sgup, sgup))
       (List.filter
          (fun sgup =>
             existsb (String.eqb (sgup_name sgup)) (shard_candidate_sgups shards))
          sgups)).

Definition sgup_candidates (shards : list Shard)
    (sgups : list ServiceGatewayUserPlane) (required : list string)
  : list string :=
  set_iter
    (map fst
       (List.filter
          (fun kv =>
             issuperset (sgup_supported_service_group (snd kv)) required
             && (sgup_allocated_session_count (snd kv)
                 <? sgup_max_session_count (snd kv)))
          (service_gateway_user_planes shards sgups))).

Definition sgup_load (shards : list Shard)
    (sgups : list ServiceGatewayUserPlane) (required : list string)
  : dict pyfloat :=
  PyDict.of_list
    (flat_map
       (fun sgup_name =>
          match PyDict.get sgup_name (service_gateway_user_planes shards sgups) with
          | Some sgup =>
              if (0 <? sgup_max_session_count sgup)
                 && (sgup_allocated_session_count sgup
                     <? sgup_max_session_count sgup)
              then [(sgup_name,
                     truediv (sgup_allocated_session_count sgup)
                             (sgup_max_session_count sgup))]
              else []
          | None => []
          end)
       (sgup_candidates shards sgups required)).

(** the shards of the selected SGUP *)
Definition shard_candidates (shards : list Shard) (sgup_name_selected : string)
  : dict Shard :=
  PyDict.of_list
    (map (fun shard => (shard_name shard, shard))
       (List.filter
          (fun shard =>
             String.eqb (shard_service_gateway_user_plane shard)
                        sgup_name_selected)
          shards)).

Definition shard_load (shards : list Shard) (sgup_name_selected : string)
  : dict pyfloat :=
  PyDict.of_list
    (flat_map
       (fun kv =>
          if (0 <? shard_max_session_count (snd kv))
             && (shard_allocated_session_count (snd kv)
                 <? shard_max_session_count (snd kv))
          then [(fst kv,
                 truediv (shard_allocated_session_count (snd kv))
                         (shard_max_session_count (snd kv)))]
          else [])
       (shard_candidates shards sgup_name_selected)).

(** the block guarded by "set shard"; an early [return] ends the method,
    otherwise control falls through to [commit] *)
Definition place (sctx : SessionContext) (shards : list Shard)
    (sgups : list ServiceGatewayUserPlane) (required : list string)
    (params : kwargs) : prog unit :=
  if (length (sgup_candidates shards sgups required) =? 0)%nat then
    log WARNING "no sgup candidates available for session context, ignoring"
  else
    sgup_name_selected ← lift (py_min (sgup_load shards sgups required));
    if (length (shard_candidates shards sgup_name_selected) =? 0)%nat then
      log WARNING "no shard candidates available for session context, ignoring"
    else
      shard_name_selected ← lift (py_min (shard_load shards sgup_name_selected));
      let params := PyDict.set "desired_shard" (PStr shard_name_selected) params in
      counter_bump sctx sgup_name_selected shard_name_selected params.

(** the pending update after the two default-filling statements *)
Definition fill_defaults (sctx : SessionContext) : kwargs :=
  let params : kwargs := [] in
  let params :=
    if quality_unset (sctx_required_quality sctx)
    then PyDict.set "required_quality"
           (PInt (default_required_quality self)) params
    else params in
  if service_group_unset (sctx_required_service_group sctx)
  then PyDict.set "required_service_group"
         (PList (map PStr default_service_groups)) params
  else params.

(** the body of the [try] statement of [map_session] *)
Definition map_session_body (sctx : SessionContext) : prog unit :=
  shards ← upsf_call UPSF.list_shards;
  if (length shards =? 0)%nat then
    log WARNING "map_session: no shards available"
  else
    sgups ← upsf_call UPSF.list_service_gateway_user_planes;
    if (length sgups =? 0)%nat then
      log WARNING "map_session: no service gateway user planes available"
    else
      let params := fill_defaults sctx in
      if shard_unset (sctx_desired_shard sctx)
         && negb (service_group_unset (sctx_required_service_group sctx))
      then
        place sctx shards sgups
          (default [] (sctx_required_service_group sctx)) params
      else commit sctx params.

(** [map_session(sctx)] *)
Definition map_session (sctx : SessionContext) : prog unit :=
  try_except_UpsfError (map_session_body sctx)
    (fun _ => log ERROR "error occurred").

(** [map_all_sessions()] *)
Definition map_all_sessions : prog unit :=
  sctxs ← upsf_call UPSF.list_session_contexts;
  for_each sctxs map_session.

(** [key in d] for a dictionary keyed by strings that UTF-8 can encode:
    lists and dictionaries are unhashable, any other value that is not such
    a string is simply absent *)
Definition contains_key {V} (key : pyval) (d : dict V) : result bool :=
  match key with
  | PStr s => Ok (PyDict.mem s d)
  | PList _ | PDict _ => Err TypeError
  | PNone | PBool _ | PInt _ | PSurrogates _ => Ok false
  end.

(** the keyword arguments [create_session_context] passes to
    [session_hash] *)
Definition fingerprint_arguments (entry : kwargs) : kwargs :=
  [("circuit_id", PyDict.get_default "circuitId" (PStr "") entry);
   ("remote_id", PyDict.get_default "remoteId" (PStr "") entry);
   ("source_mac_address",
    PyDict.get_default "sourceMacAddress" (PStr "") entry);
   ("svlan", PyDict.get_default "svlan" (PStr "0") entry);
   ("cvlan", PyDict.get_default "cvlan" (PStr "0") entry)].

(** [create_session_context(entry, shards)] *)
Definition create_session_context (entry : kwargs) (shards : dict Shard)
  : prog (option SessionContext) :=
  l ← upsf_call UPSF.list_session_contexts;
  let sctxs := PyDict.of_list (map (fun sctx => (sctx_name sctx, sctx)) l) in
  sctx_hash ← lift (session_hash (fingerprint_arguments entry));
  if PyDict.mem sctx_hash sctxs then
    log WARNING "session context exists already";;
    Ret (None : option SessionContext)
  else
    let desc_list :=
      ["name=" ++ py_str (PyDict.get_default "name" (PStr "") entry);
       "customer_type="
         ++ py_str (PyDict.get_default "customerType" (PStr "residential") entry)] in
    svlan ← lift (py_int (PyDict.get_default "svlan" (PStr "0") entry));
    cvlan ← lift (py_int (PyDict.get_default "cvlan" (PStr "0") entry));
    let params : kwargs :=
      [("name", PStr sctx_hash);
       ("required_service_group",
        PyDict.get_default "requiredServiceGroups"
          (PList (map PStr (split_on "," (default_required_service_groups self))))
          entry);
       ("required_quality",
        PyDict.get_default "requiredQuality"
          (PInt (default_required_quality self)) entry);
       ("description",
        text_of [PyDict.get_default "name" (PStr "") entry;
                 PyDict.get_default "customerType" (PStr "residential") entry]
          (String.concat ";" desc_list));
       ("circuit_id", PyDict.get_default "circuitId" (PStr "") entry);
       ("remote_id", PyDict.get_default "remoteId" (PStr "") entry);
       ("source_mac_address",
        PyDict.get_default "sourceMacAddress" (PStr "") entry);
       ("svlan", PInt svlan);
       ("cvlan", PInt cvlan)] in
    let shard := PyDict.get_default "shard" PNone entry in
    let create (params : kwargs) : prog (option SessionContext) :=
      log INFO "add entry";;
      r ← upsf_call (UPSF.create_session_context params);
      Ret (Some (r : SessionContext)) in
    if negb (is_empty_or_none shard) then
      found ← lift (contains_key shard shards);
      if negb found then
        (* the record of the warning reads [entry["name"]] *)
        if PyDict.mem "name" entry then
          log WARNING "desired shard for session context not found, ignoring";;
          Ret None
        else Raise KeyError
      else create (PyDict.set "desired_shard" shard params)
    else create params.

(** the keys a service item overrides, with the value each falls back to
    when neither the item nor the entry has it *)
Definition service_keys : list (string * pyval) :=
  [("circuitId", PStr ""); ("remoteId", PStr "");
   ("sourceMacAddress", PStr ""); ("svlan", PStr "0"); ("cvlan", PStr "0");
   ("shard", PStr ""); ("requiredServiceGroups", PList []);
   ("requiredQuality", PInt 0)].

(** the ephemeral copy of [entry] with the keys of [item] put in *)
Definition service_entry (entry item : kwargs) : kwargs :=
  fold_left
    (fun _entry kd =>
       PyDict.set (fst kd)
         (PyDict.get_default (fst kd)
            (PyDict.get_default (fst kd) (snd kd) entry) item)
         _entry)
    service_keys entry.

(** the body of the loop over the entries of the configuration *)
Definition create_default_item (shards : dict Shard) (entry : kwargs)
  : prog unit :=
  if negb (PyDict.mem "name" entry) then
    log WARNING "parameter not found, ignoring entry"
  else
    let services := PyDict.get_default "services" (PList []) entry in
    if truthy services then
      items ← lift (py_iter services);
      for_each items
        (fun item =>
           match item with
           | PDict item =>
               create_session_context (service_entry entry item) shards;;
               Ret tt
           | _ => Raise AttributeError
           end)
    else
      create_session_context entry shards;;
      Ret tt.

(** [create_default_items()].  [config] is [None] when the file does not
    exist or holds an empty document, and otherwise the list found under
    [upsf], [sessionContexts] (empty when either key is missing); every
    entry is a mapping. *)
Definition create_default_items (config : option (list kwargs)) : prog unit :=
  match config with
  | None => Ret tt
  | Some entries =>
      l ← upsf_call UPSF.list_shards;
      let shards := PyDict.of_list (map (fun shard => (shard_name shard, shard)) l) in
      for_each entries (create_default_item shards)
  end.

End Methods.
End SessionContextManager.

(** ** An in-memory UPSF *)

(** The UPSF client lives outside this repository; this registry follows
    the contract the specification gives for the gateway. *)
Module Registry.

Record registry : Type := {
  shards : list Shard;
  service_gateway_user_planes : list ServiceGatewayUserPlane;
  session_contexts : list SessionContext;
}.

Definition find_shard (name : string) (l : list Shard) : option Shard :=
  List.find (fun shard => String.eqb (shard_name shard) name) l.

Definition find_sgup (name : string) (l : list ServiceGatewayUserPlane)
  : option ServiceGatewayUserPlane :=
  List.find (fun sgup => String.eqb (sgup_name sgup) name) l.

Definition find_sctx (name : string) (l : list SessionContext)
  : option SessionContext :=
  List.find (fun sctx => String.eqb (sctx_name sctx) name) l.

Definition names (l : list SessionContext) : list string := map sctx_name l.

Fixpoint as_strings (l : list pyval) : option (list string) :=
  match l with
  | [] => Some []
  | PStr s :: r => option_map (cons s) (as_strings r)
  | _ => None
  end.

(** the typed fields of a session context, read from keyword arguments;
    [None] when a value has the wrong type *)
Definition quality_field (kw : kwargs) (old : option Z) : option (option Z) :=
  match PyDict.get "required_quality" kw with
  | None => Some old
  | Some (PInt z) => Some (Some z)
  | Some _ => None
  end.

Definition service_group_field (kw : kwargs) (old : option (list string))
  : option (option (list string)) :=
  match PyDict.get "required_service_group" kw with
  | None => Some old
  | Some (PList l) => option_map Some (as_strings l)
  | Some _ => None
  end.

Definition shard_field (kw : kwargs) (old : option string)
  : option (option string) :=
  match PyDict.get "desired_shard" kw with
  | None => Some old
  | Some (PStr s) => Some (Some s)
  | Some _ => None
  end.

Definition write_fields (name : string) (kw : kwargs) (old : SessionContext)
  : option SessionContext :=
  match quality_field kw (sctx_required_quality old),
        service_group_field kw (sctx_required_service_group old),
        shard_field kw (sctx_desired_shard old) with
  | Some q, Some g, Some s =>
      Some {| sctx_name := name; sctx_required_quality := q;
              sctx_required_service_group := g; sctx_desired_shard := s |}
  | _, _, _ => None
  end.

Definition blank (name : string) : SessionContext :=
  {| sctx_name := name; sctx_required_quality := Some 0;
     sctx_required_service_group := Some []; sctx_desired_shard := Some "" |}.

Definition set_shard_count (name : string) (n : Z) (shard : Shard) : Shard :=
  if String.eqb (shard_name shard) name then
    {| shard_name := shard_name shard;
       shard_service_gateway_user_plane := shard_service_gateway_user_plane shard;
       shard_max_session_count := shard_max_session_count shard;
       shard_allocated_session_count := n |}
  else shard.

Definition set_sgup_count (name : string) (n : Z)
    (sgup : ServiceGatewayUserPlane) : ServiceGatewayUserPlane :=
  if String.eqb (sgup_name sgup) name then
    {| sgup_name := sgup_name sgup;
       sgup_supported_service_group := sgup_supported_service_group sgup;
       sgup_max_session_count := sgup_max_session_count sgup;
       sgup_allocated_session_count := n |}
  else sgup.

Definition not_found {X} : result X := Err (UpsfError "not found").
Definition invalid {X} : result X := Err (UpsfError "invalid argument").

(** Modelled from the spec: the operations of the UPSF gateway, whose
    client is not part of this repository.  Snapshot reads return every
    record, point reads the record of that name, updates write only the
    named fields (the session count as an absolute value), creation is
    idempotent on the name, and an operation that cannot be served fails
    with [UpsfError]. *)
Definition serve (c : call) (reg : registry) : result (resp c) * registry :=
  match c return result (resp c) * registry with
  | UPSF.list_shards => (Ok (shards reg), reg)
  | UPSF.list_service_gateway_user_planes =>
      (Ok (service_gateway_user_planes reg), reg)
  | UPSF.list_session_contexts => (Ok (session_contexts reg), reg)
  | UPSF.get_shard name =>
      (match find_shard name (shards reg) with
       | Some shard => Ok shard
       | None => not_found
       end, reg)
  | UPSF.get_service_gateway_user_plane name =>
      (match find_sgup name (service_gateway_user_planes reg) with
       | Some sgup => Ok sgup
       | None => not_found
       end, reg)
  | UPSF.update_shard kw =>
      match PyDict.get "name" kw, PyDict.get "allocated_session_count" kw with
      | Some (PStr name), Some (PInt n) =>
          match find_shard name (shards reg) with
          | Some _ =>
              (Ok tt,
               {| shards := map (set_shard_count name n) (shards reg);
                  service_gateway_user_planes := service_gateway_user_planes reg;
                  session_contexts := session_contexts reg |})
          | None => (not_found, reg)
          end
      | _, _ => (invalid, reg)
      end
  | UPSF.update_service_gateway_user_plane kw =>
      match PyDict.get "name" kw, PyDict.get "allocated_session_count" kw with
      | Some (PStr name), Some (PInt n) =>
          match find_sgup name (service_gateway_user_planes reg) with
          | Some _ =>
              (Ok tt,
               {| shards := shards reg;
                  service_gateway_user_planes :=
                    map (set_sgup_count name n) (service_gateway_user_planes reg);
                  session_contexts := session_contexts reg |})
          | None => (not_found, reg)
          end
      | _, _ => (invalid, reg)
      end
  | UPSF.update_session_context kw =>
      match PyDict.get "name" kw with
      | Some (PStr name) =>
          match find_sctx name (session_contexts reg) with
          | Some old =>
              match write_fields name kw old with
              | Some new =>
                  (Ok tt,
                   {| shards := shards reg;
                      service_gateway_user_planes := service_gateway_user_planes reg;
                      session_contexts :=
                        map (fun sctx =>
                               if String.eqb (sctx_name sctx) name then new else sctx)
                          (session_contexts reg) |})
              | None => (invalid, reg)
              end
          | None => (not_found, reg)
          end
      | _ => (invalid, reg)
      end
  | UPSF.create_session_context kw =>
      match PyDict.get "name" kw with
      | Some (PStr name) =>
          match find_sctx name (session_contexts reg) with
          | Some old => (Ok old, reg)
          | None =>
              match write_fields name kw (blank name) with
              | Some new =>
                  (Ok new,
                   {| shards := shards reg;
                      service_gateway_user_planes := service_gateway_user_planes reg;
                      session_contexts := session_contexts reg ++ [new] |})
              | None => (invalid, reg)
              end
          end
      | _ => (invalid, reg)
      end
  end.

(** the registry together with the faults still to come: each call takes
    the next entry of [faults], and fails without effect when it is [true] *)
Record world : Type := {
  reg : registry;
  faults : list bool;
}.

Definition serve_or_fail (c : call) (w : world) : result (resp c) * world :=
  match faults w with
  | true :: rest =>
      (Err (UpsfError "unavailable"), {| reg := reg w; faults := rest |})
  | _ =>
      let '(r, reg') := serve c (reg w) in
      (r, {| reg := reg'; faults := tl (faults w) |})
  end.

Definition upsf : handler world := {| handle := serve_or_fail |}.

(** a UPSF that never fails *)
Definition reliable (r : registry) : world := {| reg := r; faults := [] |}.

End Registry.

(** ** Vocabulary of the statements *)

(** a call that writes a session count, or an update that carries a
    [desired_shard] *)
Definition touches_placement (c : call) : bool :=
  match c with
  | UPSF.update_shard _ => true
  | UPSF.update_service_gateway_user_plane _ => true
  | UPSF.update_session_context params => PyDict.mem "desired_shard" params
  | _ => false
  end.

(** the trace of a run *)
Definition trace {St A} (r : outcome A * St * list event) : list event := snd r.

(** the read that must come just before a write: [history] holds the
    earlier events, latest first.  A shard count is written as the count
    just read for that shard plus one; an SGUP count likewise, after the
    shard was written; an update that carries a [desired_shard] comes after
    the SGUP count was written. *)
Definition justified (history : list event) (e : event) : Prop :=
  match e with
  | ev_call (UPSF.update_shard params) _ =>
      match history with
      | ev_call (UPSF.get_shard name) (Ok shard) :: _ =>
          params = [("name", PStr name);
                    ("allocated_session_count",
                     PInt (shard_allocated_session_count shard + 1))]
      | _ => False
      end
  | ev_call (UPSF.update_service_gateway_user_plane params) _ =>
      match history with
      | ev_call (UPSF.get_service_gateway_user_plane name) (Ok sgup)
          :: ev_call (UPSF.update_shard _) (Ok _) :: _ =>
          params = [("name", PStr name);
                    ("allocated_session_count",
                     PInt (sgup_allocated_session_count sgup + 1))]
      | _ => False
      end
  | ev_call (UPSF.update_session_context params) _ =>
      if PyDict.mem "desired_shard" params then
        match history with
        | ev_log INFO _
            :: ev_call (UPSF.update_service_gateway_user_plane _) (Ok _) :: _ => True
        | _ => False
        end
      else True
  | _ => True
  end.

Fixpoint all_justified (history : list event) (t : list event) : Prop :=
  match t with
  | [] => True
  | e :: t' => justified history e /\ all_justified (e :: history) t'
  end.

(** a call made for the SGUP and the shard that were selected: a count is
    read or written under their names only, and the shard committed is the
    one selected *)
Definition on_selected (sgup_name_selected shard_name_selected : string)
    (c : call) : Prop :=
  match c with
  | UPSF.list_shards => True
  | UPSF.list_service_gateway_user_planes => True
  | UPSF.get_shard name => name = shard_name_selected
  | UPSF.update_shard params =>
      PyDict.get "name" params = Some (PStr shard_name_selected)
  | UPSF.get_service_gateway_user_plane name => name = sgup_name_selected
  | UPSF.update_service_gateway_user_plane params =>
      PyDict.get "name" params = Some (PStr sgup_name_selected)
  | UPSF.update_session_context params =>
      PyDict.get "desired_shard" params = Some (PStr shard_name_selected)
  | _ => False
  end.

(** the keyword arguments that write a session count *)
Definition count_params (name : string) (count : Z) : kwargs :=
  [("name", PStr name); ("allocated_session_count", PInt count)].

(** Step G as the specification words it: the shard count written is the
    one of the snapshot plus one, and the shard is not read again *)
Definition shard_count_from_snapshot (t : list event) : Prop :=
  forall shards params r,
    In (ev_call UPSF.list_shards (Ok shards)) t ->
    In (ev_call (UPSF.update_shard params) r) t ->
    (forall name, ~ In (UPSF.get_shard name) (calls t)) /\
    exists shard,
      In shard shards /\
      params = [("name", PStr (shard_name shard));
                ("allocated_session_count",
                 PInt (shard_allocated_session_count shard + 1))].

(** an SGUP and a shard that pass every filter of the selection *)
Definition eligible (shards : list Shard) (sgups : list ServiceGatewayUserPlane)
    (required : list string) (sgup : ServiceGatewayUserPlane) (shard : Shard)
  : Prop :=
  In shard shards /\ In sgup sgups /\
  shard_service_gateway_user_plane shard = sgup_name sgup /\
  SessionContextManager.issuperset (sgup_supported_service_group sgup) required = true /\
  sgup_allocated_session_count sgup < sgup_max_session_count sgup /\
  0 < shard_max_session_count shard /\
  shard_allocated_session_count shard < shard_max_session_count shard.

(** the invocation committed a [desired_shard] *)
Definition placed (t : list event) : Prop :=
  exists params,
    In (UPSF.update_session_context params) (calls t) /\
    PyDict.mem "desired_shard" params = true.

(** A registry shared with peers: after each call of the manager the next
    pending write of a peer, if any, lands. *)
Module SharedRegistry.

Record shared : Type := {
  own : Registry.registry;
  peers : list (Registry.registry -> Registry.registry);
}.

Definition serve_shared (c : call) (w : shared) : result (resp c) * shared :=
  let '(r, reg') := Registry.serve c (own w) in
  (r, {| own := match peers w with
                | write :: _ => write reg'
                | [] => reg'
                end;
         peers := tl (peers w) |}).

Definition upsf : handler shared := {| handle := serve_shared |}.

(** a peer places [n] sessions on the shard called [name] *)
Definition peer_places (name : string) (n : Z) (r : Registry.registry)
  : Registry.registry :=
  {| Registry.shards :=
       map (fun shard =>
              Registry.set_shard_count name
                (shard_allocated_session_count shard + n) shard)
         (Registry.shards r);
     Registry.service_gateway_user_planes :=
       Registry.service_gateway_user_planes r;
     Registry.session_contexts := Registry.session_contexts r |}.

End SharedRegistry.

(** ** The scenarios of the specification *)

Module Scenario.

Definition config : Config :=
  {| default_required_quality := 1000;
     default_required_service_groups := "basic" |}.

Definition sgup_A : ServiceGatewayUserPlane :=
  {| sgup_name := "A"; sgup_supported_service_group := ["basic"];
     sgup_max_session_count := 100; sgup_allocated_session_count := 0 |}.

Definition shard_X : Shard :=
  {| shard_name := "X"; shard_service_gateway_user_plane := "A";
     shard_max_session_count := 50; shard_allocated_session_count := 0 |}.

(** a shard at capacity *)
Definition shard_X_full : Shard :=
  {| shard_name := "X"; shard_service_gateway_user_plane := "A";
     shard_max_session_count := 50; shard_allocated_session_count := 50 |}.

Definition ctx1 : SessionContext :=
  {| sctx_name := "ctx1"; sctx_required_quality := Some 10;
     sctx_required_service_group := Some ["basic"];
     sctx_desired_shard := Some "" |}.

(** a context with nothing filled in *)
Definition ctx_blank : SessionContext :=
  {| sctx_name := "ctx1"; sctx_required_quality := Some 0;
     sctx_required_service_group := Some [];
     sctx_desired_shard := Some "" |}.

(** a context that is placed and lacks its quality *)
Definition ctx_placed : SessionContext :=
  {| sctx_name := "ctx1"; sctx_required_quality := Some 0;
     sctx_required_service_group := Some ["basic"];
     sctx_desired_shard := Some "X" |}.

(** S1: a single candidate *)
Definition s1 : Registry.registry :=
  {| Registry.shards := [shard_X];
     Registry.service_gateway_user_planes := [sgup_A];
     Registry.session_contexts := [ctx1] |}.

(** the only shard of the only SGUP is full *)
Definition s_full : Registry.registry :=
  {| Registry.shards := [shard_X_full];
     Registry.service_gateway_user_planes := [sgup_A];
     Registry.session_contexts := [ctx1] |}.

(** no shard is registered yet *)
Definition s_no_shards : Registry.registry :=
  {| Registry.shards := [];
     Registry.service_gateway_user_planes := [sgup_A];
     Registry.session_contexts := [ctx_placed] |}.

(** S1 with a peer that places five sessions on [X] right after the
    manager has taken its two snapshots *)
Definition s1_raced : SharedRegistry.shared :=
  {| SharedRegistry.own := s1;
     SharedRegistry.peers := [id; SharedRegistry.peer_places "X" 5] |}.

End Scenario.

(** the keyword arguments of the [update_session_context] calls of a trace *)
Definition session_context_updates (t : list event) : list kwargs :=
  flat_map (fun c => match c with
                     | UPSF.update_session_context params => [params]
                     | _ => []
                     end)
    (calls t).

(** a warning with this text was logged *)
Definition warned (msg : string) (t : list event) : Prop :=
  In (ev_log WARNING msg) t.





(** the keyword arguments of the [create_session_context] calls of a
    trace, and of those that succeeded *)
Definition create_attempts (t : list event) : list kwargs :=
  flat_map (fun c => match c with
                     | UPSF.create_session_context params => [params]
                     | _ => []
                     end)
    (calls t).

Definition creations (t : list event) : list string :=
  flat_map (fun e => match e with
                     | ev_call (UPSF.create_session_context _) (Ok sctx) =>
                         [sctx_name sctx]
                     | _ => []
                     end)
    t.

(** the keyword arguments of the [create_session_context] calls that
    failed *)
Definition create_failures (t : list event) : list kwargs :=
  flat_map (fun e => match e with
                     | ev_call (UPSF.create_session_context params) (Err _) =>
                         [params]
                     | _ => []
                     end)
    t.

(** What a run that only creates session contexts does to the registry:
    the contexts created are appended, each under a name that was not
    there, no two under the same name; every creation attempted, failed
    ones included, is for a name that was not there; nothing is updated;
    and unless a creation failed, the attempts are the creations. *)
Definition grows (r r' : Registry.registry) (t : list event) : Prop :=
  exists added,
    Registry.session_contexts r' = (Registry.session_contexts r ++ added)%list
    /\ creations t = map sctx_name added
    /\ List.NoDup (creations t)
    /\ (forall n, In n (creations t) ->
                  ~ In n (Registry.names (Registry.session_contexts r)))
    /\ (forall params, In params (create_attempts t) ->
          exists n, PyDict.get "name" params = Some (PStr n)
                    /\ ~ In n (Registry.names (Registry.session_contexts r)))
    /\ session_context_updates t = []
    /\ (create_failures t = [] ->
        map (PyDict.get "name") (create_attempts t)
        = map (fun n => Some (PStr n)) (creations t)).

(** the registry after a run, and [grows] for a run from [w] *)
Definition final {A} (r : outcome A * Registry.world * list event)
  : Registry.registry :=
  Registry.reg (snd (fst r)).

Definition run_grows {A} (w : Registry.world)
    (r : outcome A * Registry.world * list event) : Prop :=
  grows (Registry.reg w) (final r) (trace r).

(** ** The parts of the module outside the placement engine *)

(** [c.lower()] for one character.  Strings stand for their UTF-8 bytes, so
    only the ASCII letters are mapped; the lower-case forms of other letters
    are not ASCII words, and none of the words [str2bool] accepts holds the
    one ASCII letter that a non-ASCII character lowers to (k, from the
    Kelvin sign). *)
Definition lower_char (c : ascii) : ascii :=
  let n := nat_of_ascii c in
  if (65 <=? n)%nat && (n <=? 90)%nat then ascii_of_nat (n + 32) else c.

Fixpoint lower (s : string) : string :=
  match s with
  | EmptyString => EmptyString
  | String c r => String (lower_char c) (lower r)
  end.

Definition upper_char (c : ascii) : ascii :=
  let n := nat_of_ascii c in
  if (97 <=? n)%nat && (n <=? 122)%nat then ascii_of_nat (n - 32) else c.

Fixpoint upper (s : string) : string :=
  match s with
  | EmptyString => EmptyString
  | String c r => String (upper_char c) (upper r)
  end.

(** [str2bool(value)] *)
Definition str2bool (value : string) : bool :=
  existsb (String.eqb (lower value)) ["true"; "1"; "t"; "y"; "yes"].

(** the strings on which [lower] and [upper] are those of Python: the ones
    made of ASCII characters *)
Definition is_ascii (s : string) : bool :=
  forallb (fun c => (nat_of_ascii c <? 128)%nat) (list_ascii_of_string s).

(** An item of the watch stream, as [run] reads it: the name of its shard
    and its session context; a part the item does not carry has an empty
    name. *)
Record Item : Type := {
  item_shard_name : string;
  item_session_context : SessionContext;
}.

Module WatchLoop.
Section Methods.
Context {RT : PyRuntime} (self : Config).
Local Open Scope prog_scope.

(** the body of the loop of [run] over the items of the watch stream, up
    to the test of the stop flag *)
Definition handle_item (item : Item) : prog unit :=
  try_except_UpsfError
    (if negb (String.eqb (item_shard_name item) "") then
       SessionContextManager.map_all_sessions self
     else if negb (String.eqb (sctx_name (item_session_context item)) "") then
       SessionContextManager.map_session self (item_session_context item)
     else Ret tt)
    (fun _ => log ERROR "error occurred").

End Methods.
End WatchLoop.

(** a program in which every call to the UPSF is made by [upsf_call], so
    that a failed call raises at once, and which raises no [UpsfError] of
    its own *)
Fixpoint strict {A} (p : prog A) : Prop :=
  match p with
  | Ret _ => True
  | Raise e => match e with UpsfError _ => False | _ => True end
  | Log _ _ k => strict k
  | Call c k => (forall e, k (Err e) = Raise e) /\ (forall x, strict (k (Ok x)))
  end.

(** the events that follow the first call that failed with [UpsfError] *)
Fixpoint after_failure (t : list event) : option (list event) :=
  match t with
  | [] => None
  | ev_call _ (Err (UpsfError _)) :: t' => Some t'
  | _ :: t' => after_failure t'
  end.

(** the outcome of a run *)
Definition result_of {St A} (r : outcome A * St * list event) : outcome A :=
  fst (fst r).

(** the builtins raise Python's own exceptions, never [UpsfError] *)
Definition builtin {A} (r : result A) : Prop :=
  forall msg, r <> Err (UpsfError msg).

(** S2 of the specification: two SGUPs that support the same groups, the
    first loaded at 90 %, the second at 10 %, each with one empty shard *)
Module LoadScenario.

Definition sgup_A : ServiceGatewayUserPlane :=
  {| sgup_name := "A"; sgup_supported_service_group := ["basic"];
     sgup_max_session_count := 100; sgup_allocated_session_count := 90 |}.

Definition sgup_B : ServiceGatewayUserPlane :=
  {| sgup_name := "B"; sgup_supported_service_group := ["basic"];
     sgup_max_session_count := 100; sgup_allocated_session_count := 10 |}.

Definition shard_X : Shard :=
  {| shard_name := "X"; shard_service_gateway_user_plane := "A";
     shard_max_session_count := 50; shard_allocated_session_count := 0 |}.

Definition shard_Y : Shard :=
  {| shard_name := "Y"; shard_service_gateway_user_plane := "B";
     shard_max_session_count := 50; shard_allocated_session_count := 0 |}.

(** a second shard of [B], half full *)
Definition shard_Z : Shard :=
  {| shard_name := "Z"; shard_service_gateway_user_plane := "B";
     shard_max_session_count := 50; shard_allocated_session_count := 25 |}.

Definition s2 : Registry.registry :=
  {| Registry.shards := [shard_X; shard_Y; shard_Z];
     Registry.service_gateway_user_planes := [sgup_A; sgup_B];
     Registry.session_contexts := [Scenario.ctx1] |}.

End LoadScenario.

(** a program all of whose calls to the UPSF satisfy [P], whatever the
    replies *)
Fixpoint only_calls {A} (P : call -> Prop) (p : prog A) : Prop :=
  match p with
  | Ret _ => True
  | Raise _ => True
  | Log _ _ k => only_calls P k
  | Call c k => P c /\ forall r, only_calls P (k r)
  end.

(** the calls [create_default_items] may make *)
Definition materialisation_call (c : call) : Prop :=
  match c with
  | UPSF.list_shards => True
  | UPSF.list_session_contexts => True
  | UPSF.create_session_context _ => True
  | _ => False
  end.

(** the calls [map_session] may make *)
Definition placement_call (c : call) : Prop :=
  match c with
  | UPSF.list_session_contexts => False
  | UPSF.create_session_context _ => False
  | _ => True
  end.


(** a session context that has a quality, service groups and a shard *)
Definition complete (sctx : SessionContext) : bool :=
  negb (SessionContextManager.quality_unset (sctx_required_quality sctx))
  && negb (SessionContextManager.service_group_unset
             (sctx_required_service_group sctx))
  && negb (SessionContextManager.shard_unset (sctx_desired_shard sctx)).

(** a digit of [hexdigest] *)
Definition lower_hex (c : ascii) : bool :=
  existsb (Ascii.eqb c) (list_ascii_of_string "0123456789abcdef").



(** materialisation as the specification words it: over the runs no two
    [create_session_context] calls are issued for the same fingerprint *)
Definition created_at_most_once (t : list event) : Prop :=
  List.NoDup (map (PyDict.get "name") (create_attempts t)).


(** * Properties *)

Local Open Scope list_scope.

(** ** Dictionaries *)

Section DictFacts.
Context {V : Type}.
Implicit Types (d : dict V) (k : string) (v : V).

Lemma dict_get_In k v d : PyDict.get k d = Some v -> In (k, v) d.
Proof.
  induction d as [|[k' v'] r IH]; simpl; [discriminate|].
  destruct (String.eqb_spec k k') as [->|Hne].
  - intros [= ->]. now left.
  - intros H. right. auto.
Qed.

Lemma dict_mem_keys k d : PyDict.mem k d = true <-> In k (PyDict.keys d).
Proof.
  unfold PyDict.mem, PyDict.keys.
  induction d as [|[k' v'] r IH]; simpl.
  - split; [discriminate | tauto].
  - destruct (String.eqb_spec k k') as [->|Hne].
    + split; auto.
    + rewrite IH. split; [auto | intros [H|H]; congruence].
Qed.

Lemma dict_set_In k v d kv :
  In kv (PyDict.set k v d) -> kv = (k, v) \/ In kv d.
Proof.
  induction d as [|[k' v'] r IH]; simpl.
  - intros [H|[]]; auto.
  - destruct (String.eqb_spec k k') as [->|Hne]; simpl.
    + intros [H|H]; auto.
    + intros [H|H]; auto. destruct (IH H); auto.
Qed.

Lemma dict_set_keys k v d k' :
  In k' (PyDict.keys (PyDict.set k v d)) <-> k' = k \/ In k' (PyDict.keys d).
Proof.
  unfold PyDict.keys.
  induction d as [|[k0 v0] r IH]; simpl.
  - intuition.
  - destruct (String.eqb_spec k k0) as [->|Hne]; simpl.
    + intuition.
    + rewrite IH. intuition.
Qed.

Lemma dict_fold_In (l : list (string * V)) d kv :
  In kv (fold_left (fun d kv => PyDict.set (fst kv) (snd kv) d) l d) ->
  In kv l \/ In kv d.
Proof.
  revert d. induction l as [|[k v] l IH]; simpl; intros d H; [auto|].
  destruct (IH _ H) as [H1|H1]; [auto|].
  destruct (dict_set_In _ _ _ _ H1) as [->|H2]; auto.
Qed.

Lemma dict_fold_keys (l : list (string * V)) d k :
  In k (PyDict.keys (fold_left (fun d kv => PyDict.set (fst kv) (snd kv) d) l d))
  <-> In k (map fst l) \/ In k (PyDict.keys d).
Proof.
  revert d. induction l as [|[k0 v0] l IH]; simpl; intros d; [tauto|].
  rewrite IH, dict_set_keys. intuition.
Qed.

(** every binding of a comprehension comes from the list it ranges over *)
Lemma dict_of_list_In (l : list (string * V)) kv :
  In kv (PyDict.of_list l) -> In kv l.
Proof.
  unfold PyDict.of_list. intros H.
  destruct (dict_fold_In _ _ _ H) as [|[]]; auto.
Qed.

Lemma dict_of_list_keys (l : list (string * V)) k :
  In k (PyDict.keys (PyDict.of_list l)) <-> In k (map fst l).
Proof.
  unfold PyDict.of_list. rewrite dict_fold_keys. simpl. tauto.
Qed.

Lemma dict_of_list_mem (l : list (string * V)) k :
  PyDict.mem k (PyDict.of_list l) = true <-> In k (map fst l).
Proof. now rewrite dict_mem_keys, dict_of_list_keys. Qed.

Lemma dict_set_nonempty k v d : PyDict.set k v d <> [].
Proof. destruct d as [|[k' v'] r]; simpl; [|destruct (String.eqb k k')]; discriminate. Qed.

Lemma dict_get_set_eq k v d : PyDict.get k (PyDict.set k v d) = Some v.
Proof.
  induction d as [|[k' v'] r IH]; simpl.
  - now rewrite String.eqb_refl.
  - destruct (String.eqb_spec k k') as [->|Hne]; simpl.
    + now rewrite String.eqb_refl.
    + destruct (String.eqb_spec k k'); [congruence | exact IH].
Qed.

Lemma dict_get_set_ne k k' v d :
  k <> k' -> PyDict.get k' (PyDict.set k v d) = PyDict.get k' d.
Proof.
  intros Hne. induction d as [|[k0 v0] r IH]; simpl.
  - destruct (String.eqb_spec k' k); congruence.
  - destruct (String.eqb_spec k k0) as [->|Hne0]; simpl.
    + destruct (String.eqb_spec k' k0); congruence.
    + now rewrite IH.
Qed.

End DictFacts.

(** ** Builtins *)

Section BuiltinFacts.
Context {RT : PyRuntime}.

Lemma py_min_In (d : dict pyfloat) k : py_min d = Ok k -> In k (PyDict.keys d).
Proof.
  unfold py_min, PyDict.keys. destruct d as [|kv0 r]; [discriminate|].
  intros [= <-]. apply in_map.
  assert (H : forall (l : list (string * pyfloat)) best, In (fold_left
    (fun best kv => if float_lt (snd kv) (snd best) then kv else best) l best)
    (best :: l)).
  { induction l as [|x l IH]; intros best; simpl; [auto|].
    destruct (float_lt (snd x) (snd best)).
    - right. apply IH.
    - destruct (IH best) as [H|H]; auto. }
  apply H.
Qed.

Lemma py_min_empty : py_min [] = Err ValueError.
Proof. reflexivity. Qed.

Lemma py_min_nonempty (d : dict pyfloat) : d <> [] -> exists k, py_min d = Ok k.
Proof. destruct d; [congruence|]. simpl. eauto. Qed.

Lemma set_iter_In l x : In x (set_iter l) <-> In x l.
Proof. rewrite <- !list_elem_of_In. apply set_iter_elem. Qed.

Lemma set_iter_nil : set_iter [] = [].
Proof.
  destruct (set_iter []) as [|x l] eqn:E; [reflexivity|].
  assert (H : In x (set_iter [])) by (rewrite E; now left).
  apply (proj1 (set_iter_In _ _)) in H. destruct H.
Qed.

Lemma set_iter_singleton x : set_iter [x] = [x].
Proof.
  pose proof (set_iter_NoDup [x]) as Hnd.
  assert (Hall : forall y, In y (set_iter [x]) -> y = x).
  { intros y Hy. apply (proj1 (set_iter_In _ _)) in Hy.
    destruct Hy as [|[]]; auto. }
  assert (Hx : In x (set_iter [x])) by (apply set_iter_In; now left).
  destruct (set_iter [x]) as [|a [|b l]]; [destruct Hx| |].
  - f_equal. apply Hall. now left.
  - exfalso. rewrite (Hall a), (Hall b) in Hnd by (simpl; auto).
    apply NoDup_cons in Hnd as [Hn _]. apply Hn. now left.
Qed.

End BuiltinFacts.

(** ** Running sequenced programs *)

Section RunFacts.
Context {St : Type} (h : handler St).

Lemma run_bind {A B} (p : prog A) (f : A -> prog B) (s : St) :
  run h (bind p f) s =
  match run h p s with
  | (returned a, s1, t1) =>
      let '(o, s2, t2) := run h (f a) s1 in (o, s2, t1 ++ t2)
  | (raised e, s1, t1) => (raised e, s1, t1)
  end.
Proof.
  revert s. induction p as [a|e|l m k IH|c k IH]; intros s; simpl.
  - destruct (run h (f a) s) as [[o s2] t2]. reflexivity.
  - reflexivity.
  - rewrite IH. destruct (run h k s) as [[[a|e] s1] t1]; [|reflexivity].
    destruct (run h (f a) s1) as [[o s2] t2]. reflexivity.
  - destruct (handle h c s) as [r s1]. rewrite IH.
    destruct (run h (k r) s1) as [[[a|e] s2] t1]; [|reflexivity].
    destruct (run h (f a) s2) as [[o s3] t2]. reflexivity.
Qed.

Lemma run_try_except {A} (p : prog A) (hd : string -> prog A) (s : St) :
  run h (try_except_UpsfError p hd) s =
  match run h p s with
  | (raised (UpsfError msg), s1, t1) =>
      let '(o, s2, t2) := run h (hd msg) s1 in (o, s2, t1 ++ t2)
  | r => r
  end.
Proof.
  revert s. induction p as [a|e|l m k IH|c k IH]; intros s; simpl.
  - reflexivity.
  - destruct e; try reflexivity.
    destruct (run h (hd msg) s) as [[o s2] t2]. reflexivity.
  - rewrite IH. destruct (run h k s) as [[[a|e] s1] t1]; [reflexivity|].
    destruct e; try reflexivity.
    destruct (run h (hd msg) s1) as [[o s2] t2]. reflexivity.
  - destruct (handle h c s) as [r s1]. rewrite IH.
    destruct (run h (k r) s1) as [[[a|e] s2] t1]; [reflexivity|].
    destruct e; try reflexivity.
    destruct (run h (hd msg) s2) as [[o s3] t2]. reflexivity.
Qed.

End RunFacts.

(** ** The placement engine *)

Import SessionContextManager.

(** case analysis on the next reply of the UPSF *)
Ltac next_reply h :=
  match goal with
  | |- context [handle h ?c ?s] =>
      let r := fresh "r" in
      let e := fresh "e" in
      let s' := fresh "s" in
      destruct (handle h c s) as [[r|e] s']; [|try destruct e]; simpl
  end.

Section Placement.
Context {RT : PyRuntime} (self : Config).

Lemma fill_defaults_no_shard sctx :
  PyDict.get "desired_shard" (fill_defaults self sctx) = None.
Proof.
  unfold fill_defaults.
  destruct (quality_unset _), (service_group_unset _); reflexivity.
Qed.


Lemma py_min_Err (d : dict pyfloat) e : py_min d = Err e -> e = ValueError.
Proof. destruct d; simpl; intros [=]; auto. Qed.

Lemma py_min_of_list (l : list (string * pyfloat)) k :
  py_min (PyDict.of_list l) = Ok k -> exists v, In (k, v) l.
Proof.
  intros H. apply py_min_In in H. apply (proj1 (dict_of_list_keys _ _)) in H.
  apply in_map_iff in H as ([k' v] & Heq & H). simpl in Heq. subst. eauto.
Qed.

(** the four ways through the selection: no SGUP candidate, [min] of an
    empty load table, no shard for the selected SGUP, or an eligible pair
    whose counters are then bumped *)
Lemma place_cases sctx shards sgups required params :
  place sctx shards sgups required params
    = log WARNING "no sgup candidates available for session context, ignoring"
  \/ place sctx shards sgups required params = Raise ValueError
  \/ place sctx shards sgups required params
    = log WARNING "no shard candidates available for session context, ignoring"
  \/ exists sgup shard,
      eligible shards sgups required sgup shard /\
      place sctx shards sgups required params
        = counter_bump sctx (sgup_name sgup) (shard_name shard)
            (PyDict.set "desired_shard" (PStr (shard_name shard)) params).
Proof.
  unfold place.
  destruct (length (sgup_candidates _ _ _) =? 0)%nat; [now left|].
  destruct (py_min (sgup_load _ _ _)) as [g|e] eqn:Hg; simpl.
  2:{ right; left. now rewrite (py_min_Err _ _ Hg). }
  destruct (length (shard_candidates _ _) =? 0)%nat; [now right; right; left|].
  destruct (py_min (shard_load _ _)) as [n|e] eqn:Hn; simpl.
  2:{ right; left. now rewrite (py_min_Err _ _ Hn). }
  right; right; right.
  unfold sgup_load, sgup_candidates, service_gateway_user_planes in Hg.
  unfold shard_load, shard_candidates in Hn.
  (* the selected SGUP *)
  apply py_min_of_list in Hg as (x & Hg).
  apply in_flat_map in Hg as (g' & Hcand & Hg).
  destruct (PyDict.get g' _) as [sgup|] eqn:Hget; [|destruct Hg].
  destruct ((0 <? _) && (_ <? _)) eqn:Hcap; [|destruct Hg].
  destruct Hg as [[= -> _]|[]].
  apply dict_get_In, dict_of_list_In in Hget.
  apply in_map_iff in Hget as (sgup' & [= <- ->] & Hsgup).
  apply filter_In in Hsgup as [Hsgup _].
  apply (proj1 (set_iter_In _ _)) in Hcand.
  apply in_map_iff in Hcand as ([g' sgup'] & Heq & Hcand); simpl in Heq.
  apply filter_In in Hcand as [Hcand Hsup]; simpl in Hsup.
  apply andb_true_iff in Hcap as [_ Hlt%Z.ltb_lt].
  (* the selected shard *)
  apply py_min_of_list in Hn as (y & Hn).
  apply in_flat_map in Hn as ([n' shard] & Hsh & Hn); simpl in Hn.
  destruct ((0 <? _) && (_ <? _)) eqn:Hcap'; [|destruct Hn].
  destruct Hn as [[= -> _]|[]].
  apply dict_of_list_In in Hsh.
  apply in_map_iff in Hsh as (shard' & [= <- ->] & Hsh).
  apply filter_In in Hsh as [Hsh Href%String.eqb_eq].
  apply andb_true_iff in Hcap' as [Hpos%Z.ltb_lt Hlt'%Z.ltb_lt].
  apply dict_of_list_In in Hcand.
  apply in_map_iff in Hcand as (sgup'' & [= Hname ->] & Hcand).
  apply filter_In in Hcand as [Hcand _].
  apply andb_true_iff in Hsup as [Hsup Hlt''%Z.ltb_lt].
  exists sgup', shard. split.
  - unfold eligible. repeat split; auto. congruence.
  - f_equal. congruence.
Qed.

Lemma commit_trace {St} (h : handler St) s sctx params :
  calls (trace (run h (commit sctx params) s)) = []
  \/ calls (trace (run h (commit sctx params) s))
     = [UPSF.update_session_context
          (PyDict.set "name" (PStr (sctx_name sctx)) params)].
Proof.
  unfold commit, trace.
  destruct (length params =? 0)%nat; simpl; [now left|].
  next_reply h; now right.
Qed.

End Placement.

(** C4: a session context whose [desired_shard] is already set is never
    placed again.  Whatever the UPSF replies, [map_session] then issues no
    write of a shard or SGUP session count, and the
    [update_session_context] it may issue carries no [desired_shard]. *)
Theorem placed_context_keeps_its_shard {RT : PyRuntime} (self : Config)
    {St} (h : handler St) (s : St) (sctx : SessionContext) :
  shard_unset (sctx_desired_shard sctx) = false ->
  Forall (fun c => touches_placement c = false)
    (calls (trace (run h (map_session self sctx) s))).
Proof.
  intros Hs. unfold map_session, map_session_body. rewrite Hs.
  simpl andb. cbv iota. unfold trace. simpl.
  next_reply h; [destruct r as [|shard shards]; simpl|..]; repeat constructor.
  next_reply h; [destruct r as [|sgup sgups]; simpl|..]; repeat constructor.
  unfold commit.
  destruct (length (fill_defaults self sctx) =? 0)%nat; simpl; repeat constructor.
  next_reply h; repeat constructor.
  all: unfold touches_placement, PyDict.mem.
  all: now rewrite dict_get_set_ne, fill_defaults_no_shard by discriminate.
Qed.

Lemma placed_context_keeps_its_shard_witness :
  Forall (fun c => touches_placement c = false)
    (calls (trace (run Registry.upsf
                     (map_session (RT:=exact_runtime)
                        Scenario.config Scenario.ctx_placed)
                     (Registry.reliable Scenario.s1)))).
Proof.
  apply (placed_context_keeps_its_shard (RT:=exact_runtime)). reflexivity.
Defined.

Section CounterBump.
Context {RT : PyRuntime} (self : Config).

Lemma fill_defaults_not_placing sctx name :
  PyDict.mem "desired_shard"
    (PyDict.set "name" (PStr name) (fill_defaults self sctx)) = false.
Proof.
  unfold PyDict.mem.
  now rewrite dict_get_set_ne, fill_defaults_no_shard by discriminate.
Qed.

Lemma length_set_nonzero {V} k (v : V) d :
  (length (PyDict.set k v d) =? 0)%nat = false.
Proof.
  pose proof (dict_set_nonempty k v d).
  destruct (PyDict.set k v d); [congruence | reflexivity].
Qed.

Lemma placing_mem v v' (d : kwargs) :
  PyDict.mem "desired_shard"
    (PyDict.set "name" v (PyDict.set "desired_shard" v' d)) = true.
Proof.
  unfold PyDict.mem.
  now rewrite dict_get_set_ne, dict_get_set_eq by discriminate.
Qed.

End CounterBump.

(** Whatever the UPSF replies, every write of a shard session count by
    [map_session] comes right after a successful [get_shard] of that shard
    and carries the count just read plus one; every write of an SGUP session
    count comes right after a successful [get_service_gateway_user_plane],
    itself right after the shard write succeeded, and carries the count just
    read plus one; and a [desired_shard] is committed only after the SGUP
    write succeeded. *)
Lemma map_session_all_justified {RT : PyRuntime} (self : Config)
    {St} (h : handler St) (s : St) (sctx : SessionContext) :
  all_justified [] (trace (run h (map_session self sctx) s)).
Proof.
  unfold map_session, map_session_body, trace. simpl.
  next_reply h; [destruct r as [|shard shards]; simpl|..];
    try (repeat split; auto; fail).
  next_reply h; [destruct r as [|sgup sgups]; simpl|..];
    try (repeat split; auto; fail).
  destruct (shard_unset _ && negb _).
  - destruct (place_cases sctx (shard :: shards) (sgup :: sgups)
                (default [] (sctx_required_service_group sctx))
                (fill_defaults self sctx))
      as [-> | [-> | [-> | (g & n & _ & ->)]]]; simpl;
      try (repeat split; auto; fail).
    unfold counter_bump, commit. rewrite length_set_nonzero. simpl.
    do 5 (next_reply h; [|repeat split; auto..]).
    all: rewrite ?placing_mem; repeat split; auto.
  - unfold commit.
    destruct (length (fill_defaults self sctx) =? 0)%nat; simpl;
      try (repeat split; auto; fail).
    next_reply h; rewrite fill_defaults_not_placing; repeat split; auto.
Qed.

(** C1, as the specification words it, fails: a peer places five sessions on
    shard [X] between the snapshot and Step G; the manager reads [X] again
    and writes 6, not the snapshot's 0 plus one. *)
Lemma snapshot_count_refuted :
  ~ shard_count_from_snapshot
      (trace (run SharedRegistry.upsf
                (map_session (RT:=exact_runtime) Scenario.config Scenario.ctx1)
                Scenario.s1_raced)).
Proof.
  intros H.
  destruct (H [Scenario.shard_X]
              [("name", PStr "X"); ("allocated_session_count", PInt 6)]
              (Ok tt))
    as [_ (shard & Hin & Heq)].
  - vm_compute. auto.
  - vm_compute. auto 10.
  - destruct Hin as [<-|[]]. discriminate Heq.
Qed.

(** S1 of the specification, event by event. *)
Example scenario_single_candidate :
  run Registry.upsf
    (map_session (RT:=exact_runtime) Scenario.config Scenario.ctx1)
    (Registry.reliable Scenario.s1)
  = (returned tt,
     Registry.reliable
       {| Registry.shards :=
            [Registry.set_shard_count "X" 1 Scenario.shard_X];
          Registry.service_gateway_user_planes :=
            [Registry.set_sgup_count "A" 1 Scenario.sgup_A];
          Registry.session_contexts :=
            [{| sctx_name := "ctx1"; sctx_required_quality := Some 10;
                sctx_required_service_group := Some ["basic"];
                sctx_desired_shard := Some "X" |}] |},
     [ev_call UPSF.list_shards (Ok [Scenario.shard_X]);
      ev_call UPSF.list_service_gateway_user_planes (Ok [Scenario.sgup_A]);
      ev_log DEBUG "selected service gateway user plane and shard";
      ev_call (UPSF.get_shard "X") (Ok Scenario.shard_X);
      ev_call (UPSF.update_shard
                 [("name", PStr "X"); ("allocated_session_count", PInt 1)])
        (Ok tt);
      ev_call (UPSF.get_service_gateway_user_plane "A") (Ok Scenario.sgup_A);
      ev_call (UPSF.update_service_gateway_user_plane
                 [("name", PStr "A"); ("allocated_session_count", PInt 1)])
        (Ok tt);
      ev_log INFO "updating session context";
      ev_call (UPSF.update_session_context
                 [("desired_shard", PStr "X"); ("name", PStr "ctx1")])
        (Ok tt)]).
Proof. vm_compute. reflexivity. Qed.

(** no call of the trace is the one looked for, or the ones that are get
    substituted *)
Ltac in_calls :=
  let H := fresh "Hin" in
  intros H; simpl in H;
  repeat (destruct H as [H|H]; [try discriminate H|]);
  try contradiction;
  try (injection H as <-).

(** C3, as the specification words it, fails: with S1 in the UPSF (an
    eligible pair for the configured default ["basic"]), a context with an
    empty service group list gets its defaults and no shard. *)
Lemma defaulted_context_not_placed_at_once :
  let t := trace (run Registry.upsf
                    (map_session (RT:=exact_runtime)
                       Scenario.config Scenario.ctx_blank)
                    (Registry.reliable Scenario.s1)) in
  (exists sgup shard,
      eligible [Scenario.shard_X] [Scenario.sgup_A]
        (default_service_groups Scenario.config) sgup shard)
  /\ ~ placed t.
Proof.
  split.
  - exists Scenario.sgup_A, Scenario.shard_X.
    unfold eligible. vm_compute. repeat split; auto; discriminate.
  - intros (params & Hin & Hmem). vm_compute in Hin.
    destruct Hin as [[=]|[[=]|[[= <-]|[]]]]. discriminate Hmem.
Qed.

(** C3 (amended): a context whose required service groups are unset gets
    the configured default and is not placed in that invocation.  Whatever
    the UPSF replies, [map_session] writes no session count and commits no
    [desired_shard]; and when both snapshot reads return a non-empty list,
    its calls are the two reads and one [update_session_context] that
    carries the defaulted list. *)
Theorem unset_service_groups_defaulted_not_placed {RT : PyRuntime}
    (self : Config) {St} (h : handler St) (s : St) (sctx : SessionContext) :
  service_group_unset (sctx_required_service_group sctx) = true ->
  Forall (fun c => touches_placement c = false)
    (calls (trace (run h (map_session self sctx) s)))
  /\ forall s1 s2 shards sgups,
      handle h UPSF.list_shards s = (Ok shards, s1) -> shards <> [] ->
      handle h UPSF.list_service_gateway_user_planes s1 = (Ok sgups, s2) ->
      sgups <> [] ->
      exists params,
        calls (trace (run h (map_session self sctx) s))
        = [UPSF.list_shards; UPSF.list_service_gateway_user_planes;
           UPSF.update_session_context params]
        /\ PyDict.get "name" params = Some (PStr (sctx_name sctx))
        /\ PyDict.get "required_service_group" params
           = Some (PList (map PStr (default_service_groups self)))
        /\ PyDict.mem "desired_shard" params = false.
Proof.
  intros Hu.
  assert (Hlen : (length (fill_defaults self sctx) =? 0)%nat = false).
  { unfold fill_defaults. rewrite Hu. apply length_set_nonzero. }
  assert (Hget : PyDict.get "required_service_group"
                   (PyDict.set "name" (PStr (sctx_name sctx))
                      (fill_defaults self sctx))
                 = Some (PList (map PStr (default_service_groups self)))).
  { rewrite dict_get_set_ne by discriminate.
    unfold fill_defaults. rewrite Hu. apply dict_get_set_eq. }
  unfold map_session, map_session_body, trace.
  rewrite Hu, andb_false_r. unfold commit. rewrite Hlen. simpl. split.
  - next_reply h; [destruct r as [|shard shards]; simpl|..];
      repeat constructor.
    next_reply h; [destruct r as [|sgup sgups]; simpl|..];
      repeat constructor.
    next_reply h; repeat constructor.
    all: apply fill_defaults_not_placing.
  - intros s1 s2 shards sgups Hshards Hne Hsgups Hne'.
    rewrite Hshards. simpl. destruct shards; [congruence|]. simpl.
    rewrite Hsgups. simpl. destruct sgups; [congruence|]. simpl.
    eexists. split; [|split; [apply dict_get_set_eq|split;
      [exact Hget|apply fill_defaults_not_placing]]].
    next_reply h; reflexivity.
Qed.

Lemma unset_service_groups_defaulted_not_placed_witness :
  exists params,
    calls (trace (run Registry.upsf
                    (map_session (RT:=exact_runtime)
                       Scenario.config Scenario.ctx_blank)
                    (Registry.reliable Scenario.s1)))
    = [UPSF.list_shards; UPSF.list_service_gateway_user_planes;
       UPSF.update_session_context params]
    /\ PyDict.get "name" params = Some (PStr "ctx1")
    /\ PyDict.get "required_service_group" params
       = Some (PList (map PStr (default_service_groups Scenario.config)))
    /\ PyDict.mem "desired_shard" params = false.
Proof.
  destruct (unset_service_groups_defaulted_not_placed (RT:=exact_runtime)
              Scenario.config Registry.upsf (Registry.reliable Scenario.s1)
              Scenario.ctx_blank eq_refl) as [_ H].
  apply (H (Registry.reliable Scenario.s1) (Registry.reliable Scenario.s1)
           [Scenario.shard_X] [Scenario.sgup_A]);
    [reflexivity | discriminate | reflexivity | discriminate].
Defined.

(** The placement follows on the next invocation, once the stored context
    carries the defaulted list. *)
Example scenario_defaults_then_placement :
  let '(_, w, _) :=
    run Registry.upsf
      (map_session (RT:=exact_runtime) Scenario.config Scenario.ctx_blank)
      (Registry.reliable
         {| Registry.shards := [Scenario.shard_X];
            Registry.service_gateway_user_planes := [Scenario.sgup_A];
            Registry.session_contexts := [Scenario.ctx_blank] |}) in
  Registry.session_contexts (Registry.reg w)
  = [{| sctx_name := "ctx1"; sctx_required_quality := Some 1000;
        sctx_required_service_group := Some ["basic"];
        sctx_desired_shard := Some "" |}]
  /\ match Registry.session_contexts (Registry.reg w) with
     | [sctx] =>
         session_context_updates
           (trace (run Registry.upsf
                     (map_session (RT:=exact_runtime) Scenario.config sctx) w))
         = [[("desired_shard", PStr "X"); ("name", PStr "ctx1")]]
     | _ => False
     end.
Proof. vm_compute. split; reflexivity. Qed.
(** C5, as the specification words it, fails: a placed context that lacks
    its quality is not updated while the UPSF lists no shard. *)
Lemma defaults_not_committed_without_shards :
  length (session_context_updates
            (trace (run Registry.upsf
                      (map_session (RT:=exact_runtime)
                         Scenario.config Scenario.ctx_placed)
                      (Registry.reliable Scenario.s_no_shards))))
  <> 1%nat.
Proof. vm_compute. discriminate. Qed.

(** C5 (amended): for a context that already has a [desired_shard] and
    lacks its quality or its service groups, [map_session] makes the two
    snapshot reads and then exactly one [update_session_context] with the
    defaults, provided both reads return a non-empty list; when the list of
    shards or the list of SGUPs is empty it warns and updates nothing. *)
Theorem placed_context_defaults_committed {RT : PyRuntime} (self : Config)
    {St} (h : handler St) (s s1 : St) (sctx : SessionContext)
    (shards : list Shard) :
  shard_unset (sctx_desired_shard sctx) = false ->
  quality_unset (sctx_required_quality sctx)
  || service_group_unset (sctx_required_service_group sctx) = true ->
  handle h UPSF.list_shards s = (Ok shards, s1) ->
  let t := trace (run h (map_session self sctx) s) in
  (shards = [] ->
     session_context_updates t = []
     /\ warned "map_session: no shards available" t)
  /\ forall s2 sgups,
      handle h UPSF.list_service_gateway_user_planes s1 = (Ok sgups, s2) ->
      shards <> [] ->
      (sgups = [] ->
         session_context_updates t = []
         /\ warned "map_session: no service gateway user planes available" t)
      /\ (sgups <> [] ->
          calls t
          = [UPSF.list_shards; UPSF.list_service_gateway_user_planes;
             UPSF.update_session_context
               (PyDict.set "name" (PStr (sctx_name sctx))
                  (fill_defaults self sctx))]).
Proof.
  intros Hs Hu Hshards.
  assert (Hlen : (length (fill_defaults self sctx) =? 0)%nat = false).
  { unfold fill_defaults.
    destruct (service_group_unset _); [apply length_set_nonzero|].
    rewrite orb_false_r in Hu. rewrite Hu. apply length_set_nonzero. }
  unfold map_session, map_session_body, trace, session_context_updates, warned.
  rewrite Hs. simpl andb. cbv iota. unfold commit. rewrite Hlen.
  simpl. rewrite Hshards. simpl. split.
  - intros ->. simpl. auto.
  - intros s2 sgups Hsgups Hne.
    destruct shards as [|shard shards]; [congruence|]. simpl.
    rewrite Hsgups. simpl. split.
    + intros ->. simpl. auto.
    + intros Hne'. destruct sgups as [|sgup sgups]; [congruence|]. simpl.
      next_reply h; reflexivity.
Qed.

Lemma placed_context_defaults_committed_witness :
  calls (trace (run Registry.upsf
                  (map_session (RT:=exact_runtime)
                     Scenario.config Scenario.ctx_placed)
                  (Registry.reliable Scenario.s1)))
  = [UPSF.list_shards; UPSF.list_service_gateway_user_planes;
     UPSF.update_session_context
       [("required_quality", PInt 1000); ("name", PStr "ctx1")]].
Proof.
  destruct (placed_context_defaults_committed (RT:=exact_runtime)
              Scenario.config Registry.upsf
              (Registry.reliable Scenario.s1) (Registry.reliable Scenario.s1)
              Scenario.ctx_placed [Scenario.shard_X]
              eq_refl eq_refl eq_refl) as [_ H].
  destruct (H (Registry.reliable Scenario.s1) [Scenario.sgup_A] eq_refl)
    as [_ H']; [discriminate|].
  apply H'. discriminate.
Defined.

(** C2: the code raises where the claim has it warn and return.  With the
    only shard of the selected SGUP at capacity, [min] is applied to an empty
    load table: [map_session] ends in a [ValueError], which its [except]
    clause does not catch, and no warning is logged.  This holds for every
    Python runtime. *)
Theorem full_shards_raise_ValueError {RT : PyRuntime} :
  run Registry.upsf
    (map_session Scenario.config Scenario.ctx1)
    (Registry.reliable Scenario.s_full)
  = (raised ValueError,
     Registry.reliable Scenario.s_full,
     [ev_call UPSF.list_shards (Ok [Scenario.shard_X_full]);
      ev_call UPSF.list_service_gateway_user_planes (Ok [Scenario.sgup_A])]).
Proof.
  unfold map_session, map_session_body. simpl.
  unfold place, sgup_load, sgup_candidates, service_gateway_user_planes,
    shard_candidate_sgups.
  simpl. rewrite set_iter_singleton. simpl.
  reflexivity.
Qed.

(** ** The fingerprint *)

Example md5_empty : MD5.hexdigest "" = "d41d8cd98f00b204e9800998ecf8427e".
Proof. vm_compute. reflexivity. Qed.

Example md5_abc : MD5.hexdigest "abc" = "900150983cd24fb0d6963f7d28e17f72".
Proof. vm_compute. reflexivity. Qed.

Example md5_two_blocks :
  MD5.hexdigest
    "aaaaaaaaaaaaaaaaaaaaaaaaaaaaaaaaaaaaaaaaaaaaaaaaaaaaaaaaaaaaaaaa"
  = "014842d480b571495a4a0363793f7367".
Proof. vm_compute. reflexivity. Qed.





Example scenario_fingerprint :
  session_hash (RT:=exact_runtime)
    [("circuit_id", PStr "c1"); ("remote_id", PStr "r1");
     ("source_mac_address", PStr "aa:bb:cc:dd:ee:ff");
     ("svlan", PInt 10); ("cvlan", PInt 20)]
  = Ok "4c474df7daae3a2789e7d5df792d17ea".
Proof. vm_compute. reflexivity. Qed.

(** C10: the fingerprint is not injective on the tuple.  The tuples
    [("ab", "", ...)] and [("a", "b", ...)] differ and have the same
    fingerprint, for every Python runtime; and of two policy entries that
    carry them only the first becomes a session context. *)
Theorem session_hash_not_injective {RT : PyRuntime} :
  let kw1 : kwargs :=
    [("circuit_id", PStr "ab"); ("remote_id", PStr "");
     ("source_mac_address", PStr "aa:bb:cc:dd:ee:ff");
     ("svlan", PInt 10); ("cvlan", PInt 20)] in
  let kw2 : kwargs :=
    [("circuit_id", PStr "a"); ("remote_id", PStr "b");
     ("source_mac_address", PStr "aa:bb:cc:dd:ee:ff");
     ("svlan", PInt 10); ("cvlan", PInt 20)] in
  let entry (name circuit remote : string) : kwargs :=
    [("name", PStr name); ("circuitId", PStr circuit);
     ("remoteId", PStr remote);
     ("sourceMacAddress", PStr "aa:bb:cc:dd:ee:ff");
     ("svlan", PInt 10); ("cvlan", PInt 20)] in
  PyDict.get "circuit_id" kw1 <> PyDict.get "circuit_id" kw2
  /\ session_hash kw1 = Ok "3eeae07b48bfb50e2d9db467b873ee5b"
  /\ session_hash kw2 = session_hash kw1
  /\ let '(o, w, t) :=
       run Registry.upsf
         (create_default_items Scenario.config
            (Some [entry "first" "ab" ""; entry "second" "a" "b"]))
         (Registry.reliable
            {| Registry.shards := []; Registry.service_gateway_user_planes := [];
               Registry.session_contexts := [] |}) in
     o = returned tt
     /\ length (create_attempts t) = 1%nat
     /\ Registry.names (Registry.session_contexts (Registry.reg w))
        = ["3eeae07b48bfb50e2d9db467b873ee5b"]
     /\ warned "session context exists already" t.
Proof.
  vm_compute. repeat split; auto 10. intros [=].
Qed.

(** ** Policy materialisation *)




Section Materialisation.
Context {RT : PyRuntime} (self : Config).

Lemma calls_app t1 t2 : calls (t1 ++ t2) = calls t1 ++ calls t2.
Proof. apply flat_map_app. Qed.

Lemma creations_app t1 t2 : creations (t1 ++ t2) = creations t1 ++ creations t2.
Proof. apply flat_map_app. Qed.

Lemma create_attempts_app t1 t2 :
  create_attempts (t1 ++ t2) = create_attempts t1 ++ create_attempts t2.
Proof. unfold create_attempts. rewrite calls_app. apply flat_map_app. Qed.

Lemma create_failures_app t1 t2 :
  create_failures (t1 ++ t2) = create_failures t1 ++ create_failures t2.
Proof. apply flat_map_app. Qed.

Lemma session_context_updates_app t1 t2 :
  session_context_updates (t1 ++ t2)
  = session_context_updates t1 ++ session_context_updates t2.
Proof. unfold session_context_updates. rewrite calls_app. apply flat_map_app. Qed.

(** a run that neither creates nor updates, on an unchanged registry *)
Lemma grows_quiet r t :
  creations t = [] -> create_attempts t = [] ->
  session_context_updates t = [] -> grows r r t.
Proof.
  intros Hc Ha Hu. exists []. rewrite app_nil_r, Hc, Ha.
  repeat split; auto using List.NoDup_nil; intros ? [].
Qed.

Lemma grows_trans r r1 r2 t1 t2 :
  grows r r1 t1 -> grows r1 r2 t2 -> grows r r2 (t1 ++ t2).
Proof.
  intros (a1 & Hr1 & Hc1 & Hnd1 & Hf1 & Ha1 & Hu1 & He1)
         (a2 & Hr2 & Hc2 & Hnd2 & Hf2 & Ha2 & Hu2 & He2).
  assert (Hnames : forall n,
             In n (Registry.names (Registry.session_contexts r1)) <->
             In n (Registry.names (Registry.session_contexts r))
             \/ In n (creations t1)).
  { intros n. unfold Registry.names. rewrite Hr1, map_app, in_app_iff, Hc1.
    reflexivity. }
  exists (a1 ++ a2).
  rewrite creations_app, create_attempts_app, session_context_updates_app,
    create_failures_app, Hu1, Hu2.
  split; [now rewrite Hr2, Hr1, app_assoc|].
  split; [now rewrite map_app, Hc1, Hc2|].
  split.
  { apply List.NoDup_app; auto. intros n H1 H2.
    apply (Hf2 n H2), Hnames. auto. }
  split.
  { intros n [H|H]%in_app_iff; auto. intros Hn. apply (Hf2 n H), Hnames. auto. }
  split.
  { intros params [H|H]%in_app_iff; auto.
    destruct (Ha2 params H) as (n & Hn & Hnot). exists n. split; auto.
    intros Hin. apply Hnot, Hnames. auto. }
  split; [reflexivity|].
  intros [H1 H2]%app_eq_nil. now rewrite !map_app, He1, He2.
Qed.

(** sequencing preserves [run_grows] *)
Lemma run_grows_bind {A B} (p : prog A) (f : A -> prog B) w :
  run_grows w (run Registry.upsf p w) ->
  (forall a w1, run_grows w1 (run Registry.upsf (f a) w1)) ->
  run_grows w (run Registry.upsf (bind p f) w).
Proof.
  unfold run_grows, final, trace. intros Hp Hf. rewrite run_bind.
  destruct (run Registry.upsf p w) as [[[a|e] w1] t1]; [|exact Hp].
  specialize (Hf a w1).
  destruct (run Registry.upsf (f a) w1) as [[o w2] t2]. simpl in *.
  eapply grows_trans; eauto.
Qed.

Lemma run_grows_for_each {X} (body : X -> prog unit) (l : list X) :
  (forall x w, run_grows w (run Registry.upsf (body x) w)) ->
  forall w, run_grows w (run Registry.upsf (for_each l body) w).
Proof.
  intros Hbody. induction l as [|x l IH]; intros w; simpl.
  - apply grows_quiet; reflexivity.
  - apply run_grows_bind; auto.
Qed.

Lemma run_grows_ret {A} (a : A) w : run_grows w (run Registry.upsf (Ret a) w).
Proof. apply grows_quiet; reflexivity. Qed.

Lemma run_grows_raise {A} e w :
  run_grows w (run Registry.upsf (@Raise A e) w).
Proof. apply grows_quiet; reflexivity. Qed.

Lemma run_grows_lift {A} (r : result A) w :
  run_grows w (run Registry.upsf (lift r) w).
Proof. destruct r; apply grows_quiet; reflexivity. Qed.

Lemma run_grows_log lvl msg w :
  run_grows w (run Registry.upsf (log lvl msg) w).
Proof. apply grows_quiet; reflexivity. Qed.

(** a read leaves the registry as it is, whether it fails or not *)
Lemma serve_list_session_contexts w :
  exists r w',
    Registry.serve_or_fail UPSF.list_session_contexts w = (r, w')
    /\ Registry.reg w' = Registry.reg w
    /\ (forall l, r = Ok l -> l = Registry.session_contexts (Registry.reg w)).
Proof.
  unfold Registry.serve_or_fail.
  destruct (Registry.faults w) as [|[] f]; simpl; eexists _, _;
    (split; [reflexivity|]); simpl; split; auto; congruence.
Qed.

Lemma serve_list_shards w :
  exists r w',
    Registry.serve_or_fail UPSF.list_shards w = (r, w')
    /\ Registry.reg w' = Registry.reg w.
Proof.
  unfold Registry.serve_or_fail.
  destruct (Registry.faults w) as [|[] f]; simpl; eexists _, _;
    (split; [reflexivity|]); reflexivity.
Qed.

Lemma find_sctx_None name l :
  ~ In name (Registry.names l) -> Registry.find_sctx name l = None.
Proof.
  unfold Registry.find_sctx, Registry.names.
  induction l as [|sctx l IH]; simpl; intros Hnot; [reflexivity|].
  destruct (String.eqb_spec (sctx_name sctx) name) as [Heq|]; [|auto].
  exfalso. auto.
Qed.

(** creating under a name that is not there appends one context of that
    name, or fails and leaves the registry as it is *)
Lemma serve_create_fresh reg params name :
  PyDict.get "name" params = Some (PStr name) ->
  ~ In name (Registry.names (Registry.session_contexts reg)) ->
  (exists new reg',
      sctx_name new = name
      /\ Registry.session_contexts reg' = Registry.session_contexts reg ++ [new]
      /\ Registry.serve (UPSF.create_session_context params) reg = (Ok new, reg'))
  \/ (exists e,
         Registry.serve (UPSF.create_session_context params) reg = (Err e, reg)).
Proof.
  intros Hname Hfresh. simpl. rewrite Hname, (find_sctx_None _ _ Hfresh).
  destruct (Registry.write_fields name params (Registry.blank name))
    as [new|] eqn:Hnew; [left|right; eexists; reflexivity].
  exists new. eexists. split; [|split; [|reflexivity]]; [|reflexivity].
  unfold Registry.write_fields in Hnew.
  repeat case_match; simplify_eq. reflexivity.
Qed.

Lemma run_grows_create params name w :
  PyDict.get "name" params = Some (PStr name) ->
  ~ In name (Registry.names (Registry.session_contexts (Registry.reg w))) ->
  run_grows w
    (run Registry.upsf
       (bind (log INFO "add entry")
          (fun _ => bind (upsf_call (UPSF.create_session_context params))
                      (fun r => Ret (Some (r : SessionContext)))))
       w).
Proof.
  intros Hname Hfresh. unfold run_grows, final, trace.
  assert (Hfail : forall e,
    grows (Registry.reg w) (Registry.reg w)
      [ev_log INFO "add entry";
       ev_call (UPSF.create_session_context params) (Err e)]).
  { intros e. exists []. rewrite app_nil_r. simpl.
    split; [reflexivity|]. split; [reflexivity|]. split; [constructor|].
    split; [intros ? []|]. split; [intros p [<-|[]]; eauto|].
    split; [reflexivity|discriminate]. }
  assert (Hok : forall new reg',
    sctx_name new = name ->
    Registry.session_contexts reg'
    = Registry.session_contexts (Registry.reg w) ++ [new] ->
    grows (Registry.reg w) reg'
      [ev_log INFO "add entry";
       ev_call (UPSF.create_session_context params) (Ok new)]).
  { intros new reg' Hn Hreg. exists [new]. simpl. rewrite Hn, Hname.
    split; [assumption|]. split; [reflexivity|].
    split; [constructor; [intros []|constructor]|].
    split; [intros n [<-|[]]; assumption|].
    split; [intros p [<-|[]]; eauto|].
    split; reflexivity. }
  cbn [run bind log upsf_call handle Registry.upsf].
  unfold Registry.serve_or_fail.
  destruct (Registry.faults w) as [|[] f]; [|cbn; apply Hfail|].
  all: destruct (serve_create_fresh (Registry.reg w) params name Hname Hfresh)
         as [(new & reg' & Hn & Hreg & ->)|(e & ->)]; cbn; auto.
Qed.

(** sequencing, when what the first part returns is known to satisfy [Q] *)
Lemma run_grows_bind_post {A B} (Q : A -> Registry.world -> Prop)
    (p : prog A) (f : A -> prog B) w :
  run_grows w (run Registry.upsf p w) ->
  (forall a w1 t1, run Registry.upsf p w = (returned a, w1, t1) -> Q a w1) ->
  (forall a w1, Q a w1 -> run_grows w1 (run Registry.upsf (f a) w1)) ->
  run_grows w (run Registry.upsf (bind p f) w).
Proof.
  unfold run_grows, final, trace. intros Hp HQ Hf. rewrite run_bind.
  destruct (run Registry.upsf p w) as [[[a|e] w1] t1] eqn:Hrun; [|exact Hp].
  specialize (Hf a w1 (HQ _ _ _ eq_refl)).
  destruct (run Registry.upsf (f a) w1) as [[o w2] t2]. simpl in *.
  eapply grows_trans; eauto.
Qed.

Lemma run_list_session_contexts w :
  run_grows w (run Registry.upsf (upsf_call UPSF.list_session_contexts) w)
  /\ forall l w1 t1,
      run Registry.upsf (upsf_call UPSF.list_session_contexts) w
      = (returned l, w1, t1) ->
      l = Registry.session_contexts (Registry.reg w1).
Proof.
  destruct (serve_list_session_contexts w) as (r & w' & Hserve & Hreg & Hl).
  unfold run_grows, final, trace. cbn [run upsf_call handle Registry.upsf].
  rewrite Hserve. destruct r as [l|e]; cbn; rewrite ?Hreg.
  - split; [apply grows_quiet; reflexivity|].
    intros l' w1 t1 [= <- <- _]. rewrite Hreg. now apply Hl.
  - split; [apply grows_quiet; reflexivity|]. intros ? ? ? [=].
Qed.

Lemma run_list_shards w :
  run_grows w (run Registry.upsf (upsf_call UPSF.list_shards) w).
Proof.
  destruct (serve_list_shards w) as (r & w' & Hserve & Hreg).
  unfold run_grows, final, trace. cbn [run upsf_call handle Registry.upsf].
  rewrite Hserve. destruct r as [l|e]; cbn; rewrite ?Hreg;
    apply grows_quiet; reflexivity.
Qed.

(** one entry: the creation is attempted only under a name that the list
    just read does not hold *)
Lemma run_grows_create_session_context entry shards w :
  run_grows w
    (run Registry.upsf (create_session_context self entry shards) w).
Proof.
  unfold create_session_context.
  apply (run_grows_bind_post
           (fun l w1 => l = Registry.session_contexts (Registry.reg w1)));
    [apply run_list_session_contexts | apply run_list_session_contexts |].
  intros l w1 ->.
  destruct (session_hash _) as [name|e]; cbn [lift bind];
    [|apply run_grows_raise].
  destruct (PyDict.mem name _) eqn:Hmem; [apply grows_quiet; reflexivity|].
  assert (Hfresh :
    ~ In name (Registry.names (Registry.session_contexts (Registry.reg w1)))).
  { intros Hin.
    assert (PyDict.mem name
              (PyDict.of_list
                 (map (fun sctx => (sctx_name sctx, sctx))
                    (Registry.session_contexts (Registry.reg w1)))) = true)
      by (apply dict_of_list_mem; now rewrite map_map).
    congruence. }
  destruct (py_int _) as [svlan|e]; cbn [lift bind]; [|apply run_grows_raise].
  destruct (py_int _) as [cvlan|e]; cbn [lift bind]; [|apply run_grows_raise].
  cbv zeta.
  destruct (negb (is_empty_or_none _)).
  - destruct (contains_key _ _) as [found|e]; cbn [lift bind];
      [|apply run_grows_raise].
    destruct (negb found).
    { destruct (PyDict.mem "name" entry); apply grows_quiet; reflexivity. }
    apply (run_grows_create _ name); [|exact Hfresh].
    now rewrite dict_get_set_ne by discriminate.
  - apply (run_grows_create _ name); [reflexivity|exact Hfresh].
Qed.

Lemma run_grows_create_default_item shards entry w :
  run_grows w (run Registry.upsf (create_default_item self shards entry) w).
Proof.
  unfold create_default_item.
  destruct (negb (PyDict.mem "name" entry)); [apply run_grows_log|].
  destruct (truthy _).
  - destruct (py_iter _) as [items|e]; cbn [lift bind];
      [|apply run_grows_raise].
    apply run_grows_for_each. intros [| | | | |item|] w'; try apply run_grows_raise.
    apply run_grows_bind; [apply run_grows_create_session_context|].
    intros; apply run_grows_ret.
  - apply run_grows_bind; [apply run_grows_create_session_context|].
    intros; apply run_grows_ret.
Qed.

Lemma run_grows_create_default_items config w :
  run_grows w (run Registry.upsf (create_default_items self config) w).
Proof.
  unfold create_default_items.
  destruct config as [entries|]; [|apply grows_quiet; reflexivity].
  apply run_grows_bind; [apply run_list_shards|]. intros l w1.
  apply run_grows_for_each. intros; apply run_grows_create_default_item.
Qed.

End Materialisation.

(** C8 (amended): materialising the policy twice creates each session
    context once, and unless a creation failed asks for it once.
    Run [create_default_items] twice with the same configuration against the
    in-memory UPSF, from any registry and with any faults to come.  Over
    both runs, no two successful creations carry the same name; every
    [create_session_context] issued, failed ones included, is for a
    fingerprint that named no session context at the start; unless a
    creation failed, no two calls issued carry the same name; no
    [update_session_context] is issued; and the registry ends as it began
    plus the contexts created. *)
Theorem materialisation_is_idempotent {RT : PyRuntime} (self : Config)
    (config : option (list kwargs)) (w0 : Registry.world) :
  let first := run Registry.upsf (create_default_items self config) w0 in
  let second :=
    run Registry.upsf (create_default_items self config) (snd (fst first)) in
  let t := trace first ++ trace second in
  let names0 := Registry.names (Registry.session_contexts (Registry.reg w0)) in
  List.NoDup (creations t)
  /\ (forall params, In params (create_attempts t) ->
        exists n, PyDict.get "name" params = Some (PStr n) /\ ~ In n names0)
  /\ (create_failures t = [] ->
      List.NoDup (map (PyDict.get "name") (create_attempts t)))
  /\ session_context_updates t = []
  /\ exists added,
      Registry.session_contexts (final second)
      = Registry.session_contexts (Registry.reg w0) ++ added
      /\ map sctx_name added = creations t.
Proof.
  intros first second t names0.
  assert (H : grows (Registry.reg w0) (final second) t).
  { exact (grows_trans _ _ _ _ _
             (run_grows_create_default_items self config w0)
             (run_grows_create_default_items self config (snd (fst first)))). }
  destruct H as (added & Hreg & Hc & Hnd & Hf & Ha & Hu & He).
  repeat split; auto.
  - intros Hok. rewrite (He Hok).
    apply Finite.Injective_map_NoDup; [|assumption].
    intros x y [=]. assumption.
  - eauto.
Qed.

(** A policy with two entries, the second expanded by two services, on an
    empty registry: three contexts are created by the first run and none by
    the second. *)
Example scenario_materialise_twice :
  let policy : option (list kwargs) :=
    Some [[("name", PStr "alice"); ("circuitId", PStr "c1");
           ("svlan", PInt 10); ("cvlan", PInt 20)];
          [("name", PStr "bob"); ("circuitId", PStr "c2");
           ("svlan", PInt 0); ("cvlan", PInt 0);
           ("services",
            PList [PDict [("svlan", PInt 7)]; PDict [("svlan", PInt 8)]])]] in
  let first :=
    run Registry.upsf
      (create_default_items (RT:=exact_runtime) Scenario.config policy)
      (Registry.reliable
         {| Registry.shards := [Scenario.shard_X];
            Registry.service_gateway_user_planes := [Scenario.sgup_A];
            Registry.session_contexts := [] |}) in
  let second :=
    run Registry.upsf
      (create_default_items (RT:=exact_runtime) Scenario.config policy)
      (snd (fst first)) in
  length (creations (trace first)) = 3%nat
  /\ create_attempts (trace second) = []
  /\ final second = final first.
Proof. vm_compute. repeat split. Qed.


(** ** Shards at capacity *)

Section Exhausted.
Context {RT : PyRuntime} (self : Config).

Lemma dict_of_list_nonempty {V} (l : list (string * V)) :
  l <> [] -> PyDict.of_list l <> [].
Proof.
  destruct l as [|[k v] l]; [congruence|]. intros _ Hnil.
  assert (H : In k (PyDict.keys (PyDict.of_list ((k, v) :: l))))
    by (apply dict_of_list_keys; now left).
  rewrite Hnil in H. destruct H.
Qed.

Lemma flat_map_nil {A B} (f : A -> list B) (l : list A) :
  (forall x, In x l -> f x = []) -> flat_map f l = [].
Proof.
  induction l as [|x l IH]; simpl; intros H; [reflexivity|].
  rewrite (H x), IH by auto. reflexivity.
Qed.

(** a selected SGUP is in the snapshot, passed the candidate filter and is
    named by a shard of the snapshot *)
Lemma selected_sgup_has_a_shard shards sgups required g :
  py_min (sgup_load shards sgups required) = Ok g ->
  In g (sgup_candidates shards sgups required)
  /\ exists shard,
      In shard shards /\ shard_service_gateway_user_plane shard = g.
Proof.
  unfold sgup_load. intros Hg.
  apply py_min_of_list in Hg as (x & Hg).
  apply in_flat_map in Hg as (g' & Hcand & Hg).
  destruct (PyDict.get g' _) as [sgup|] eqn:Hget; [|destruct Hg].
  destruct ((0 <? _) && (_ <? _)); [|destruct Hg].
  destruct Hg as [[= -> _]|[]]. split; [assumption|].
  unfold service_gateway_user_planes in Hget.
  apply dict_get_In, dict_of_list_In in Hget.
  apply in_map_iff in Hget as (sgup' & [= <- ->] & Hsgup).
  apply filter_In in Hsgup as [_ Hnamed].
  apply existsb_exists in Hnamed as (x' & Hx & Heq%String.eqb_eq).
  unfold shard_candidate_sgups in Hx.
  apply in_map_iff in Hx as ([k shard] & Hsg & Hin). simpl in Hsg.
  apply dict_of_list_In in Hin.
  apply in_map_iff in Hin as (shard' & [= _ ->] & Hin).
  exists shard. split; [assumption|congruence].
Qed.

(** hence the test for "no shard candidates" never succeeds *)
Lemma shard_candidates_nonempty shards sgups required g :
  py_min (sgup_load shards sgups required) = Ok g ->
  (length (shard_candidates shards g) =? 0)%nat = false.
Proof.
  intros Hg.
  destruct (selected_sgup_has_a_shard _ _ _ _ Hg) as (_ & shard & Hin & Hg').
  assert (Hne : shard_candidates shards g <> []).
  { unfold shard_candidates. apply dict_of_list_nonempty. intros Hnil.
    assert (H : In (shard_name shard, shard)
                  (map (fun shard => (shard_name shard, shard))
                     (List.filter
                        (fun shard =>
                           String.eqb (shard_service_gateway_user_plane shard) g)
                        shards))).
    { apply in_map_iff. exists shard. split; [reflexivity|].
      apply filter_In. split; [assumption|]. now apply String.eqb_eq. }
    rewrite Hnil in H. destruct H. }
  destruct (shard_candidates shards g); [congruence|reflexivity].
Qed.

Lemma shard_load_exhausted shards g :
  (forall shard,
      In shard shards -> shard_service_gateway_user_plane shard = g ->
      (0 <? shard_max_session_count shard)
      && (shard_allocated_session_count shard <? shard_max_session_count shard)
      = false) ->
  shard_load shards g = [].
Proof.
  intros Hfull. unfold shard_load. rewrite flat_map_nil; [reflexivity|].
  intros [k shard] Hin. simpl. unfold shard_candidates in Hin.
  apply dict_of_list_In in Hin.
  apply in_map_iff in Hin as (shard' & [= _ ->] & Hin).
  apply filter_In in Hin as [Hin Heq%String.eqb_eq].
  now rewrite (Hfull shard Hin Heq).
Qed.

End Exhausted.

(** C2, in general: whenever an SGUP is selected and every shard of the
    snapshot that names it is at capacity or has no capacity, [map_session]
    ends in a [ValueError] right after the two snapshot reads: nothing is
    written and nothing is logged, but the exception is not the
    [UpsfError] the method catches. *)
Theorem exhausted_shards_raise_ValueError {RT : PyRuntime} (self : Config)
    {St} (h : handler St) (s s1 s2 : St) (sctx : SessionContext)
    (shards : list Shard) (sgups : list ServiceGatewayUserPlane)
    (required : list string) (sgup_name_selected : string) :
  handle h UPSF.list_shards s = (Ok shards, s1) ->
  handle h UPSF.list_service_gateway_user_planes s1 = (Ok sgups, s2) ->
  shard_unset (sctx_desired_shard sctx) = true ->
  sctx_required_service_group sctx = Some required ->
  service_group_unset (Some required) = false ->
  py_min (sgup_load shards sgups required) = Ok sgup_name_selected ->
  (forall shard,
      In shard shards ->
      shard_service_gateway_user_plane shard = sgup_name_selected ->
      (0 <? shard_max_session_count shard)
      && (shard_allocated_session_count shard <? shard_max_session_count shard)
      = false) ->
  run h (map_session self sctx) s
  = (raised ValueError, s2,
     [ev_call UPSF.list_shards (Ok shards);
      ev_call UPSF.list_service_gateway_user_planes (Ok sgups)]).
Proof.
  intros Hshards Hsgups Hshard Hreq Hset Hg Hfull.
  destruct (selected_sgup_has_a_shard _ _ _ _ Hg) as (Hcand & shard & Hin & _).
  assert (Hsg : sgups <> []).
  { intros ->. unfold sgup_candidates, service_gateway_user_planes in Hcand.
    simpl in Hcand. rewrite set_iter_nil in Hcand. destruct Hcand. }
  unfold map_session, map_session_body. simpl. rewrite Hshards. simpl.
  destruct shards as [|shard0 shards]; [destruct Hin|]. simpl.
  rewrite Hsgups. simpl.
  destruct sgups as [|sgup0 sgups]; [congruence|]. simpl.
  rewrite Hshard, Hreq, Hset. simpl. unfold place.
  destruct (sgup_candidates _ _ _) eqn:Hc; [destruct Hcand|]. simpl.
  rewrite Hg. simpl.
  rewrite (shard_candidates_nonempty _ _ _ _ Hg).
  rewrite (shard_load_exhausted _ _ Hfull). reflexivity.
Qed.

Lemma exhausted_shards_raise_ValueError_witness :
  run Registry.upsf
    (map_session (RT:=exact_runtime) Scenario.config Scenario.ctx1)
    (Registry.reliable Scenario.s_full)
  = (raised ValueError,
     Registry.reliable Scenario.s_full,
     [ev_call UPSF.list_shards (Ok [Scenario.shard_X_full]);
      ev_call UPSF.list_service_gateway_user_planes (Ok [Scenario.sgup_A])]).
Proof.
  apply (exhausted_shards_raise_ValueError (RT:=exact_runtime)
           Scenario.config Registry.upsf _ (Registry.reliable Scenario.s_full)
           _ _ _ _ ["basic"] "A");
    try reflexivity.
  intros shard [<-|[]] _. reflexivity.
Defined.

(** ** Step G *)

(** C1 (amended): Step G reads both counters again, those of the pair
    selected.  Whatever the UPSF replies, every count that [map_session]
    writes was read by a point read just before and is written back plus
    one, the shard before the SGUP, and a [desired_shard] is committed only
    after the SGUP write succeeded.  And when the snapshot makes the
    selection return an SGUP and a shard, every read and write that follows
    is made under the name of that SGUP or that shard, the shard selected is
    read again, and if the two point reads and the two writes succeed the
    calls are exactly: the two snapshot reads, [get_shard] of the shard
    selected, [update_shard] with the count just read plus one,
    [get_service_gateway_user_plane] of the SGUP selected,
    [update_service_gateway_user_plane] with the count just read plus one,
    and the [update_session_context] that commits the shard. *)
Theorem counters_written_from_point_reads {RT : PyRuntime} (self : Config)
    {St} (h : handler St) (s : St) (sctx : SessionContext) :
  let t := trace (run h (map_session self sctx) s) in
  all_justified [] t
  /\ forall (s1 s2 : St) (shards : list Shard)
        (sgups : list ServiceGatewayUserPlane) (required : list string)
        (sgup_name_selected shard_name_selected : string),
      handle h UPSF.list_shards s = (Ok shards, s1) ->
      handle h UPSF.list_service_gateway_user_planes s1 = (Ok sgups, s2) ->
      shard_unset (sctx_desired_shard sctx) = true ->
      sctx_required_service_group sctx = Some required ->
      service_group_unset (Some required) = false ->
      py_min (sgup_load shards sgups required) = Ok sgup_name_selected ->
      py_min (shard_load shards sgup_name_selected) = Ok shard_name_selected ->
      Forall (on_selected sgup_name_selected shard_name_selected) (calls t)
      /\ In (UPSF.get_shard shard_name_selected) (calls t)
      /\ forall (shard : Shard) (sgup : ServiceGatewayUserPlane)
            (s3 s4 s5 s6 : St),
          handle h (UPSF.get_shard shard_name_selected) s2 = (Ok shard, s3) ->
          handle h
            (UPSF.update_shard
               (count_params shard_name_selected
                  (shard_allocated_session_count shard + 1))) s3
          = (Ok tt, s4) ->
          handle h (UPSF.get_service_gateway_user_plane sgup_name_selected) s4
          = (Ok sgup, s5) ->
          handle h
            (UPSF.update_service_gateway_user_plane
               (count_params sgup_name_selected
                  (sgup_allocated_session_count sgup + 1))) s5
          = (Ok tt, s6) ->
          calls t
          = [UPSF.list_shards; UPSF.list_service_gateway_user_planes;
             UPSF.get_shard shard_name_selected;
             UPSF.update_shard
               (count_params shard_name_selected
                  (shard_allocated_session_count shard + 1));
             UPSF.get_service_gateway_user_plane sgup_name_selected;
             UPSF.update_service_gateway_user_plane
               (count_params sgup_name_selected
                  (sgup_allocated_session_count sgup + 1));
             UPSF.update_session_context
               (PyDict.set "name" (PStr (sctx_name sctx))
                  (PyDict.set "desired_shard" (PStr shard_name_selected)
                     (fill_defaults self sctx)))].
Proof.
  intros t. split; [apply map_session_all_justified|].
  intros s1 s2 shards sgups required g n Hshards Hsgups Hshard Hreq Hset Hg Hn.
  destruct (selected_sgup_has_a_shard _ _ _ _ Hg) as (Hcand & shard0 & Hin & _).
  assert (Hsg : sgups <> []).
  { intros ->. unfold sgup_candidates, service_gateway_user_planes in Hcand.
    simpl in Hcand. rewrite set_iter_nil in Hcand. destruct Hcand. }
  subst t. unfold map_session, map_session_body, trace. simpl.
  rewrite Hshards. simpl.
  destruct shards as [|shard1 shards]; [destruct Hin|]. simpl.
  rewrite Hsgups. simpl.
  destruct sgups as [|sgup1 sgups]; [congruence|]. simpl.
  rewrite Hshard, Hreq, Hset. simpl. unfold place.
  destruct (sgup_candidates _ _ _) eqn:Hc; [destruct Hcand|]. simpl.
  rewrite Hg. simpl.
  rewrite (shard_candidates_nonempty _ _ _ _ Hg).
  rewrite Hn. simpl.
  unfold counter_bump, commit, count_params. rewrite length_set_nonzero. simpl.
  split; [|split].
  - do 5 (next_reply h; [|repeat constructor; simpl; auto..]).
    all: repeat constructor; simpl; auto.
    all: now rewrite dict_get_set_ne, dict_get_set_eq by discriminate.
  - do 5 (next_reply h; [|simpl; auto 10..]).
    all: simpl; auto 10.
  - intros shard sgup s3 s4 s5 s6 H1 H2 H3 H4.
    rewrite H1. simpl. rewrite H2. simpl. rewrite H3. simpl. rewrite H4. simpl.
    next_reply h; reflexivity.
Qed.

Lemma counters_written_from_point_reads_witness :
  calls (trace (run Registry.upsf
                  (map_session (RT:=exact_runtime) Scenario.config Scenario.ctx1)
                  (Registry.reliable LoadScenario.s2)))
  = [UPSF.list_shards; UPSF.list_service_gateway_user_planes;
     UPSF.get_shard "Y";
     UPSF.update_shard (count_params "Y" 1);
     UPSF.get_service_gateway_user_plane "B";
     UPSF.update_service_gateway_user_plane (count_params "B" 11);
     UPSF.update_session_context
       [("desired_shard", PStr "Y"); ("name", PStr "ctx1")]].
Proof.
  refine (proj2 (proj2 (proj2 (counters_written_from_point_reads
                                 (RT:=exact_runtime) Scenario.config
                                 Registry.upsf
                                 (Registry.reliable LoadScenario.s2)
                                 Scenario.ctx1)
                          (Registry.reliable LoadScenario.s2)
                          (Registry.reliable LoadScenario.s2)
                          [LoadScenario.shard_X; LoadScenario.shard_Y;
                           LoadScenario.shard_Z]
                          [LoadScenario.sgup_A; LoadScenario.sgup_B]
                          ["basic"] "B" "Y" _ _ _ _ _ _ _))
            LoadScenario.shard_Y LoadScenario.sgup_B _ _ _ _ _ _ _ _);
    reflexivity.
Defined.

(** ** The pair selected *)

Section Selected.
Context {RT : PyRuntime}.



End Selected.



Lemma materialisation_is_idempotent_witness :
  let policy : option (list kwargs) :=
    Some [[("name", PStr "alice"); ("circuitId", PStr "c1");
           ("svlan", PInt 10); ("cvlan", PInt 20)];
          [("name", PStr "carol"); ("circuitId", PStr "c1");
           ("svlan", PInt 10); ("cvlan", PInt 20)]] in
  let first :=
    run Registry.upsf
      (create_default_items (RT:=exact_runtime) Scenario.config policy)
      (Registry.reliable Scenario.s1) in
  let second :=
    run Registry.upsf
      (create_default_items (RT:=exact_runtime) Scenario.config policy)
      (snd (fst first)) in
  List.NoDup
    (map (PyDict.get "name") (create_attempts (trace first ++ trace second))).
Proof.
  intros policy first second.
  apply (materialisation_is_idempotent (RT:=exact_runtime) Scenario.config
           policy (Registry.reliable Scenario.s1)).
  reflexivity.
Defined.

(** C8, as the specification words it, fails: the creation of the first run
    fails with [UpsfError], nothing is created, and the second run issues
    [create_session_context] for the same fingerprint again. *)
Lemma failed_creation_is_issued_again :
  let policy : option (list kwargs) :=
    Some [[("name", PStr "alice"); ("circuitId", PStr "c1");
           ("svlan", PInt 10); ("cvlan", PInt 20)]] in
  let w0 := {| Registry.reg := Scenario.s1;
               Registry.faults := [false; false; true] |} in
  let first :=
    run Registry.upsf
      (create_default_items (RT:=exact_runtime) Scenario.config policy) w0 in
  let second :=
    run Registry.upsf
      (create_default_items (RT:=exact_runtime) Scenario.config policy)
      (snd (fst first)) in
  final first = Scenario.s1
  /\ length (create_attempts (trace first)) = 1%nat
  /\ create_attempts (trace second) = create_attempts (trace first)
  /\ ~ created_at_most_once (trace first ++ trace second).
Proof.
  intros policy w0 first second. repeat split.
  intros H. unfold created_at_most_once in H. vm_compute in H.
  apply List.NoDup_cons_iff in H as [Hnot _]. apply Hnot. left. reflexivity.
Qed.


(** * More of the module *)

Arguments MD5.hexdigest : simpl never.

(** ** Failures of the UPSF *)

Section Strict.
Context {RT : PyRuntime} (self : Config).

Lemma strict_bind {A B} (p : prog A) (f : A -> prog B) :
  strict p -> (forall a, strict (f a)) -> strict (bind p f).
Proof.
  induction p as [a|e|l m k IH|c k IH]; simpl; auto.
  intros [Herr Hok] Hf. split.
  - intros e. now rewrite Herr.
  - intros x. apply IH; auto.
Qed.

Lemma strict_upsf_call c : strict (upsf_call c).
Proof. simpl. split; [reflexivity|]. intros x. exact I. Qed.

Lemma strict_lift {A} (r : result A) : builtin r -> strict (lift r).
Proof. intros H. destruct r as [x|[]]; try exact I. now apply (H msg). Qed.

Lemma builtin_py_min (d : dict pyfloat) : builtin (py_min d).
Proof. intros msg. destruct d; discriminate. Qed.

Lemma builtin_encode v : builtin (encode v).
Proof. intros msg. destruct v; discriminate. Qed.

Lemma builtin_session_hash kw : builtin (session_hash kw).
Proof.
  intros msg H. unfold session_hash in H.
  repeat match type of H with
         | result_bind (encode ?v) _ = _ =>
             let E := fresh "E" in
             destruct (encode v) as [?|?] eqn:E; cbn [result_bind] in H;
             [|rewrite H in E; exact (builtin_encode _ _ E)]
         end.
  discriminate H.
Qed.

Lemma builtin_py_int v : builtin (py_int v).
Proof.
  intros msg. destruct v; simpl; try discriminate.
  destruct (int_of_str s); discriminate.
Qed.

Lemma builtin_contains_key {V} v (d : dict V) : builtin (contains_key v d).
Proof. intros msg. destruct v; discriminate. Qed.

Lemma builtin_py_iter v : builtin (py_iter v).
Proof. intros msg. destruct v; discriminate. Qed.

Lemma strict_log lvl msg : strict (log lvl msg).
Proof. exact I. Qed.

Lemma strict_for_each {X} (l : list X) (body : X -> prog unit) :
  (forall x, strict (body x)) -> strict (for_each l body).
Proof.
  intros H. induction l as [|x l IH]; simpl; [exact I|].
  apply strict_bind; auto.
Qed.

Lemma strict_commit sctx params : strict (commit sctx params).
Proof.
  unfold commit. destruct (negb _); [|exact I].
  apply strict_bind; [apply strict_log|]. intros _.
  apply strict_bind; [apply strict_upsf_call|]. intros _. exact I.
Qed.

Lemma strict_counter_bump sctx g n params :
  strict (counter_bump sctx g n params).
Proof.
  unfold counter_bump.
  apply strict_bind; [apply strict_log|]; intros _.
  apply strict_bind; [apply strict_upsf_call|]; intros shard.
  apply strict_bind; [apply strict_upsf_call|]; intros _.
  apply strict_bind; [apply strict_upsf_call|]; intros sgup.
  apply strict_bind; [apply strict_upsf_call|]; intros _.
  apply strict_commit.
Qed.

Lemma strict_place sctx shards sgups required params :
  strict (place sctx shards sgups required params).
Proof.
  unfold place. destruct (_ =? _)%nat; [exact I|].
  apply strict_bind; [apply strict_lift, builtin_py_min|]; intros g.
  destruct (_ =? _)%nat; [exact I|].
  apply strict_bind; [apply strict_lift, builtin_py_min|]; intros n.
  apply strict_counter_bump.
Qed.

Lemma strict_map_session_body sctx : strict (map_session_body self sctx).
Proof.
  unfold map_session_body.
  apply strict_bind; [apply strict_upsf_call|]; intros shards.
  destruct (_ =? _)%nat; [exact I|].
  apply strict_bind; [apply strict_upsf_call|]; intros sgups.
  destruct (_ =? _)%nat; [exact I|].
  destruct (_ && _); [apply strict_place|apply strict_commit].
Qed.

Lemma strict_create_session_context entry shards :
  strict (create_session_context self entry shards).
Proof.
  unfold create_session_context.
  apply strict_bind; [apply strict_upsf_call|]; intros l.
  apply strict_bind; [apply strict_lift, builtin_session_hash|]; intros name.
  destruct (PyDict.mem name _); [exact I|].
  apply strict_bind; [apply strict_lift, builtin_py_int|]; intros svlan.
  apply strict_bind; [apply strict_lift, builtin_py_int|]; intros cvlan.
  cbv zeta.
  assert (Hcreate : forall params,
    strict (bind (log INFO "add entry")
              (fun _ => bind (upsf_call (UPSF.create_session_context params))
                          (fun r => Ret (Some (r : SessionContext)))))).
  { intros params. apply strict_bind; [apply strict_log|]; intros _.
    apply strict_bind; [apply strict_upsf_call|]; intros r. exact I. }
  destruct (negb (is_empty_or_none _)); [|apply Hcreate].
  apply strict_bind; [apply strict_lift, builtin_contains_key|]; intros found.
  destruct (negb found); [|apply Hcreate].
  destruct (PyDict.mem "name" entry); exact I.
Qed.

Lemma strict_create_default_items config :
  strict (create_default_items self config).
Proof.
  unfold create_default_items. destruct config as [entries|]; [|exact I].
  apply strict_bind; [apply strict_upsf_call|]; intros l.
  apply strict_for_each. intros entry. unfold create_default_item.
  destruct (negb _); [exact I|].
  destruct (truthy _).
  - apply strict_bind; [apply strict_lift, builtin_py_iter|]; intros items.
    apply strict_for_each. intros [| | | | |item|]; try exact I.
    apply strict_bind; [apply strict_create_session_context|].
    intros _. exact I.
  - apply strict_bind; [apply strict_create_session_context|].
    intros _. exact I.
Qed.

(** in a strict program the first failed call is the last event, and its
    error is what the run raises *)
Lemma strict_stops_at_failure {St A} (h : handler St) (p : prog A) s post :
  strict p ->
  after_failure (trace (run h p s)) = Some post ->
  post = [] /\ exists msg, result_of (run h p s) = raised (UpsfError msg).
Proof.
  unfold trace, result_of. revert s.
  induction p as [a|e|l m k IH|c k IH]; intros s; simpl.
  - intros _ [=].
  - intros _ [=].
  - intros Hk. specialize (IH s Hk).
    destruct (run h k s) as [[o s'] t]. simpl in *. exact IH.
  - intros [Herr Hok].
    destruct (handle h c s) as [[x|e] s1].
    + specialize (IH (Ok x) s1 (Hok x)).
      destruct (run h (k (Ok x)) s1) as [[o s'] t]. simpl in *. exact IH.
    + rewrite Herr. simpl. destruct e; try discriminate.
      intros [= <-]. eauto.
Qed.

(** without a failed call, a strict program does not raise [UpsfError] *)
Lemma strict_raises_only_failures {St A} (h : handler St) (p : prog A) s msg :
  strict p ->
  result_of (run h p s) = raised (UpsfError msg) ->
  after_failure (trace (run h p s)) = Some [].
Proof.
  unfold trace, result_of. revert s.
  induction p as [a|e|l m k IH|c k IH]; intros s; simpl.
  - intros _ [=].
  - intros He [= ->]. destruct He.
  - intros Hk. specialize (IH s Hk).
    destruct (run h k s) as [[o s'] t]. simpl in *. exact IH.
  - intros [Herr Hok].
    destruct (handle h c s) as [[x|e] s1].
    + specialize (IH (Ok x) s1 (Hok x)).
      destruct (run h (k (Ok x)) s1) as [[o s'] t]. simpl in *. exact IH.
    + rewrite Herr. simpl. intros [= ->]. reflexivity.
Qed.

End Strict.

Lemma after_failure_app t1 t2 post :
  after_failure t1 = Some post -> after_failure (t1 ++ t2) = Some (post ++ t2).
Proof.
  induction t1 as [|e t1 IH]; simpl; [discriminate|].
  destruct e as [c [x|[]]|]; auto. intros [= ->]. reflexivity.
Qed.

Lemma after_failure_app_None t1 lvl msg :
  after_failure t1 = None -> after_failure (t1 ++ [ev_log lvl msg]) = None.
Proof.
  induction t1 as [|e t1 IH]; simpl; [reflexivity|].
  destruct e as [c [x|[]]|]; auto. discriminate.
Qed.

(** X1: [map_session] lets no [UpsfError] escape, whatever the UPSF
    replies. *)
Theorem map_session_absorbs_UpsfError {RT : PyRuntime} (self : Config)
    {St} (h : handler St) (s : St) (sctx : SessionContext) (msg : string) :
  result_of (run h (map_session self sctx) s) <> raised (UpsfError msg).
Proof.
  unfold map_session, result_of. rewrite run_try_except.
  destruct (run h (map_session_body self sctx) s) as [[[a|e] s1] t1];
    simpl; [discriminate|].
  destruct e; simpl; discriminate.
Qed.

(** X2: the first UPSF call that fails with [UpsfError] ends
    [map_session]: nothing is called after it, the error is logged and the
    method returns normally; what was written before stays written. *)
Theorem map_session_stops_at_first_failure {RT : PyRuntime} (self : Config)
    {St} (h : handler St) (s : St) (sctx : SessionContext)
    (post : list event) :
  after_failure (trace (run h (map_session self sctx) s)) = Some post ->
  post = [ev_log ERROR "error occurred"]
  /\ result_of (run h (map_session self sctx) s) = returned tt.
Proof.
  unfold map_session, trace, result_of. rewrite run_try_except.
  pose proof (strict_stops_at_failure h (map_session_body self sctx) s)
    as Hstop.
  pose proof (strict_raises_only_failures h (map_session_body self sctx) s)
    as Hraise.
  unfold trace, result_of in Hstop, Hraise.
  destruct (run h (map_session_body self sctx) s) as [[o s1] t1].
  simpl in *.
  destruct (after_failure t1) as [post1|] eqn:Hpost.
  - destruct (Hstop post1 (strict_map_session_body self sctx) eq_refl)
      as [-> (m & ->)]. simpl.
    rewrite (after_failure_app _ _ _ Hpost). intros [= <-]. auto.
  - destruct o as [a|e]; simpl; [congruence|].
    destruct e; simpl; try congruence.
    specialize (Hraise msg (strict_map_session_body self sctx) eq_refl).
    congruence.
Qed.

Lemma map_session_stops_at_first_failure_witness :
  [ev_log ERROR "error occurred"] = [ev_log ERROR "error occurred"]
  /\ result_of
       (run Registry.upsf
          (map_session (RT:=exact_runtime) Scenario.config Scenario.ctx1)
          {| Registry.reg := Scenario.s1;
             Registry.faults := [false; false; false; false; true] |})
     = returned tt.
Proof.
  apply (map_session_stops_at_first_failure (RT:=exact_runtime)).
  reflexivity.
Defined.

(** X3: the first UPSF call that fails ends [create_default_items] with
    that [UpsfError] raised: no entry after it is looked at. *)
Theorem create_default_items_stops_at_first_failure {RT : PyRuntime}
    (self : Config) {St} (h : handler St) (s : St)
    (config : option (list kwargs)) (post : list event) :
  after_failure (trace (run h (create_default_items self config) s))
  = Some post ->
  post = []
  /\ exists msg,
      result_of (run h (create_default_items self config) s)
      = raised (UpsfError msg).
Proof.
  apply strict_stops_at_failure, strict_create_default_items.
Qed.

Lemma create_default_items_stops_at_first_failure_witness :
  [] = @nil event
  /\ exists msg,
      result_of
        (run Registry.upsf
           (create_default_items (RT:=exact_runtime) Scenario.config
              (Some [[("name", PStr "alice"); ("circuitId", PStr "c1")];
                     [("name", PStr "bob"); ("circuitId", PStr "c2")]]))
           {| Registry.reg := Scenario.s1;
              Registry.faults := [false; false; true] |})
      = raised (UpsfError msg).
Proof.
  apply (create_default_items_stops_at_first_failure (RT:=exact_runtime)).
  reflexivity.
Defined.


(** ** Placement: what is selected *)

Lemma filter_nil {A} (f : A -> bool) (l : list A) :
  (forall x, In x l -> f x = false) -> List.filter f l = [].
Proof.
  induction l as [|x l IH]; simpl; intros H; [reflexivity|].
  rewrite (H x) by auto. apply IH. auto.
Qed.

(** X4: with an empty list of shards, or an empty list of SGUPs,
    [map_session] warns and returns at once, for every session context:
    nothing else is read and nothing is written. *)
Theorem empty_snapshot_nothing_done {RT : PyRuntime} (self : Config)
    {St} (h : handler St) (s : St) (sctx : SessionContext) :
  (forall s1,
      handle h UPSF.list_shards s = (Ok [], s1) ->
      run h (map_session self sctx) s
      = (returned tt, s1,
         [ev_call UPSF.list_shards (Ok []);
          ev_log WARNING "map_session: no shards available"]))
  /\ (forall s1 s2 shards,
        handle h UPSF.list_shards s = (Ok shards, s1) -> shards <> [] ->
        handle h UPSF.list_service_gateway_user_planes s1 = (Ok [], s2) ->
        run h (map_session self sctx) s
        = (returned tt, s2,
           [ev_call UPSF.list_shards (Ok shards);
            ev_call UPSF.list_service_gateway_user_planes (Ok []);
            ev_log WARNING
              "map_session: no service gateway user planes available"])).
Proof.
  unfold map_session, map_session_body. simpl. split.
  - intros s1 ->. reflexivity.
  - intros s1 s2 shards -> Hne. destruct shards; [congruence|]. simpl.
    intros ->. reflexivity.
Qed.

Lemma empty_snapshot_nothing_done_witness :
  run Registry.upsf
    (map_session (RT:=exact_runtime) Scenario.config Scenario.ctx_placed)
    (Registry.reliable Scenario.s_no_shards)
  = (returned tt, Registry.reliable Scenario.s_no_shards,
     [ev_call UPSF.list_shards (Ok []);
      ev_log WARNING "map_session: no shards available"]).
Proof.
  apply (empty_snapshot_nothing_done (RT:=exact_runtime)). reflexivity.
Defined.

(** X5: when no SGUP of the snapshot both supports the required service
    groups and has a free session, [map_session] warns that there is no
    SGUP candidate and returns: no count is read again, nothing is written
    and no exception is raised. *)
Theorem no_sgup_candidate_nothing_done {RT : PyRuntime} (self : Config)
    {St} (h : handler St) (s s1 s2 : St) (sctx : SessionContext)
    (shards : list Shard) (sgups : list ServiceGatewayUserPlane)
    (required : list string) :
  handle h UPSF.list_shards s = (Ok shards, s1) -> shards <> [] ->
  handle h UPSF.list_service_gateway_user_planes s1 = (Ok sgups, s2) ->
  sgups <> [] ->
  shard_unset (sctx_desired_shard sctx) = true ->
  sctx_required_service_group sctx = Some required ->
  service_group_unset (Some required) = false ->
  (forall sgup,
      In sgup sgups ->
      issuperset (sgup_supported_service_group sgup) required
      && (sgup_allocated_session_count sgup <? sgup_max_session_count sgup)
      = false) ->
  run h (map_session self sctx) s
  = (returned tt, s2,
     [ev_call UPSF.list_shards (Ok shards);
      ev_call UPSF.list_service_gateway_user_planes (Ok sgups);
      ev_log WARNING
        "no sgup candidates available for session context, ignoring"]).
Proof.
  intros Hshards Hne Hsgups Hne' Hshard Hreq Hset Hnone.
  assert (Hcand : sgup_candidates shards sgups required = []).
  { unfold sgup_candidates. rewrite filter_nil; [apply set_iter_nil|].
    intros [k sgup] Hin. simpl. apply Hnone.
    unfold service_gateway_user_planes in Hin.
    apply dict_of_list_In in Hin.
    apply in_map_iff in Hin as (sgup' & [= _ ->] & Hin).
    now apply filter_In in Hin as [Hin _]. }
  unfold map_session, map_session_body. simpl. rewrite Hshards. simpl.
  destruct shards as [|shard0 shards']; [congruence|]. simpl.
  rewrite Hsgups. simpl.
  destruct sgups as [|sgup0 sgups']; [congruence|]. simpl.
  rewrite Hshard, Hreq, Hset. simpl. unfold place. rewrite Hcand.
  reflexivity.
Qed.

Lemma no_sgup_candidate_nothing_done_witness :
  let full_A :=
    {| sgup_name := "A"; sgup_supported_service_group := ["basic"];
       sgup_max_session_count := 100; sgup_allocated_session_count := 100 |} in
  let w :=
    Registry.reliable
      {| Registry.shards := [Scenario.shard_X];
         Registry.service_gateway_user_planes := [full_A];
         Registry.session_contexts := [Scenario.ctx1] |} in
  run Registry.upsf
    (map_session (RT:=exact_runtime) Scenario.config Scenario.ctx1) w
  = (returned tt, w,
     [ev_call UPSF.list_shards (Ok [Scenario.shard_X]);
      ev_call UPSF.list_service_gateway_user_planes (Ok [full_A]);
      ev_log WARNING
        "no sgup candidates available for session context, ignoring"]).
Proof.
  intros full_A w.
  apply (no_sgup_candidate_nothing_done (RT:=exact_runtime) Scenario.config
           Registry.upsf w w w Scenario.ctx1 [Scenario.shard_X] [full_A]
           ["basic"]);
    try reflexivity; try discriminate.
  intros sgup [<-|[]]. reflexivity.
Defined.

(** X6: a placement never uses capacity the snapshot does not show.  If
    [map_session] commits a [desired_shard], the shard named has a positive
    capacity and fewer sessions than that in the snapshot, and the SGUP it
    names has fewer sessions than its capacity. *)
Theorem placement_respects_capacity {RT : PyRuntime} (self : Config)
    {St} (h : handler St) (s s1 s2 : St) (sctx : SessionContext)
    (shards : list Shard) (sgups : list ServiceGatewayUserPlane) :
  handle h UPSF.list_shards s = (Ok shards, s1) ->
  handle h UPSF.list_service_gateway_user_planes s1 = (Ok sgups, s2) ->
  placed (trace (run h (map_session self sctx) s)) ->
  exists sgup shard params,
    In (UPSF.update_session_context params)
       (calls (trace (run h (map_session self sctx) s)))
    /\ PyDict.get "desired_shard" params = Some (PStr (shard_name shard))
    /\ In shard shards /\ In sgup sgups
    /\ shard_service_gateway_user_plane shard = sgup_name sgup
    /\ sgup_allocated_session_count sgup < sgup_max_session_count sgup
    /\ 0 < shard_max_session_count shard
    /\ shard_allocated_session_count shard < shard_max_session_count shard.
Proof.
  intros Hshards Hsgups (params & Hin & Hmem).
  assert (K : exists sgup shard required,
             eligible shards sgups required sgup shard
             /\ PyDict.get "desired_shard" params
                = Some (PStr (shard_name shard))).
  { revert Hin Hmem. unfold map_session, map_session_body, trace. simpl.
    rewrite Hshards. simpl.
    destruct shards as [|shard0 shards']; simpl; [in_calls|].
    rewrite Hsgups. simpl.
    destruct sgups as [|sgup0 sgups']; simpl; [in_calls|].
    destruct (shard_unset _ && negb _).
    - destruct (place_cases sctx (shard0 :: shards') (sgup0 :: sgups')
                  (default [] (sctx_required_service_group sctx))
                  (fill_defaults self sctx))
        as [-> | [-> | [-> | (sgup & shard & Hel & ->)]]]; simpl;
        try (in_calls; fail).
      unfold counter_bump, commit. rewrite length_set_nonzero. simpl.
      intros Hin _.
      exists sgup, shard, (default [] (sctx_required_service_group sctx)).
      split; [exact Hel|].
      revert Hin. do 5 (next_reply h; try (in_calls; fail)).
      all: in_calls.
      all: now rewrite dict_get_set_ne, dict_get_set_eq by discriminate.
    - unfold commit.
      destruct (length (fill_defaults self sctx) =? 0)%nat; simpl;
        [in_calls|].
      next_reply h; in_calls; intros Hmem.
      all: now rewrite fill_defaults_not_placing in Hmem. }
  destruct K as (sgup & shard & required & Hel & Hget).
  destruct Hel as (Hshard & Hsgup & Href & _ & Hlt & Hpos & Hlt').
  exists sgup, shard, params. repeat split; assumption.
Qed.

Lemma placement_respects_capacity_witness :
  exists sgup shard params,
    In (UPSF.update_session_context params)
       (calls (trace (run Registry.upsf
                        (map_session (RT:=exact_runtime)
                           Scenario.config Scenario.ctx1)
                        (Registry.reliable Scenario.s1))))
    /\ PyDict.get "desired_shard" params = Some (PStr (shard_name shard))
    /\ In shard [Scenario.shard_X] /\ In sgup [Scenario.sgup_A]
    /\ shard_service_gateway_user_plane shard = sgup_name sgup
    /\ sgup_allocated_session_count sgup < sgup_max_session_count sgup
    /\ 0 < shard_max_session_count shard
    /\ shard_allocated_session_count shard < shard_max_session_count shard.
Proof.
  apply (placement_respects_capacity (RT:=exact_runtime) Scenario.config
           Registry.upsf (Registry.reliable Scenario.s1)
           (Registry.reliable Scenario.s1) (Registry.reliable Scenario.s1)
           Scenario.ctx1); try reflexivity.
  exists [("desired_shard", PStr "X"); ("name", PStr "ctx1")].
  split; [vm_compute; auto 10|reflexivity].
Defined.


(** ** Placement: the least loaded *)

Section DictNoDup.
Context {V : Type}.
Implicit Types (d : dict V) (k : string) (v : V).

Lemma dict_set_fresh k v d :
  ~ In k (PyDict.keys d) -> PyDict.set k v d = d ++ [(k, v)].
Proof.
  unfold PyDict.keys. induction d as [|[k' v'] r IH]; simpl; [reflexivity|].
  intros Hnot. destruct (String.eqb_spec k k') as [->|Hne].
  - exfalso. auto.
  - rewrite IH; auto.
Qed.

Lemma dict_fold_fresh (l : list (string * V)) d :
  List.NoDup (map fst l) ->
  (forall k, In k (map fst l) -> ~ In k (PyDict.keys d)) ->
  fold_left (fun d kv => PyDict.set (fst kv) (snd kv) d) l d = d ++ l.
Proof.
  revert d. induction l as [|[k v] l IH]; simpl; intros d Hnd Hfresh.
  - now rewrite app_nil_r.
  - apply List.NoDup_cons_iff in Hnd as [Hk Hnd].
    rewrite dict_set_fresh by auto. rewrite IH; auto.
    + now rewrite <- app_assoc.
    + intros k' Hk'. unfold PyDict.keys. rewrite map_app, in_app_iff. simpl.
      intros [H|[<-|[]]]; [|contradiction].
      apply (Hfresh k'); auto.
Qed.

(** a comprehension over distinct keys keeps every binding, in order *)
Lemma dict_of_list_NoDup (l : list (string * V)) :
  List.NoDup (map fst l) -> PyDict.of_list l = l.
Proof.
  intros Hnd. unfold PyDict.of_list. rewrite dict_fold_fresh; auto.
Qed.

Lemma dict_get_NoDup k v d :
  List.NoDup (PyDict.keys d) -> In (k, v) d -> PyDict.get k d = Some v.
Proof.
  unfold PyDict.keys. induction d as [|[k' v'] r IH]; simpl; [tauto|].
  intros Hnd%List.NoDup_cons_iff [[= -> ->]|Hin].
  - now rewrite String.eqb_refl.
  - destruct Hnd as [Hk Hnd]. destruct (String.eqb_spec k k') as [->|_].
    + exfalso. apply Hk. now apply (in_map fst) in Hin.
    + auto.
Qed.

End DictNoDup.

Lemma NoDup_map_filter {A B} (f : A -> B) (P : A -> bool) (l : list A) :
  List.NoDup (map f l) -> List.NoDup (map f (List.filter P l)).
Proof.
  induction l as [|x l IH]; simpl; [auto|].
  intros [Hx Hnd]%List.NoDup_cons_iff. destruct (P x); simpl; auto.
  constructor; auto. intros Hin. apply Hx.
  apply in_map_iff in Hin as (y & Hy & Hin). apply filter_In in Hin as [Hin _].
  rewrite <- Hy. now apply in_map.
Qed.

(** a comprehension with a condition, over distinct keys *)
Lemma NoDup_keys_flat_map {A V} (key : A -> string) (f : A -> list (string * V))
    (l : list A) :
  (forall x, f x = [] \/ exists v, f x = [(key x, v)]) ->
  List.NoDup (map key l) -> List.NoDup (map fst (flat_map f l)).
Proof.
  intros Hf. induction l as [|x l IH]; simpl; [auto|].
  intros [Hx Hnd]%List.NoDup_cons_iff.
  destruct (Hf x) as [->|(v & ->)]; simpl; auto.
  constructor; auto. intros Hin. apply Hx.
  apply in_map_iff in Hin as ([k v'] & Hk & Hin). simpl in Hk. subst k.
  apply in_flat_map in Hin as (y & Hy & Hin).
  destruct (Hf y) as [E|(w & E)]; rewrite E in Hin; [destruct Hin|].
  destruct Hin as [[= <- _]|[]]. now apply in_map.
Qed.

Section LeastLoaded.
Context {RT : PyRuntime}.
Hypothesis float_lt_irrefl : forall x, float_lt x x = false.
Hypothesis float_lt_trans :
  forall x y z, float_lt x y = true -> float_lt y z = true -> float_lt x z = true.

(** with a comparison that is a strict order, [min] returns a key whose
    value no other is below *)
Lemma py_min_least (d : dict pyfloat) k :
  py_min d = Ok k ->
  exists v, In (k, v) d /\ forall k' v', In (k', v') d -> float_lt v' v = false.
Proof.
  destruct d as [|kv0 r]; [discriminate|]. simpl. intros [= <-].
  assert (H : forall (l : list (string * pyfloat)) best seen,
    (forall x, In x seen -> float_lt (snd x) (snd best) = false) ->
    In best seen ->
    let res := fold_left
                 (fun best kv => if float_lt (snd kv) (snd best) then kv else best)
                 l best in
    In res (seen ++ l)
    /\ forall x, In x (seen ++ l) -> float_lt (snd x) (snd res) = false).
  { induction l as [|x l IH]; intros best seen Hinv Hbest; simpl.
    - rewrite app_nil_r. auto.
    - replace (seen ++ x :: l) with ((seen ++ [x]) ++ l)
        by now rewrite <- app_assoc.
      destruct (float_lt (snd x) (snd best)) eqn:Hlt.
      + apply IH; [|apply in_app_iff; simpl; auto].
        intros y [Hy|[<-|[]]]%in_app_iff; [|apply float_lt_irrefl].
        destruct (float_lt (snd y) (snd x)) eqn:Hyx; [|reflexivity].
        rewrite <- (Hinv y Hy). symmetry. eapply float_lt_trans; eauto.
      + apply IH; [|apply in_app_iff; auto].
        intros y [Hy|[<-|[]]]%in_app_iff; auto. }
  destruct (H r kv0 [kv0]) as [Hin Hleast].
  - intros x [<-|[]]. apply float_lt_irrefl.
  - now left.
  - simpl in Hin, Hleast.
    destruct (fold_left _ r kv0) as [k v] eqn:E. simpl.
    exists v. split; [exact Hin|]. intros k' v' Hin'.
    apply (Hleast (k', v') Hin').
Qed.

Lemma shard_candidate_sgups_NoDup shards :
  List.NoDup (map shard_name shards) ->
  shard_candidate_sgups shards = map shard_service_gateway_user_plane shards.
Proof.
  intros Hnd. unfold shard_candidate_sgups.
  rewrite dict_of_list_NoDup by now rewrite map_map.
  now rewrite map_map.
Qed.

Lemma service_gateway_user_planes_NoDup shards sgups :
  List.NoDup (map sgup_name sgups) ->
  let planes := service_gateway_user_planes shards sgups in
  List.NoDup (PyDict.keys planes)
  /\ planes
     = map (fun sgup => (sgup_name sgup, sgup))
         (List.filter
            (fun sgup =>
               existsb (String.eqb (sgup_name sgup)) (shard_candidate_sgups shards))
            sgups).
Proof.
  intros Hnd. simpl. unfold service_gateway_user_planes.
  assert (H : List.NoDup
    (map fst (map (fun sgup => (sgup_name sgup, sgup))
                (List.filter
                   (fun sgup =>
                      existsb (String.eqb (sgup_name sgup))
                        (shard_candidate_sgups shards))
                   sgups)))).
  { rewrite map_map. simpl. now apply NoDup_map_filter. }
  rewrite dict_of_list_NoDup by exact H. split; [exact H|reflexivity].
Qed.

(** X7: the SGUP selected is a least loaded one.  With a comparison of
    loads that is a strict order and snapshots whose names are distinct, no
    SGUP of the snapshot that is named by a shard, supports the required
    service groups and has a free session has a load below that of the
    SGUP [min] returns. *)
Theorem least_loaded_sgup_selected
    (shards : list Shard) (sgups : list ServiceGatewayUserPlane)
    (required : list string) (sgup_name_selected : string)
    (candidate : ServiceGatewayUserPlane) :
  List.NoDup (map shard_name shards) ->
  List.NoDup (map sgup_name sgups) ->
  py_min (sgup_load shards sgups required) = Ok sgup_name_selected ->
  In candidate sgups ->
  (exists shard,
      In shard shards
      /\ shard_service_gateway_user_plane shard = sgup_name candidate) ->
  issuperset (sgup_supported_service_group candidate) required = true ->
  0 < sgup_max_session_count candidate ->
  sgup_allocated_session_count candidate < sgup_max_session_count candidate ->
  exists sgup,
    In sgup sgups /\ sgup_name sgup = sgup_name_selected
    /\ float_lt
         (truediv (sgup_allocated_session_count candidate)
                  (sgup_max_session_count candidate))
         (truediv (sgup_allocated_session_count sgup)
                  (sgup_max_session_count sgup))
       = false.
Proof.
  intros Hshards Hsgups Hmin Hcand (shard & Hshard & Href) Hsup Hpos Hlt.
  destruct (service_gateway_user_planes_NoDup shards sgups Hsgups)
    as [Hkeys Hplanes].
  apply py_min_least in Hmin as (v & Hin & Hleast).
  unfold sgup_load in Hin, Hleast.
  (* the candidate is in the table of loads *)
  assert (Hplane : In (sgup_name candidate, candidate)
                     (service_gateway_user_planes shards sgups)).
  { rewrite Hplanes. apply in_map_iff. exists candidate. split; [reflexivity|].
    apply filter_In. split; [assumption|]. apply existsb_exists.
    exists (sgup_name candidate). split; [|apply String.eqb_refl].
    rewrite shard_candidate_sgups_NoDup by assumption.
    rewrite <- Href. now apply in_map. }
  assert (Hload : In (sgup_name candidate,
                      truediv (sgup_allocated_session_count candidate)
                              (sgup_max_session_count candidate))
                    (PyDict.of_list
                       (flat_map
                          (fun sgup_name =>
                             match PyDict.get sgup_name
                                     (service_gateway_user_planes shards sgups)
                             with
                             | Some sgup =>
                                 if (0 <? sgup_max_session_count sgup)
                                    && (sgup_allocated_session_count sgup
                                        <? sgup_max_session_count sgup)
                                 then [(sgup_name,
                                        truediv (sgup_allocated_session_count sgup)
                                          (sgup_max_session_count sgup))]
                                 else []
                             | None => []
                             end)
                          (sgup_candidates shards sgups required)))).
  { rewrite dict_of_list_NoDup.
    - apply in_flat_map. exists (sgup_name candidate). split.
      + unfold sgup_candidates. apply set_iter_In.
        apply in_map_iff. exists (sgup_name candidate, candidate).
        split; [reflexivity|]. apply filter_In. split; [assumption|]. simpl.
        rewrite Hsup. now apply Z.ltb_lt.
      + rewrite (dict_get_NoDup _ _ _ Hkeys Hplane).
        apply Z.ltb_lt in Hpos, Hlt. rewrite Hpos, Hlt. now left.
    - apply (NoDup_keys_flat_map (fun x => x)).
      + intros x. destruct (PyDict.get x _) as [sgup|]; [|now left].
        destruct (_ && _); [right; eauto|now left].
      + rewrite map_id. apply NoDup_ListNoDup, set_iter_NoDup. }
  (* the selected one is an SGUP of the snapshot *)
  apply dict_of_list_In, in_flat_map in Hin as (g' & _ & Hin).
  destruct (PyDict.get g' _) as [sgup|] eqn:Hget; [|destruct Hin].
  destruct (_ && _); [|destruct Hin].
  destruct Hin as [[= -> <-]|[]].
  apply dict_get_In in Hget. rewrite Hplanes in Hget.
  apply in_map_iff in Hget as (sgup' & [= <- ->] & Hget).
  apply filter_In in Hget as [Hget _].
  exists sgup. repeat split; auto. exact (Hleast _ _ Hload).
Qed.

(** X8: the shard selected is a least loaded one.  With a comparison of
    loads that is a strict order and a snapshot of shards with distinct
    names, no shard of the selected SGUP with capacity left has a load below
    that of the shard [min] returns. *)
Theorem least_loaded_shard_selected
    (shards : list Shard) (sgup_name_selected shard_name_selected : string)
    (candidate : Shard) :
  List.NoDup (map shard_name shards) ->
  py_min (shard_load shards sgup_name_selected) = Ok shard_name_selected ->
  In candidate shards ->
  shard_service_gateway_user_plane candidate = sgup_name_selected ->
  0 < shard_max_session_count candidate ->
  shard_allocated_session_count candidate < shard_max_session_count candidate ->
  exists shard,
    In shard shards /\ shard_name shard = shard_name_selected
    /\ shard_service_gateway_user_plane shard = sgup_name_selected
    /\ float_lt
         (truediv (shard_allocated_session_count candidate)
                  (shard_max_session_count candidate))
         (truediv (shard_allocated_session_count shard)
                  (shard_max_session_count shard))
       = false.
Proof.
  intros Hshards Hmin Hcand Href Hpos Hlt.
  apply py_min_least in Hmin as (v & Hin & Hleast).
  unfold shard_load in Hin, Hleast.
  assert (Hkeys : List.NoDup
    (map fst (map (fun shard => (shard_name shard, shard))
                (List.filter
                   (fun shard =>
                      String.eqb (shard_service_gateway_user_plane shard)
                        sgup_name_selected)
                   shards)))).
  { rewrite map_map. simpl. now apply NoDup_map_filter. }
  assert (Hcands : shard_candidates shards sgup_name_selected
                   = map (fun shard => (shard_name shard, shard))
                       (List.filter
                          (fun shard =>
                             String.eqb (shard_service_gateway_user_plane shard)
                               sgup_name_selected)
                          shards)).
  { unfold shard_candidates. now rewrite dict_of_list_NoDup. }
  assert (Hload : In (shard_name candidate,
                      truediv (shard_allocated_session_count candidate)
                              (shard_max_session_count candidate))
                    (PyDict.of_list
                       (flat_map
                          (fun kv : string * Shard =>
                             if (0 <? shard_max_session_count (snd kv))
                                && (shard_allocated_session_count (snd kv)
                                    <? shard_max_session_count (snd kv))
                             then [(fst kv,
                                    truediv (shard_allocated_session_count (snd kv))
                                      (shard_max_session_count (snd kv)))]
                             else [])
                          (shard_candidates shards sgup_name_selected)))).
  { rewrite dict_of_list_NoDup.
    - apply in_flat_map. exists (shard_name candidate, candidate). split.
      + rewrite Hcands. apply in_map_iff. exists candidate.
        split; [reflexivity|]. apply filter_In. split; [assumption|].
        now apply String.eqb_eq.
      + simpl. apply Z.ltb_lt in Hpos, Hlt. rewrite Hpos, Hlt. now left.
    - apply (NoDup_keys_flat_map fst).
      + intros kv. destruct (_ && _); [right; eauto|now left].
      + now rewrite Hcands. }
  apply dict_of_list_In, in_flat_map in Hin as ([n shard] & Hsh & Hin).
  simpl in Hin. destruct (_ && _); [|destruct Hin].
  destruct Hin as [[= -> <-]|[]].
  rewrite Hcands in Hsh. apply in_map_iff in Hsh as (shard' & [= <- ->] & Hsh).
  apply filter_In in Hsh as [Hsh Heq%String.eqb_eq].
  exists shard. repeat split; auto. exact (Hleast _ _ Hload).
Qed.

End LeastLoaded.

(** the exact comparison of rationals is a strict order *)
Lemma exact_float_lt_irrefl :
  forall x : pyfloat (PyRuntime := exact_runtime),
    float_lt (PyRuntime := exact_runtime) x x = false.
Proof. intros x. simpl. apply Z.ltb_irrefl. Qed.

Lemma exact_float_lt_trans :
  forall x y z : pyfloat (PyRuntime := exact_runtime),
    float_lt (PyRuntime := exact_runtime) x y = true ->
    float_lt (PyRuntime := exact_runtime) y z = true ->
    float_lt (PyRuntime := exact_runtime) x z = true.
Proof.
  intros x y z. simpl. rewrite !Z.ltb_lt. intros Hxy Hyz.
  exact (Qlt_trans x y z Hxy Hyz).
Qed.

Lemma least_loaded_sgup_selected_witness :
  exists sgup,
    In sgup [LoadScenario.sgup_A; LoadScenario.sgup_B]
    /\ sgup_name sgup = "B"
    /\ float_lt (PyRuntime := exact_runtime)
         (truediv (PyRuntime := exact_runtime) 90 100)
         (truediv (PyRuntime := exact_runtime)
            (sgup_allocated_session_count sgup) (sgup_max_session_count sgup))
       = false.
Proof.
  apply (least_loaded_sgup_selected (RT:=exact_runtime)
           exact_float_lt_irrefl exact_float_lt_trans
           [LoadScenario.shard_X; LoadScenario.shard_Y; LoadScenario.shard_Z]
           [LoadScenario.sgup_A; LoadScenario.sgup_B] ["basic"] "B"
           LoadScenario.sgup_A);
    try reflexivity.
  - repeat constructor; simpl; intuition discriminate.
  - repeat constructor; simpl; intuition discriminate.
  - simpl. auto.
  - exists LoadScenario.shard_X. simpl. auto.
Defined.

Lemma least_loaded_shard_selected_witness :
  exists shard,
    In shard [LoadScenario.shard_X; LoadScenario.shard_Y; LoadScenario.shard_Z]
    /\ shard_name shard = "Y"
    /\ shard_service_gateway_user_plane shard = "B"
    /\ float_lt (PyRuntime := exact_runtime)
         (truediv (PyRuntime := exact_runtime) 25 50)
         (truediv (PyRuntime := exact_runtime)
            (shard_allocated_session_count shard)
            (shard_max_session_count shard))
       = false.
Proof.
  apply (least_loaded_shard_selected (RT:=exact_runtime)
           exact_float_lt_irrefl exact_float_lt_trans
           [LoadScenario.shard_X; LoadScenario.shard_Y; LoadScenario.shard_Z]
           "B" "Y" LoadScenario.shard_Z);
    try reflexivity.
  - repeat constructor; simpl; intuition discriminate.
  - simpl. auto.
Defined.

(** S2 of the specification: the shard of the less loaded SGUP is chosen *)
Example scenario_load_based_selection :
  session_context_updates
    (trace (run Registry.upsf
              (map_session (RT:=exact_runtime) Scenario.config Scenario.ctx1)
              (Registry.reliable LoadScenario.s2)))
  = [[("desired_shard", PStr "Y"); ("name", PStr "ctx1")]].
Proof. vm_compute. reflexivity. Qed.


(** ** What [map_session] writes *)

Section Writes.
Context {RT : PyRuntime} (self : Config).

(** the updates of one invocation: none, the defaults, or the defaults and
    the shard selected for a context that had none *)
Lemma map_session_updates {St} (h : handler St) s sctx :
  let updates :=
    session_context_updates (trace (run h (map_session self sctx) s)) in
  updates = []
  \/ updates
     = [PyDict.set "name" (PStr (sctx_name sctx)) (fill_defaults self sctx)]
  \/ (shard_unset (sctx_desired_shard sctx) = true
      /\ exists shard_name_selected,
          updates
          = [PyDict.set "name" (PStr (sctx_name sctx))
               (PyDict.set "desired_shard" (PStr shard_name_selected)
                  (fill_defaults self sctx))]).
Proof.
  unfold map_session, map_session_body, trace, session_context_updates.
  simpl.
  next_reply h; [destruct r as [|shard shards]; simpl|..]; auto.
  next_reply h; [destruct r as [|sgup sgups]; simpl|..]; auto.
  destruct (shard_unset _ && negb _) eqn:Hguard.
  - apply andb_true_iff in Hguard as [Hguard _].
    destruct (place_cases sctx (shard :: shards) (sgup :: sgups)
                (default [] (sctx_required_service_group sctx))
                (fill_defaults self sctx))
      as [-> | [-> | [-> | (g & n & _ & ->)]]]; simpl; auto.
    unfold counter_bump, commit. rewrite length_set_nonzero. simpl.
    do 5 (next_reply h; auto).
    all: right; right; eauto.
  - unfold commit.
    destruct (length (fill_defaults self sctx) =? 0)%nat; simpl; auto.
    next_reply h; auto.
Qed.

Lemma fill_defaults_quality sctx :
  PyDict.get "required_quality" (fill_defaults self sctx)
  = if quality_unset (sctx_required_quality sctx)
    then Some (PInt (default_required_quality self)) else None.
Proof.
  unfold fill_defaults.
  destruct (quality_unset _), (service_group_unset _); reflexivity.
Qed.

Lemma fill_defaults_service_group sctx :
  PyDict.get "required_service_group" (fill_defaults self sctx)
  = if service_group_unset (sctx_required_service_group sctx)
    then Some (PList (map PStr (default_service_groups self))) else None.
Proof.
  unfold fill_defaults.
  destruct (quality_unset _), (service_group_unset _); reflexivity.
Qed.

Lemma fill_defaults_keys sctx k :
  PyDict.mem k (fill_defaults self sctx) = true ->
  k = "required_quality" \/ k = "required_service_group".
Proof.
  rewrite dict_mem_keys. unfold fill_defaults.
  destruct (quality_unset _), (service_group_unset _); simpl; intuition.
Qed.

End Writes.

(** X9: [map_session] only fills what is empty.  It issues at most one
    [update_session_context]; the update names the context it was called
    for, carries a quality only if the context had none (then the
    configured default), a service group list only if the context had none
    (then the configured default), a [desired_shard] only if the context had
    none, and no other field. *)
Theorem map_session_only_fills_unset {RT : PyRuntime} (self : Config)
    {St} (h : handler St) (s : St) (sctx : SessionContext) :
  let updates :=
    session_context_updates (trace (run h (map_session self sctx) s)) in
  (length updates <= 1)%nat
  /\ forall params,
      In params updates ->
      PyDict.get "name" params = Some (PStr (sctx_name sctx))
      /\ (forall v, PyDict.get "required_quality" params = Some v ->
            quality_unset (sctx_required_quality sctx) = true
            /\ v = PInt (default_required_quality self))
      /\ (forall v, PyDict.get "required_service_group" params = Some v ->
            service_group_unset (sctx_required_service_group sctx) = true
            /\ v = PList (map PStr (default_service_groups self)))
      /\ (forall v, PyDict.get "desired_shard" params = Some v ->
            shard_unset (sctx_desired_shard sctx) = true)
      /\ (forall k, PyDict.mem k params = true ->
            In k ["name"; "required_quality"; "required_service_group";
                  "desired_shard"]).
Proof.
  intros updates. subst updates.
  assert (Hq : forall v,
    PyDict.get "required_quality" (fill_defaults self sctx) = Some v ->
    quality_unset (sctx_required_quality sctx) = true
    /\ v = PInt (default_required_quality self)).
  { intros v. rewrite fill_defaults_quality.
    destruct (quality_unset _); [intros [= <-]; auto | discriminate]. }
  assert (Hg : forall v,
    PyDict.get "required_service_group" (fill_defaults self sctx) = Some v ->
    service_group_unset (sctx_required_service_group sctx) = true
    /\ v = PList (map PStr (default_service_groups self))).
  { intros v. rewrite fill_defaults_service_group.
    destruct (service_group_unset _); [intros [= <-]; auto | discriminate]. }
  destruct (map_session_updates self h s sctx)
    as [-> | [-> | (Hshard & n & ->)]]; simpl.
  - split; [lia|]. intros ? [].
  - split; [lia|]. intros params [<-|[]].
    split; [apply dict_get_set_eq|].
    split; [intros v; rewrite dict_get_set_ne by discriminate; apply Hq|].
    split; [intros v; rewrite dict_get_set_ne by discriminate; apply Hg|].
    split.
    + intros v. rewrite dict_get_set_ne, fill_defaults_no_shard by discriminate.
      discriminate.
    + intros k Hk. apply dict_mem_keys, dict_set_keys in Hk as [->|Hk];
        [simpl; auto|].
      apply dict_mem_keys, fill_defaults_keys in Hk as [->| ->]; simpl; auto.
  - split; [lia|]. intros params [<-|[]].
    split; [apply dict_get_set_eq|].
    split; [intros v; rewrite !dict_get_set_ne by discriminate; apply Hq|].
    split; [intros v; rewrite !dict_get_set_ne by discriminate; apply Hg|].
    split; [auto|].
    intros k Hk. apply dict_mem_keys, dict_set_keys in Hk as [->|Hk];
      [simpl; auto|].
    apply dict_set_keys in Hk as [->|Hk]; [simpl; auto|].
    apply dict_mem_keys, fill_defaults_keys in Hk as [->| ->]; simpl; auto.
Qed.


(** ** A placement against the in-memory UPSF *)

Section Sequential.
Context {RT : PyRuntime} (self : Config).

Lemma find_shard_NoDup shard l :
  List.NoDup (map shard_name l) -> In shard l ->
  Registry.find_shard (shard_name shard) l = Some shard.
Proof.
  unfold Registry.find_shard. induction l as [|x l IH]; simpl; [tauto|].
  intros [Hx Hnd]%List.NoDup_cons_iff [->|Hin].
  - now rewrite String.eqb_refl.
  - destruct (String.eqb_spec (shard_name x) (shard_name shard)) as [E|_]; auto.
    exfalso. apply Hx. rewrite E. now apply in_map.
Qed.

Lemma find_sgup_NoDup sgup l :
  List.NoDup (map sgup_name l) -> In sgup l ->
  Registry.find_sgup (sgup_name sgup) l = Some sgup.
Proof.
  unfold Registry.find_sgup. induction l as [|x l IH]; simpl; [tauto|].
  intros [Hx Hnd]%List.NoDup_cons_iff [->|Hin].
  - now rewrite String.eqb_refl.
  - destruct (String.eqb_spec (sgup_name x) (sgup_name sgup)) as [E|_]; auto.
    exfalso. apply Hx. rewrite E. now apply in_map.
Qed.

(** an update of a session context leaves shards and SGUPs alone *)
Lemma serve_update_session_context params r :
  let r' := snd (Registry.serve (UPSF.update_session_context params) r) in
  Registry.shards r' = Registry.shards r
  /\ Registry.service_gateway_user_planes r'
     = Registry.service_gateway_user_planes r.
Proof.
  simpl. repeat case_match; simpl; auto.
Qed.

(** the registry after a call made on a UPSF without faults, and after a
    log record *)
Lemma final_call_reliable {B} c (f : resp c -> prog B) r :
  final (run Registry.upsf (bind (upsf_call c) f) (Registry.reliable r))
  = match Registry.serve c r with
    | (Ok x, r') => final (run Registry.upsf (f x) (Registry.reliable r'))
    | (Err e, r') => r'
    end.
Proof.
  unfold final. rewrite run_bind.
  cbn [run upsf_call handle Registry.upsf].
  unfold Registry.serve_or_fail.
  cbn [Registry.faults Registry.reliable Registry.reg tl].
  destruct (Registry.serve c r) as [[x|e] r']; cbn; [|reflexivity].
  destruct (run Registry.upsf (f x) _) as [[o s'] t']. reflexivity.
Qed.

Lemma final_log {B} lvl msg (f : unit -> prog B) w :
  final (run Registry.upsf (bind (log lvl msg) f) w)
  = final (run Registry.upsf (f tt) w).
Proof.
  unfold final. cbn. destruct (run Registry.upsf (f tt) w) as [[o s'] t'].
  reflexivity.
Qed.

Lemma run_counter_bump r sctx shard sgup params :
  List.NoDup (map shard_name (Registry.shards r)) ->
  List.NoDup (map sgup_name (Registry.service_gateway_user_planes r)) ->
  In shard (Registry.shards r) ->
  In sgup (Registry.service_gateway_user_planes r) ->
  let r' :=
    final (run Registry.upsf
             (counter_bump sctx (sgup_name sgup) (shard_name shard) params)
             (Registry.reliable r)) in
  Registry.shards r'
  = map (Registry.set_shard_count (shard_name shard)
           (shard_allocated_session_count shard + 1))
      (Registry.shards r)
  /\ Registry.service_gateway_user_planes r'
     = map (Registry.set_sgup_count (sgup_name sgup)
              (sgup_allocated_session_count sgup + 1))
         (Registry.service_gateway_user_planes r).
Proof.
  intros Hshards Hsgups Hshard Hsgup. cbv zeta.
  match goal with |- context [final ?x] => remember (final x) as r' eqn:E end.
  unfold counter_bump in E.
  rewrite final_log, final_call_reliable in E. cbn [Registry.serve] in E.
  rewrite (find_shard_NoDup shard) in E by assumption. cbv zeta in E.
  rewrite final_call_reliable in E. cbn [Registry.serve] in E.
  change (PyDict.get "name" _) with (Some (PStr (shard_name shard))) in E at 1.
  change (PyDict.get "allocated_session_count" _)
    with (Some (PInt (shard_allocated_session_count shard + 1))) in E at 1.
  cbv iota in E. rewrite (find_shard_NoDup shard) in E by assumption.
  rewrite final_call_reliable in E. cbn [Registry.serve] in E.
  cbn [Registry.service_gateway_user_planes] in E.
  rewrite (find_sgup_NoDup sgup) in E by assumption. cbv zeta in E.
  rewrite final_call_reliable in E. cbn [Registry.serve] in E.
  change (PyDict.get "name" _) with (Some (PStr (sgup_name sgup))) in E at 1.
  change (PyDict.get "allocated_session_count" _)
    with (Some (PInt (sgup_allocated_session_count sgup + 1))) in E at 1.
  cbv iota in E. cbn [Registry.service_gateway_user_planes] in E.
  rewrite (find_sgup_NoDup sgup) in E by assumption.
  cbn [Registry.shards Registry.session_contexts] in E.
  unfold commit in E.
  destruct (negb (length params =? 0)%nat).
  - rewrite final_log, final_call_reliable in E.
    match type of E with
    | context [Registry.serve ?c ?r0] =>
        pose proof (serve_update_session_context
                      (PyDict.set "name" (PStr (sctx_name sctx)) params) r0)
          as [H1 H2];
        destruct (Registry.serve c r0) as [[x|e] r'']
    end; simpl in H1, H2; subst r'; split; assumption.
  - subst r'. split; reflexivity.
Qed.

Lemma calls_call_reliable {B} c (f : resp c -> prog B) r :
  calls (trace (run Registry.upsf (bind (upsf_call c) f) (Registry.reliable r)))
  = c :: match Registry.serve c r with
         | (Ok x, r') =>
             calls (trace (run Registry.upsf (f x) (Registry.reliable r')))
         | (Err e, r') => []
         end.
Proof.
  unfold trace. rewrite run_bind.
  cbn [run upsf_call handle Registry.upsf].
  unfold Registry.serve_or_fail.
  cbn [Registry.faults Registry.reliable Registry.reg tl].
  destruct (Registry.serve c r) as [[x|e] r']; cbn; [|reflexivity].
  destruct (run Registry.upsf (f x) _) as [[o s'] t']. reflexivity.
Qed.

(** the handler of [map_session] adds a log record and nothing else *)
Lemma map_session_as_body sctx (w : Registry.world) :
  calls (trace (run Registry.upsf (map_session self sctx) w))
  = calls (trace (run Registry.upsf (map_session_body self sctx) w))
  /\ final (run Registry.upsf (map_session self sctx) w)
     = final (run Registry.upsf (map_session_body self sctx) w).
Proof.
  unfold map_session. rewrite run_try_except.
  destruct (run Registry.upsf (map_session_body self sctx) w)
    as [[[a|e] s1] t1]; [auto|].
  destruct e; auto. unfold trace, final, calls. simpl.
  rewrite flat_map_app. simpl. now rewrite app_nil_r.
Qed.

(** the update that [commit] sends for the defaults names no shard *)
Lemma commit_defaults_not_placing {St} (h : handler St) (s : St) sctx params :
  In (UPSF.update_session_context params)
     (calls (trace (run h (commit sctx (fill_defaults self sctx)) s))) ->
  PyDict.mem "desired_shard" params = false.
Proof.
  unfold commit, trace.
  destruct (negb (length (fill_defaults self sctx) =? 0)%nat); simpl;
    [|intros []].
  next_reply h; in_calls; apply fill_defaults_not_placing.
Qed.

(** a placement is the run of [counter_bump] on a pair of the registry *)
Lemma placed_as_counter_bump r sctx :
  placed (trace (run Registry.upsf (map_session self sctx)
                   (Registry.reliable r))) ->
  exists sgup shard params,
    In shard (Registry.shards r)
    /\ In sgup (Registry.service_gateway_user_planes r)
    /\ shard_service_gateway_user_plane shard = sgup_name sgup
    /\ final (run Registry.upsf (map_session self sctx) (Registry.reliable r))
       = final (run Registry.upsf
                  (counter_bump sctx (sgup_name sgup) (shard_name shard) params)
                  (Registry.reliable r)).
Proof.
  unfold placed.
  destruct (map_session_as_body sctx (Registry.reliable r)) as [-> ->].
  unfold map_session_body.
  rewrite calls_call_reliable, final_call_reliable. cbn [Registry.serve].
  destruct (length (Registry.shards r) =? 0)%nat.
  { intros (params & [[=]|[]] & _). }
  rewrite calls_call_reliable, final_call_reliable. cbn [Registry.serve].
  destruct (length (Registry.service_gateway_user_planes r) =? 0)%nat.
  { intros (params & [[=]|[[=]|[]]] & _). }
  cbv zeta.
  destruct (shard_unset _ && negb _).
  - destruct (place_cases sctx (Registry.shards r)
                (Registry.service_gateway_user_planes r)
                (default [] (sctx_required_service_group sctx))
                (fill_defaults self sctx))
      as [-> | [-> | [-> | (sgup & shard & Hel & ->)]]].
    1-3: intros (params & [[=]|[[=]|[]]] & _).
    intros _. destruct Hel as (Hshard & Hsgup & Href & _).
    now exists sgup, shard,
      (PyDict.set "desired_shard" (PStr (shard_name shard))
         (fill_defaults self sctx)).
  - intros (params & [[=]|[[=]|Hin]] & Hmem).
    apply commit_defaults_not_placing in Hin. congruence.
Qed.

End Sequential.

(** X10: a placement raises exactly two counts by one.  Against the
    in-memory UPSF without faults, whose shards and SGUPs have distinct
    names, an invocation of [map_session] that commits a [desired_shard]
    leaves the registry with the count of the shard selected raised by one,
    the count of its SGUP raised by one, and every other shard and SGUP as
    it was. *)
Theorem placement_raises_two_counts {RT : PyRuntime} (self : Config)
    (r : Registry.registry) (sctx : SessionContext) :
  List.NoDup (map shard_name (Registry.shards r)) ->
  List.NoDup (map sgup_name (Registry.service_gateway_user_planes r)) ->
  placed (trace (run Registry.upsf (map_session self sctx)
                   (Registry.reliable r))) ->
  exists shard sgup,
    In shard (Registry.shards r)
    /\ In sgup (Registry.service_gateway_user_planes r)
    /\ shard_service_gateway_user_plane shard = sgup_name sgup
    /\ Registry.shards
         (final (run Registry.upsf (map_session self sctx)
                   (Registry.reliable r)))
       = map (Registry.set_shard_count (shard_name shard)
                (shard_allocated_session_count shard + 1))
           (Registry.shards r)
    /\ Registry.service_gateway_user_planes
         (final (run Registry.upsf (map_session self sctx)
                   (Registry.reliable r)))
       = map (Registry.set_sgup_count (sgup_name sgup)
                (sgup_allocated_session_count sgup + 1))
           (Registry.service_gateway_user_planes r).
Proof.
  intros Hshards Hsgups Hplaced.
  destruct (placed_as_counter_bump self r sctx Hplaced)
    as (sgup & shard & params & Hshard & Hsgup & Href & ->).
  exists shard, sgup. repeat split; auto.
  all: now apply (run_counter_bump r sctx shard sgup params).
Qed.

Lemma placement_raises_two_counts_witness :
  exists shard sgup,
    In shard (Registry.shards LoadScenario.s2)
    /\ In sgup (Registry.service_gateway_user_planes LoadScenario.s2)
    /\ shard_service_gateway_user_plane shard = sgup_name sgup
    /\ Registry.shards
         (final (run Registry.upsf
                   (map_session (RT:=exact_runtime)
                      Scenario.config Scenario.ctx1)
                   (Registry.reliable LoadScenario.s2)))
       = map (Registry.set_shard_count (shard_name shard)
                (shard_allocated_session_count shard + 1))
           (Registry.shards LoadScenario.s2)
    /\ Registry.service_gateway_user_planes
         (final (run Registry.upsf
                   (map_session (RT:=exact_runtime)
                      Scenario.config Scenario.ctx1)
                   (Registry.reliable LoadScenario.s2)))
       = map (Registry.set_sgup_count (sgup_name sgup)
                (sgup_allocated_session_count sgup + 1))
           (Registry.service_gateway_user_planes LoadScenario.s2).
Proof.
  apply (placement_raises_two_counts (RT:=exact_runtime)
           Scenario.config LoadScenario.s2 Scenario.ctx1).
  - repeat constructor; simpl; intuition discriminate.
  - repeat constructor; simpl; intuition discriminate.
  - exists [("desired_shard", PStr "Y"); ("name", PStr "ctx1")].
    split; [vm_compute; auto 10|reflexivity].
Defined.

(** ** Which calls a method makes *)

Section OnlyCalls.
Context {RT : PyRuntime} (self : Config).

Lemma only_calls_bind {A B} P (p : prog A) (f : A -> prog B) :
  only_calls P p -> (forall a, only_calls P (f a)) -> only_calls P (bind p f).
Proof.
  induction p as [a|e|l m k IH|c k IH]; simpl; auto.
  intros [Hc Hk] Hf. split; auto.
Qed.

Lemma only_calls_upsf_call (P : call -> Prop) c : P c -> only_calls P (upsf_call c).
Proof. intros H. simpl. split; [exact H|]. intros [x|e]; exact I. Qed.

Lemma only_calls_lift {A} P (r : result A) : only_calls P (lift r).
Proof. destruct r; exact I. Qed.

Lemma only_calls_log P lvl msg : only_calls P (log lvl msg).
Proof. exact I. Qed.

Lemma only_calls_for_each {X} P (l : list X) (body : X -> prog unit) :
  (forall x, only_calls P (body x)) -> only_calls P (for_each l body).
Proof.
  intros H. induction l as [|x l IH]; simpl; [exact I|].
  apply only_calls_bind; auto.
Qed.

Lemma only_calls_try_except {A} P (p : prog A) (hd : string -> prog A) :
  only_calls P p -> (forall msg, only_calls P (hd msg)) ->
  only_calls P (try_except_UpsfError p hd).
Proof.
  induction p as [a|e|l m k IH|c k IH]; simpl; auto.
  - destruct e; auto.
  - intros [Hc Hk] Hh. split; auto.
Qed.

Lemma only_calls_run {A St} P (h : handler St) (p : prog A) (s : St) :
  only_calls P p -> Forall P (calls (trace (run h p s))).
Proof.
  unfold trace. revert s.
  induction p as [a|e|l m k IH|c k IH]; simpl; intros s; auto.
  - intros Hk. specialize (IH s Hk).
    destruct (run h k s) as [[o s'] t]. exact IH.
  - intros [Hc Hk]. destruct (handle h c s) as [r s1].
    specialize (IH r s1 (Hk r)).
    destruct (run h (k r) s1) as [[o s'] t]. simpl. constructor; auto.
Qed.


Lemma only_calls_create_session_context entry shards :
  only_calls materialisation_call (create_session_context self entry shards).
Proof.
  unfold create_session_context.
  apply only_calls_bind; [apply only_calls_upsf_call; exact I|]. intros l.
  apply only_calls_bind; [apply only_calls_lift|]. intros fp.
  destruct (PyDict.mem fp _).
  { apply only_calls_bind; [apply only_calls_log|]. intros _. exact I. }
  apply only_calls_bind; [apply only_calls_lift|]. intros svlan.
  apply only_calls_bind; [apply only_calls_lift|]. intros cvlan.
  cbv zeta.
  assert (Hcreate : forall params,
    only_calls materialisation_call
      (bind (log INFO "add entry")
         (fun _ => bind (upsf_call (UPSF.create_session_context params))
                     (fun r => Ret (Some (r : SessionContext)))))).
  { intros params. apply only_calls_bind; [apply only_calls_log|]. intros _.
    apply only_calls_bind; [apply only_calls_upsf_call; exact I|].
    intros r. exact I. }
  destruct (negb (is_empty_or_none _)); [|apply Hcreate].
  apply only_calls_bind; [apply only_calls_lift|]. intros found.
  destruct (negb found); [|apply Hcreate].
  destruct (PyDict.mem "name" entry); [|exact I].
  apply only_calls_bind; [apply only_calls_log|]. intros _. exact I.
Qed.

Lemma only_calls_create_default_items config :
  only_calls materialisation_call (create_default_items self config).
Proof.
  destruct config as [entries|]; [|exact I]. unfold create_default_items.
  apply only_calls_bind; [apply only_calls_upsf_call; exact I|]. intros l.
  apply only_calls_for_each. intros entry. unfold create_default_item.
  destruct (negb (PyDict.mem "name" entry)); [apply only_calls_log|].
  destruct (truthy _).
  - apply only_calls_bind; [apply only_calls_lift|]. intros items.
    apply only_calls_for_each. intros [| | | |?|item|?]; try exact I.
    apply only_calls_bind; [apply only_calls_create_session_context|].
    intros _. exact I.
  - apply only_calls_bind; [apply only_calls_create_session_context|].
    intros _. exact I.
Qed.

Lemma only_calls_commit (P : call -> Prop) sctx params :
  (forall kw, P (UPSF.update_session_context kw)) ->
  only_calls P (commit sctx params).
Proof.
  intros HP. unfold commit. destruct (negb _); [|exact I].
  apply only_calls_bind; [apply only_calls_log|]. intros _.
  apply only_calls_bind; [apply only_calls_upsf_call, HP|]. intros _. exact I.
Qed.

Lemma only_calls_map_session sctx :
  only_calls placement_call (map_session self sctx).
Proof.
  unfold map_session.
  apply only_calls_try_except; [|intros msg; apply only_calls_log].
  unfold map_session_body.
  apply only_calls_bind; [apply only_calls_upsf_call; exact I|]. intros shards.
  destruct (length shards =? 0)%nat; [apply only_calls_log|].
  apply only_calls_bind; [apply only_calls_upsf_call; exact I|]. intros sgups.
  destruct (length sgups =? 0)%nat; [apply only_calls_log|].
  cbv zeta.
  destruct (shard_unset _ && negb _);
    [|apply only_calls_commit; intros kw; exact I].
  unfold place.
  destruct (length _ =? 0)%nat; [apply only_calls_log|].
  apply only_calls_bind; [apply only_calls_lift|]. intros g.
  destruct (length _ =? 0)%nat; [apply only_calls_log|].
  apply only_calls_bind; [apply only_calls_lift|]. intros n.
  cbv zeta. unfold counter_bump.
  apply only_calls_bind; [apply only_calls_log|]. intros _.
  apply only_calls_bind; [apply only_calls_upsf_call; exact I|]. intros shard.
  cbv zeta.
  apply only_calls_bind; [apply only_calls_upsf_call; exact I|]. intros _.
  apply only_calls_bind; [apply only_calls_upsf_call; exact I|]. intros sgup.
  cbv zeta.
  apply only_calls_bind; [apply only_calls_upsf_call; exact I|]. intros _.
  apply only_calls_commit. intros kw. exact I.
Qed.


End OnlyCalls.

(** X11: [create_default_items] reads and creates, and does nothing else:
    whatever the policy file holds and whatever the UPSF replies, each of
    its calls is [list_shards], [list_session_contexts] or
    [create_session_context].  It writes no session count and updates no
    session context. *)
Theorem create_default_items_reads_and_creates {RT : PyRuntime}
    (self : Config) {St} (h : handler St) (s : St)
    (config : option (list kwargs)) :
  Forall materialisation_call
    (calls (trace (run h (create_default_items self config) s))).
Proof.
  apply only_calls_run, only_calls_create_default_items.
Qed.

(** X12: [map_session] never lists and never creates session contexts:
    whatever the UPSF replies, none of its calls is [list_session_contexts]
    or [create_session_context]. *)
Theorem map_session_never_creates {RT : PyRuntime} (self : Config)
    {St} (h : handler St) (s : St) (sctx : SessionContext) :
  Forall placement_call (calls (trace (run h (map_session self sctx) s))).
Proof.
  apply only_calls_run, only_calls_map_session.
Qed.



(** ** The sweep over all session contexts *)

Section Sweep.
Context {RT : PyRuntime} (self : Config).

Lemma run_call_reliable {B} c (f : resp c -> prog B) r :
  run Registry.upsf (bind (upsf_call c) f) (Registry.reliable r)
  = match Registry.serve c r with
    | (Ok x, r') =>
        let '(o, s, t) := run Registry.upsf (f x) (Registry.reliable r') in
        (o, s, ev_call c (Ok x) :: t)
    | (Err e, r') => (raised e, Registry.reliable r', [ev_call c (Err e)])
    end.
Proof.
  rewrite run_bind.
  cbn [run upsf_call handle Registry.upsf].
  unfold Registry.serve_or_fail.
  cbn [Registry.faults Registry.reliable Registry.reg tl].
  destruct (Registry.serve c r) as [[x|e] r']; cbn; [|reflexivity].
  destruct (run Registry.upsf (f x) _) as [[o s'] t']. reflexivity.
Qed.

Lemma map_session_no_UpsfError {St} (h : handler St) s sctx msg :
  result_of (run h (map_session self sctx) s) <> raised (UpsfError msg).
Proof.
  unfold map_session, result_of. rewrite run_try_except.
  destruct (run h (map_session_body self sctx) s) as [[[a|e] s1] t1];
    simpl; [discriminate|].
  destruct e; simpl; discriminate.
Qed.

Lemma for_each_map_session_no_UpsfError {St} (h : handler St) l s msg :
  result_of (run h (for_each l (map_session self)) s)
  <> raised (UpsfError msg).
Proof.
  revert s. induction l as [|sctx l IH]; intros s; [simpl; discriminate|].
  cbn [for_each]. rewrite run_bind.
  pose proof (map_session_no_UpsfError h s sctx msg) as Hone.
  unfold result_of in *.
  destruct (run h (map_session self sctx) s) as [[[a|e] s1] t1]; simpl in *.
  - specialize (IH s1).
    destruct (run h (for_each l (map_session self)) s1) as [[o s2] t2].
    exact IH.
  - exact Hone.
Qed.

(** a context that lacks nothing, against a UPSF without faults: the
    method returns and the registry is as before *)
Lemma run_map_session_complete r sctx :
  complete sctx = true ->
  exists t,
    run Registry.upsf (map_session self sctx) (Registry.reliable r)
    = (returned tt, Registry.reliable r, t).
Proof.
  unfold complete. intros [[Hq Hg]%andb_true_iff Hs]%andb_true_iff.
  apply negb_true_iff in Hq, Hg, Hs.
  unfold map_session. rewrite run_try_except.
  unfold map_session_body.
  rewrite run_call_reliable. cbn [Registry.serve].
  destruct (length (Registry.shards r) =? 0)%nat; [cbn; eauto|].
  rewrite run_call_reliable. cbn [Registry.serve].
  destruct (length (Registry.service_gateway_user_planes r) =? 0)%nat;
    [cbn; eauto|].
  cbv zeta. rewrite Hs. cbn [andb].
  unfold fill_defaults. rewrite Hq, Hg. cbn. eauto.
Qed.

Lemma run_for_each_complete r l :
  forallb complete l = true ->
  exists t,
    run Registry.upsf (for_each l (map_session self)) (Registry.reliable r)
    = (returned tt, Registry.reliable r, t).
Proof.
  induction l as [|sctx l IH]; [simpl; eauto|].
  cbn [for_each forallb]. intros [Hc Hl]%andb_true_iff.
  destruct (run_map_session_complete r sctx Hc) as [t1 E1].
  destruct (IH Hl) as [t2 E2].
  rewrite run_bind, E1, E2. eauto.
Qed.

End Sweep.

(** X14: a registry whose session contexts all have a quality, service
    groups and a shard is a fixed point of the sweep: against the in-memory
    UPSF without faults, [map_all_sessions] returns and leaves the registry
    as it found it. *)
Theorem settled_registry_is_fixed_point {RT : PyRuntime} (self : Config)
    (r : Registry.registry) :
  forallb complete (Registry.session_contexts r) = true ->
  result_of (run Registry.upsf (map_all_sessions self) (Registry.reliable r))
  = returned tt
  /\ final (run Registry.upsf (map_all_sessions self) (Registry.reliable r))
     = r.
Proof.
  intros H. unfold map_all_sessions.
  rewrite run_call_reliable. cbn [Registry.serve].
  destruct (run_for_each_complete self r _ H) as [t ->].
  split; reflexivity.
Qed.

Lemma settled_registry_is_fixed_point_witness :
  let r :=
    {| Registry.shards := [Scenario.shard_X];
       Registry.service_gateway_user_planes := [Scenario.sgup_A];
       Registry.session_contexts :=
         [{| sctx_name := "ctx1"; sctx_required_quality := Some 10;
             sctx_required_service_group := Some ["basic"];
             sctx_desired_shard := Some "X" |};
          {| sctx_name := "ctx2"; sctx_required_quality := Some 5;
             sctx_required_service_group := Some ["basic"];
             sctx_desired_shard := Some "gone" |}] |} in
  result_of (run Registry.upsf
               (map_all_sessions (RT:=exact_runtime) Scenario.config)
               (Registry.reliable r))
  = returned tt
  /\ final (run Registry.upsf
              (map_all_sessions (RT:=exact_runtime) Scenario.config)
              (Registry.reliable r))
     = r.
Proof.
  intros r.
  apply (settled_registry_is_fixed_point (RT:=exact_runtime)
           Scenario.config r).
  reflexivity.
Defined.

(** X15: only the listing can make the sweep fail with [UpsfError].
    [map_all_sessions] raises an [UpsfError] exactly when its own
    [list_session_contexts] fails with that error; a UPSF failure while one
    context is mapped never ends the sweep. *)
Theorem sweep_fails_only_on_listing {RT : PyRuntime} (self : Config)
    {St} (h : handler St) (s : St) (msg : string) :
  result_of (run h (map_all_sessions self) s) = raised (UpsfError msg)
  <-> fst (handle h UPSF.list_session_contexts s) = Err (UpsfError msg).
Proof.
  unfold map_all_sessions, result_of. rewrite run_bind. simpl.
  destruct (handle h UPSF.list_session_contexts s) as [[l|e] s1]; simpl.
  - pose proof (for_each_map_session_no_UpsfError self h l s1 msg) as Hno.
    unfold result_of in Hno.
    destruct (run h (for_each l (map_session self)) s1) as [[o s2] t2].
    simpl in *. split; [intros E; contradiction|discriminate].
  - split; intros [= ->]; reflexivity.
Qed.

(** X16: the loop of [run] survives every [UpsfError]: whatever the item of
    the watch stream and whatever the UPSF replies, handling the item
    raises no [UpsfError], the failure of the sweep's listing included. *)
Theorem handle_item_absorbs_UpsfError {RT : PyRuntime} (self : Config)
    {St} (h : handler St) (s : St) (item : Item) (msg : string) :
  result_of (run h (WatchLoop.handle_item self item) s)
  <> raised (UpsfError msg).
Proof.
  unfold WatchLoop.handle_item, result_of. rewrite run_try_except.
  match goal with
  | |- context [run h ?p s] => destruct (run h p s) as [[[a|e] s1] t1]
  end; simpl; [discriminate|].
  destruct e; simpl; discriminate.
Qed.

(** ** The fingerprint *)


Section Format.

Lemma length_bytes_of_word n w : length (MD5.bytes_of_word n w) = n.
Proof. unfold MD5.bytes_of_word. now rewrite length_map, length_seq. Qed.

Lemma bytes_of_word_range n w :
  Forall (fun b => 0 <= b < 256) (MD5.bytes_of_word n w).
Proof.
  unfold MD5.bytes_of_word. apply List.Forall_forall. intros b Hb.
  apply in_map_iff in Hb as (i & <- & _).
  change 255 with (Z.ones 8). rewrite Z.land_ones by lia.
  apply Z.mod_pos_bound. lia.
Qed.

Lemma digest_shape msg :
  length (MD5.digest msg) = 16%nat
  /\ Forall (fun b => 0 <= b < 256) (MD5.digest msg).
Proof.
  unfold MD5.digest. cbv zeta.
  destruct (fold_left MD5.compress _ MD5.init) as [A B C D].
  split.
  - rewrite !length_app, !length_bytes_of_word. reflexivity.
  - repeat (apply Forall_app; split); apply bytes_of_word_range.
Qed.

Lemma hex_digit_lower n : 0 <= n < 16 -> lower_hex (MD5.hex_digit n) = true.
Proof.
  intros H. unfold MD5.hex_digit.
  assert (Hk : (Z.to_nat n < 16)%nat) by lia.
  destruct (Z.to_nat n) as [|k]; [reflexivity|].
  do 15 (destruct k as [|k]; [reflexivity|]). lia.
Qed.

Lemma hex_of_bytes_shape bs :
  Forall (fun b => 0 <= b < 256) bs ->
  String.length (MD5.hex_of_bytes bs) = (2 * length bs)%nat
  /\ forallb lower_hex (list_ascii_of_string (MD5.hex_of_bytes bs)) = true.
Proof.
  unfold MD5.hex_of_bytes. intros H.
  rewrite list_ascii_of_string_of_list_ascii.
  split.
  - clear H. induction bs as [|b bs IH]; [reflexivity|].
    cbn [flat_map app string_of_list_ascii String.length length].
    rewrite IH. lia.
  - induction H as [|b bs Hb _ IH]; [reflexivity|].
    cbn [flat_map app forallb]. rewrite IH, !hex_digit_lower; [reflexivity|..].
    + change 15 with (Z.ones 4). rewrite Z.land_ones by lia.
      apply Z.mod_pos_bound. lia.
    + rewrite Z.shiftr_div_pow2 by lia. change (2 ^ 4) with 16.
      split; [apply Z.div_pos; lia|apply Z.div_lt_upper_bound; lia].
Qed.

Lemma hexdigest_shape s :
  String.length (MD5.hexdigest s) = 32%nat
  /\ forallb lower_hex (list_ascii_of_string (MD5.hexdigest s)) = true.
Proof.
  unfold MD5.hexdigest.
  destruct (digest_shape (MD5.bytes_of_string s)) as [Hlen Hrange].
  destruct (hex_of_bytes_shape _ Hrange) as [H1 H2].
  rewrite Hlen in H1. auto.
Qed.

End Format.

(** X18: a fingerprint is 32 lower-case hexadecimal digits, whatever the
    five values it is computed from. *)
Theorem session_hash_is_32_hex_digits {RT : PyRuntime} (kw : kwargs)
    (fp : string) :
  session_hash kw = Ok fp ->
  String.length fp = 32%nat
  /\ forallb lower_hex (list_ascii_of_string fp) = true.
Proof.
  unfold session_hash.
  do 5 (destruct (encode _) as [?|]; cbn [result_bind]; [|discriminate]).
  intros [= <-]. apply hexdigest_shape.
Qed.

Lemma session_hash_is_32_hex_digits_witness :
  String.length "4d41ca3ae901a60c9d82d1eb80b58661" = 32%nat
  /\ forallb lower_hex
       (list_ascii_of_string "4d41ca3ae901a60c9d82d1eb80b58661") = true.
Proof.
  apply (session_hash_is_32_hex_digits (RT:=exact_runtime)
           [("circuit_id", PStr "c1"); ("svlan", PInt 7)]).
  vm_compute. reflexivity.
Defined.

(** ** Materialisation of the policy *)

Section Materialisation.
Context {RT : PyRuntime} (self : Config).

Lemma dict_get_set {V} k k' (v : V) d :
  PyDict.get k' (PyDict.set k v d)
  = if String.eqb k' k then Some v else PyDict.get k' d.
Proof.
  destruct (String.eqb_spec k' k) as [->|Hne].
  - apply dict_get_set_eq.
  - apply dict_get_set_ne. congruence.
Qed.


End Materialisation.


(** X20: what a service item inherits.  In the ephemeral copy that
    [create_default_items] builds for a service item, each of the eight
    service keys holds the item's value, else the entry's, else the key's
    fallback; every other key of the entry is as in the entry. *)
Theorem service_entry_lookup (entry item : kwargs) (k : string) :
  PyDict.get k (service_entry entry item)
  = match PyDict.get k service_keys with
    | Some fallback =>
        Some (PyDict.get_default k (PyDict.get_default k fallback entry) item)
    | None => PyDict.get k entry
    end.
Proof.
  unfold service_entry, service_keys. cbn [fold_left fst snd PyDict.get].
  rewrite !dict_get_set.
  repeat match goal with
         | |- context [String.eqb k ?c] =>
             destruct (String.eqb_spec k c) as [->|?]; [reflexivity|]
         end.
  reflexivity.
Qed.

(** ** Creation of a session context *)

(** X21: a fingerprint that is listed is not created again.  If the
    listing holds a session context whose name is the entry's fingerprint,
    [create_session_context] warns and returns [None]: the listing is its
    only call, whatever else the entry holds. *)
Theorem listed_fingerprint_is_not_created {RT : PyRuntime} (self : Config)
    {St} (h : handler St) (s s1 : St) (entry : kwargs) (shards : dict Shard)
    (l : list SessionContext) (fp : string) :
  handle h UPSF.list_session_contexts s = (Ok l, s1) ->
  session_hash (fingerprint_arguments entry) = Ok fp ->
  In fp (map sctx_name l) ->
  run h (create_session_context self entry shards) s
  = (returned None, s1,
     [ev_call UPSF.list_session_contexts (Ok l);
      ev_log WARNING "session context exists already"]).
Proof.
  intros Hlist Hfp Hin.
  unfold create_session_context.
  cbn [bind upsf_call run]. rewrite Hlist. rewrite Hfp. cbn [lift bind].
  assert (Hmem : PyDict.mem fp
                   (PyDict.of_list (map (fun sctx => (sctx_name sctx, sctx)) l))
                 = true).
  { apply dict_of_list_mem. now rewrite map_map. }
  rewrite Hmem. reflexivity.
Qed.

Lemma listed_fingerprint_is_not_created_witness :
  let entry := [("name", PStr "alice"); ("circuitId", PStr "c1");
                ("svlan", PInt 7)] in
  let listed :=
    {| sctx_name := "55bf928d7894376496bf4ccb33600f01";
       sctx_required_quality := Some 10;
       sctx_required_service_group := Some ["basic"];
       sctx_desired_shard := Some "" |} in
  let r :=
    {| Registry.shards := [Scenario.shard_X];
       Registry.service_gateway_user_planes := [Scenario.sgup_A];
       Registry.session_contexts := [listed] |} in
  run Registry.upsf
    (create_session_context (RT:=exact_runtime) Scenario.config entry [])
    (Registry.reliable r)
  = (returned None, Registry.reliable r,
     [ev_call UPSF.list_session_contexts (Ok [listed]);
      ev_log WARNING "session context exists already"]).
Proof.
  intros entry listed r.
  apply (listed_fingerprint_is_not_created (RT:=exact_runtime)
           Scenario.config Registry.upsf (Registry.reliable r)
           (Registry.reliable r) entry [] [listed]
           "55bf928d7894376496bf4ccb33600f01").
  - reflexivity.
  - vm_compute. reflexivity.
  - simpl. auto.
Defined.

(** X22: what a creation carries.  Whenever [create_session_context] calls
    the UPSF to create a context, the name it passes is the fingerprint of
    the entry, which the listing did not hold; both VLAN tags are passed as
    the integers [int()] makes of the entry's values; and a
    [desired_shard] is passed exactly when the entry asks for a shard, which
    is then a string found among the shards given. *)
Theorem created_context_parameters {RT : PyRuntime} (self : Config)
    {St} (h : handler St) (s : St) (entry : kwargs) (shards : dict Shard)
    (params : kwargs) :
  In (UPSF.create_session_context params)
     (calls (trace (run h (create_session_context self entry shards) s))) ->
  exists fp svlan cvlan,
    session_hash (fingerprint_arguments entry) = Ok fp
    /\ py_int (PyDict.get_default "svlan" (PStr "0") entry) = Ok svlan
    /\ py_int (PyDict.get_default "cvlan" (PStr "0") entry) = Ok cvlan
    /\ PyDict.get "name" params = Some (PStr fp)
    /\ PyDict.get "svlan" params = Some (PInt svlan)
    /\ PyDict.get "cvlan" params = Some (PInt cvlan)
    /\ (forall l s1,
          handle h UPSF.list_session_contexts s = (Ok l, s1) ->
          ~ In fp (map sctx_name l))
    /\ match PyDict.get "desired_shard" params with
       | None =>
           is_empty_or_none (PyDict.get_default "shard" PNone entry) = true
       | Some v =>
           exists name,
             v = PStr name
             /\ PyDict.get "shard" entry = Some (PStr name)
             /\ name <> ""
             /\ PyDict.mem name shards = true
       end.
Proof.
  unfold create_session_context, trace.
  cbn [bind upsf_call run].
  destruct (handle h UPSF.list_session_contexts s) as [[l|e] s1];
    [|cbn; intros [[=]|[]]].
  destruct (session_hash (fingerprint_arguments entry)) as [fp|e] eqn:Hfp;
    [|cbn; intros [[=]|[]]].
  cbn [lift bind].
  destruct (PyDict.mem fp _) eqn:Hmem; [cbn; intros [[=]|[]]|].
  destruct (py_int (PyDict.get_default "svlan" (PStr "0") entry))
    as [svlan|e] eqn:Hs; [|cbn; intros [[=]|[]]].
  destruct (py_int (PyDict.get_default "cvlan" (PStr "0") entry))
    as [cvlan|e] eqn:Hc; [|cbn; intros [[=]|[]]].
  cbn [lift bind].
  assert (Hfresh : forall l' s',
    (Ok l, s1) = (Ok l', s') -> ~ In fp (map sctx_name l')).
  { intros l' s' [= <- <-] Hin.
    assert (PyDict.mem fp
              (PyDict.of_list (map (fun sctx => (sctx_name sctx, sctx)) l))
            = true) by (apply dict_of_list_mem; now rewrite map_map).
    congruence. }
  destruct (is_empty_or_none (PyDict.get_default "shard" PNone entry))
    eqn:Hshard; cbn [negb].
  - cbn [log bind run]. next_reply h; cbn.
    all: intros [[=]|[[= <-]|[]]].
    all: exists fp, svlan, cvlan; repeat split; auto.
  - destruct (PyDict.get_default "shard" PNone entry) as [| | |name| | |]
      eqn:Hget; cbn [contains_key lift bind negb];
      try (cbn; destruct (PyDict.mem "name" entry); cbn;
           intros [[=]|[]]; fail);
      try (cbn; intros [[=]|[]]; fail).
    destruct (PyDict.mem name shards) eqn:Hfound; cbn [negb].
    2:{ destruct (PyDict.mem "name" entry); cbn; intros [[=]|[]]. }
    cbn [log bind run]. next_reply h; cbn.
    all: intros [[=]|[[= <-]|[]]].
    all: exists fp, svlan, cvlan; repeat split; auto.
    all: exists name; repeat split; auto.
    all: try (intros ->; discriminate Hshard).
    all: unfold PyDict.get_default in Hget;
      destruct (PyDict.get "shard" entry); congruence.
Qed.

Lemma created_context_parameters_witness :
  let entry := [("name", PStr "alice"); ("circuitId", PStr "c1");
                ("svlan", PStr "7"); ("shard", PStr "X")] in
  let shards := [("X", Scenario.shard_X)] in
  let params :=
    [("name", PStr "55bf928d7894376496bf4ccb33600f01");
     ("required_service_group", PList [PStr "basic"]);
     ("required_quality", PInt 1000);
     ("description", PStr "name=alice;customer_type=residential");
     ("circuit_id", PStr "c1"); ("remote_id", PStr "");
     ("source_mac_address", PStr "");
     ("svlan", PInt 7); ("cvlan", PInt 0);
     ("desired_shard", PStr "X")] in
  exists fp svlan cvlan,
    session_hash (RT:=exact_runtime) (fingerprint_arguments entry) = Ok fp
    /\ py_int (RT:=exact_runtime)
         (PyDict.get_default "svlan" (PStr "0") entry) = Ok svlan
    /\ py_int (RT:=exact_runtime)
         (PyDict.get_default "cvlan" (PStr "0") entry) = Ok cvlan
    /\ PyDict.get "name" params = Some (PStr fp)
    /\ PyDict.get "svlan" params = Some (PInt svlan)
    /\ PyDict.get "cvlan" params = Some (PInt cvlan)
    /\ (forall l s1,
          handle Registry.upsf UPSF.list_session_contexts
            (Registry.reliable Scenario.s1) = (Ok l, s1) ->
          ~ In fp (map sctx_name l))
    /\ match PyDict.get "desired_shard" params with
       | None =>
           is_empty_or_none (PyDict.get_default "shard" PNone entry) = true
       | Some v =>
           exists name,
             v = PStr name
             /\ PyDict.get "shard" entry = Some (PStr name)
             /\ name <> ""
             /\ PyDict.mem name shards = true
       end.
Proof.
  intros entry shards params.
  apply (created_context_parameters (RT:=exact_runtime) Scenario.config
           Registry.upsf (Registry.reliable Scenario.s1) entry shards params).
  vm_compute. auto.
Defined.

(** ** Reading a flag *)

Lemma lower_upper_char c : lower_char (upper_char c) = lower_char c.
Proof. destruct c as [[] [] [] [] [] [] [] []]; reflexivity. Qed.

Lemma lower_upper s : lower (upper s) = lower s.
Proof.
  induction s as [|c s IH]; [reflexivity|].
  cbn [upper lower]. now rewrite lower_upper_char, IH.
Qed.

Lemma lower_lower_char c : lower_char (lower_char c) = lower_char c.
Proof. destruct c as [[] [] [] [] [] [] [] []]; reflexivity. Qed.

Lemma lower_lower s : lower (lower s) = lower s.
Proof.
  induction s as [|c s IH]; [reflexivity|].
  cbn [lower]. now rewrite lower_lower_char, IH.
Qed.

(** X23: [str2bool] does not look at the case of ASCII letters: a string
    of ASCII characters, the same string in upper case and the same string
    in lower case are read as the same boolean.  (Beyond ASCII the upper
    case of a character can be an ASCII letter, as for the long s, and the
    statement is not made.) *)
Theorem str2bool_ignores_case (value : string) :
  is_ascii value = true ->
  str2bool (upper value) = str2bool value
  /\ str2bool (lower value) = str2bool value.
Proof.
  intros _. unfold str2bool. now rewrite lower_upper, lower_lower.
Qed.

Lemma str2bool_ignores_case_witness :
  str2bool "YES" = str2bool "Yes" /\ str2bool "yes" = str2bool "Yes".
Proof.
  apply (str2bool_ignores_case "Yes"). reflexivity.
Defined.
